(** * Yantra dimension generator: the calculators of [yantra_core.py],
      [yantra_app.py], [yantra_report_app.py] and [yantra_web_app.py]

    The programs compute with Python floats, which are IEEE 754 binary64
    numbers.  They are embedded here on Rocq's primitive binary64 floats, so
    that every addition, subtraction, multiplication, division and comparison
    of the source is the same operation, bit for bit, in the model.  What
    Python adds on top of the hardware ([int()], [//], [%], [float()] of a
    text, the [.3f] and [02d] formats, [str.split]) is written out below from
    the behaviour of CPython.  The C library's [tan], [sin] and [cos] are a
    parameter ([libm]); a reference instance that evaluates the power series
    in exact integer arithmetic and rounds once is given to run the model. *)

From Stdlib Require Import ZArith Bool List String Ascii Lia.
From Stdlib Require Import DecimalString Floats.
Import ListNotations.

Set Warnings "-inexact-float".

Local Open Scope string_scope.

(** ** Exceptions and results *)

Inductive exn : Type :=
| ValueError (msg : string)
| OverflowError (msg : string)
| ZeroDivisionError (msg : string)
| IndexError (msg : string).

Inductive res (A : Type) : Type :=
| Ok (a : A)
| Raise (e : exn).

Arguments Ok {A} a.
Arguments Raise {A} e.

Definition bind {A B : Type} (r : res A) (k : A -> res B) : res B :=
  match r with
  | Ok a => k a
  | Raise e => Raise e
  end.

Notation "x <- r ;; k" := (bind r (fun x => k))
  (at level 61, r at next level, right associativity).

Definition succeeds {A : Type} (r : res A) : bool :=
  match r with
  | Ok _ => true
  | Raise _ => false
  end.

(** ** Python integers: [str(n)] and [format(n, "0wd")] *)

Module pyint.

Definition str (n : Z) : string := NilZero.string_of_int (Z.to_int n).

Fixpoint zeros (k : nat) : string :=
  match k with
  | O => EmptyString
  | S k' => String "0" (zeros k')
  end.

(** Left padding with the digit zero up to [width] characters. *)
Definition zfill (width : nat) (s : string) : string :=
  zeros (width - String.length s) ++ s.

(** [format(n, "0wd")]: the sign comes first and counts in the width. *)
Definition format_0d (width : nat) (n : Z) : string :=
  if (n <? 0)%Z
  then String "-" (zfill (width - 1) (str (Z.opp n)))
  else zfill width (str n).

End pyint.

(** ** Python floats *)

Module pyfloat.

Local Open Scope Z_scope.

(** The float nearest to [m * 2^e] (ties to even), infinite on overflow. *)
Definition of_dyadic (m e : Z) : float :=
  SF2Prim (binary_normalize prec emax m e false).

(** The float nearest to the rational [n / d], for [0 <= n] and [0 < d]:
    the quotient is taken with 64 bits or more and a sticky bit below. *)
Definition of_ratio (n d : Z) : float :=
  let k := 64 + Z.log2_up d in
  let q := Z.shiftl n k / d in
  let sticky := if Z.shiftl n k mod d =? 0 then 0 else 1 in
  of_dyadic (2 * q + sticky) (- k - 1).

Definition is_nonzero (x : float) : bool := negb (PrimFloat.eqb x 0%float).

(** [m * 2^e] cut towards zero, for [0 <= m]. *)
Definition trunc_dyadic (m e : Z) : Z :=
  if 0 <=? e then m * 2 ^ e else m / 2 ^ (- e).

(** [int(x)]. *)
Definition int (x : float) : res Z :=
  match Prim2SF x with
  | S754_nan => Raise (ValueError "cannot convert float NaN to integer")
  | S754_infinity _ =>
      Raise (OverflowError "cannot convert float infinity to integer")
  | S754_zero _ => Ok 0
  | S754_finite s m e => Ok (cond_Zopp s (trunc_dyadic (Zpos m) e))
  end.

(** An integer operand of a float operation is converted first. *)
Definition of_int (n : Z) : res float :=
  let x := of_dyadic n 0 in
  if is_finite x then Ok x
  else Raise (OverflowError "int too large to convert to float").

(** C's [floor]. *)
Definition floor (x : float) : float :=
  match Prim2SF x with
  | S754_finite s m e =>
      if 0 <=? e then x
      else
        let q := Zpos m / 2 ^ (- e) in
        let exact := Zpos m mod 2 ^ (- e) =? 0 in
        if s then (if exact then x else of_dyadic (- (q + 1)) 0)
        else (if q =? 0 then 0%float else of_dyadic q 0)
  | _ => x
  end.

Definition copysign_zero (w : float) : float :=
  if get_sign w then (-0)%float else 0%float.

(** C's [fmod]: the exact remainder of the division cut towards zero, with
    the sign of [x]. *)
Definition fmod (x y : float) : float :=
  match Prim2SF x, Prim2SF y with
  | S754_nan, _ | _, S754_nan => nan
  | S754_infinity _, _ => nan
  | _, S754_zero _ => nan
  | _, S754_infinity _ => x
  | S754_zero _, _ => x
  | S754_finite sx mx ex, S754_finite _ my ey =>
      let e := Z.min ex ey in
      let r := (Zpos mx * 2 ^ (ex - e)) mod (Zpos my * 2 ^ (ey - e)) in
      if r =? 0 then (if sx then (-0)%float else 0%float)
      else of_dyadic (cond_Zopp sx r) e
  end.

(** [float_divmod] of CPython's floatobject.c, for a divisor that is not
    zero: the pair (floor quotient, remainder). *)
Definition div_mod (vx wx : float) : float * float :=
  let mod0 := fmod vx wx in
  let div0 := ((vx - mod0) / wx)%float in
  let adjust :=
    is_nonzero mod0 && negb (Bool.eqb (wx <? 0)%float (mod0 <? 0)%float) in
  let mod1 :=
    if is_nonzero mod0
    then (if adjust then (mod0 + wx)%float else mod0)
    else copysign_zero wx in
  let div1 := if adjust then (div0 - 1)%float else div0 in
  let floordiv :=
    if is_nonzero div1
    then
      let f := floor div1 in
      if (0.5 <? div1 - f)%float then (f + 1)%float else f
    else copysign_zero (vx / wx)%float in
  (floordiv, mod1).

(** [vx // wx]. *)
Definition floordiv (vx wx : float) : res float :=
  if (wx =? 0)%float
  then Raise (ZeroDivisionError "float floor division by zero")
  else Ok (fst (div_mod vx wx)).

(** [vx % wx] ([float_rem]). *)
Definition rem (vx wx : float) : res float :=
  if (wx =? 0)%float
  then Raise (ZeroDivisionError "float modulo")
  else
    let mod0 := fmod vx wx in
    Ok (if is_nonzero mod0
        then (if negb (Bool.eqb (wx <? 0)%float (mod0 <? 0)%float)
              then (mod0 + wx)%float else mod0)
        else copysign_zero wx).

(** *** Fixed-point formatting, [format(x, ".pf")] *)

(** [n / d] rounded to the nearest integer, ties to even ([0 <= n], [0 < d]). *)
Definition round_half_even (n d : Z) : Z :=
  let q := n / d in
  match 2 * (n mod d) ?= d with
  | Lt => q
  | Eq => if Z.even q then q else q + 1
  | Gt => q + 1
  end.

(** The magnitude [m * 2^e] counted in units of [10^-p], correctly rounded. *)
Definition scaled (p : nat) (m : positive) (e : Z) : Z :=
  if 0 <=? e then Zpos m * 2 ^ e * 10 ^ Z.of_nat p
  else round_half_even (Zpos m * 10 ^ Z.of_nat p) (2 ^ (- e)).

(** A count [n] of units of [10^-p] written in decimal. *)
Definition fixed (p : nat) (n : Z) : string :=
  let unit := 10 ^ Z.of_nat p in
  match p with
  | O => pyint.str n
  | _ => pyint.str (n / unit) ++ "." ++ pyint.zfill p (pyint.str (n mod unit))
  end%string.

Definition sign_str (s : bool) : string :=
  if s then "-" else EmptyString.

Definition format_f (p : nat) (x : float) : string :=
  match Prim2SF x with
  | S754_nan => "nan"
  | S754_infinity s => sign_str s ++ "inf"
  | S754_zero s => sign_str s ++ fixed p 0
  | S754_finite s m e => sign_str s ++ fixed p (scaled p m e)
  end%string.

End pyfloat.

(** ** [float(text)] and [str.strip] *)

Module pystr.

Definition is_space (c : ascii) : bool :=
  let n := nat_of_ascii c in
  ((9 <=? n) && (n <=? 13) || (28 <=? n) && (n <=? 32))%nat.

Definition is_digit (c : ascii) : bool :=
  let n := nat_of_ascii c in ((48 <=? n) && (n <=? 57))%nat.

Definition digit_value (c : ascii) : Z := Z.of_nat (nat_of_ascii c) - 48.

Fixpoint lstrip (l : list ascii) : list ascii :=
  match l with
  | c :: l' => if is_space c then lstrip l' else l
  | [] => []
  end.

Definition strip_chars (l : list ascii) : list ascii :=
  rev (lstrip (rev (lstrip l))).

(** [s.strip()]. *)
Definition strip (s : string) : string :=
  string_of_list_ascii (strip_chars (list_ascii_of_string s)).

Definition lower (c : ascii) : ascii :=
  let n := nat_of_ascii c in
  if ((65 <=? n) && (n <=? 90))%nat then ascii_of_nat (n + 32) else c.

(** An underscore may stand between two digits and nowhere else; the
    underscores are dropped ([prev] is the character before). *)
Fixpoint drop_underscores (prev : ascii) (l : list ascii)
  : option (list ascii) :=
  match l with
  | [] => if Ascii.eqb prev "_" then None else Some []
  | c :: l' =>
      if Ascii.eqb c "_"
      then (if is_digit prev then drop_underscores c l' else None)
      else if Ascii.eqb prev "_" && negb (is_digit c) then None
      else option_map (cons c) (drop_underscores c l')
  end.

(** The longest prefix of digits, and what follows. *)
Fixpoint span_digits (l : list ascii) : list ascii * list ascii :=
  match l with
  | c :: l' =>
      if is_digit c
      then let (ds, rest) := span_digits l' in (c :: ds, rest)
      else ([], l)
  | [] => ([], [])
  end.

Definition digits_value (ds : list ascii) : Z :=
  fold_left (fun acc c => (10 * acc + digit_value c)%Z) ds 0%Z.

(** The exponent part: nothing, or [e], an optional sign and digits. *)
Definition parse_exponent (l : list ascii) : option Z :=
  match l with
  | [] => Some 0%Z
  | c :: l' =>
      if Ascii.eqb (lower c) "e" then
        let (neg, l'') :=
          match l' with
          | "-"%char :: t => (true, t)
          | "+"%char :: t => (false, t)
          | _ => (false, l')
          end in
        match span_digits l'' with
        | ((_ :: _) as ds, []) =>
            Some (if neg then (- digits_value ds)%Z else digits_value ds)
        | _ => None
        end
      else None
  end.

(** The magnitude [d * 10^x] as a float, correctly rounded. *)
Definition decimal_to_float (d x : Z) : float :=
  if (d =? 0)%Z then 0%float
  else if (0 <=? x)%Z then pyfloat.of_dyadic (d * 10 ^ x) 0
  else pyfloat.of_ratio d (10 ^ (- x)).

(** An unsigned literal: [inf], [infinity], [nan] in any case, or decimal
    digits with an optional point and exponent. *)
Definition parse_magnitude (l : list ascii) : option float :=
  let word := string_of_list_ascii (map lower l) in
  if String.eqb word "inf" || String.eqb word "infinity" then Some infinity
  else if String.eqb word "nan" then Some nan
  else
    let (ip, rest) := span_digits l in
    let (fp, rest') :=
      match rest with
      | "."%char :: t => span_digits t
      | _ => ([], rest)
      end in
    match (ip ++ fp)%list with
    | [] => None
    | ds =>
        match parse_exponent rest' with
        | Some x =>
            Some (decimal_to_float (digits_value ds)
                    (x - Z.of_nat (List.length fp)))
        | None => None
        end
    end.

Definition parse_float (l : list ascii) : option float :=
  match drop_underscores " " (strip_chars l) with
  | Some ("-"%char :: t) => option_map PrimFloat.opp (parse_magnitude t)
  | Some ("+"%char :: t) => parse_magnitude t
  | Some t => parse_magnitude t
  | None => None
  end.

(** [float(s)] for a text of ASCII characters. *)
Definition float (s : string) : res float :=
  match parse_float (list_ascii_of_string s) with
  | Some x => Ok x
  | None =>
      Raise (ValueError ("could not convert string to float: '" ++ s ++ "'"))
  end.

Definition is_prefix (p l : list ascii) : bool :=
  (List.length p <=? List.length l)%nat
  && String.eqb (string_of_list_ascii (firstn (List.length p) l))
                (string_of_list_ascii p).

Fixpoint contains_chars (p l : list ascii) : bool :=
  is_prefix p l ||
  match l with
  | [] => false
  | _ :: l' => contains_chars p l'
  end.

(** [p in s]. *)
Definition contains (p s : string) : bool :=
  contains_chars (list_ascii_of_string p) (list_ascii_of_string s).

(** The first word of [s.split()], [s.split()[0]]. *)
Definition first_word (s : string) : res string :=
  match lstrip (list_ascii_of_string s) with
  | [] => Raise (IndexError "list index out of range")
  | l =>
      let fix word (l : list ascii) : list ascii :=
        match l with
        | c :: l' => if is_space c then [] else c :: word l'
        | [] => []
        end in
      Ok (string_of_list_ascii (word l))
  end.

End pystr.

(** ** The [math] module *)

Module math.

Local Open Scope float_scope.

(** The C library's functions that [math] calls. *)
Record libm : Type := {
  c_tan : float -> float;
  c_sin : float -> float;
  c_cos : float -> float
}.

(** What the C standard (Annex F) fixes of them and the programs rely on:
    an infinite argument gives NaN, a finite one a finite result. *)
Record libm_ok (lm : libm) : Prop := {
  tan_finite : forall x, is_finite x = true -> is_finite (c_tan lm x) = true;
  sin_finite : forall x, is_finite x = true -> is_finite (c_sin lm x) = true;
  cos_finite : forall x, is_finite x = true -> is_finite (c_cos lm x) = true;
  tan_inf : forall x, is_infinity x = true -> is_nan (c_tan lm x) = true;
  sin_inf : forall x, is_infinity x = true -> is_nan (c_sin lm x) = true;
  cos_inf : forall x, is_infinity x = true -> is_nan (c_cos lm x) = true
}.

Definition pi : float := 3.141592653589793.

Definition degToRad : float := pi / 180.

(** [math.radians(x)]. *)
Definition radians (x : float) : float := x * degToRad.

(** CPython's [math_1]: the C function is called and a NaN or an infinity
    that the argument does not explain is turned into an exception. *)
Definition math_1 (func : float -> float) (x : float) : res float :=
  let r := func x in
  if is_nan r && negb (is_nan x)
  then Raise (ValueError "math domain error")
  else if is_infinity r && is_finite x
  then Raise (ValueError "math domain error")
  else Ok r.

Definition tan (lm : libm) : float -> res float := math_1 (c_tan lm).
Definition sin (lm : libm) : float -> res float := math_1 (c_sin lm).
Definition cos (lm : libm) : float -> res float := math_1 (c_cos lm).

End math.

(** ** A reference C library

    Sine and cosine are summed from their power series in fixed point with
    [bits] binary places, after the argument is reduced by a multiple of
    2 pi, and the sum is rounded once to binary64. *)

Module reflibm.

Local Open Scope Z_scope.

Definition bits : Z := 320.

Definition unit : Z := 2 ^ bits.

(** [arctan (1/n)] in fixed point: the sum of [(-1)^k / ((2k+1) n^(2k+1))]. *)
Fixpoint atan_inv_from (fuel : nat) (n2 p k acc : Z) : Z :=
  match fuel with
  | O => acc
  | S fuel' =>
      let t := p / (2 * k + 1) in
      atan_inv_from fuel' n2 (p / n2) (k + 1)
        (if Z.even k then acc + t else acc - t)
  end.

Definition atan_inv (n : Z) : Z := atan_inv_from 150 (n * n) (unit / n) 0 0.

(** Machin's formula. *)
Definition pi_fx : Z :=
  Eval vm_compute in 4 * (4 * atan_inv 5 - atan_inv 239).

(** [sum (-1)^k r^(2k+j) / (2k+j)!] from the term of rank [k]. *)
Fixpoint series (fuel : nat) (r2 term k acc : Z) : Z :=
  match fuel with
  | O => acc
  | S fuel' =>
      let term' := - (term * r2 / unit) / (k * (k + 1)) in
      series fuel' r2 term' (k + 2) (acc + term')
  end.

Definition sin_fx (r : Z) : Z := series 80 (r * r / unit) r 2 r.

Definition cos_fx (r : Z) : Z := series 80 (r * r / unit) unit 1 unit.

(** The argument [m * 2^e] in fixed point, less the nearest multiple of
    2 pi. *)
Definition reduce (m e : Z) : Z :=
  let x := if 0 <=? e + bits then m * 2 ^ (e + bits) else m / 2 ^ (- (e + bits)) in
  let n := (2 * x + 2 * pi_fx) / (4 * pi_fx) in
  x - n * (2 * pi_fx).

(** Below [2^-27] in magnitude the sine and the tangent round to the
    argument and the cosine to one. *)
Definition tiny (m : positive) (e : Z) : bool :=
  Zpos (digits2_pos m) + e <? -27.

Definition sin (x : float) : float :=
  match Prim2SF x with
  | S754_nan | S754_infinity _ => nan
  | S754_zero _ => x
  | S754_finite s m e =>
      if tiny m e then x
      else pyfloat.of_dyadic (sin_fx (reduce (cond_Zopp s (Zpos m)) e)) (- bits)
  end.

Definition cos (x : float) : float :=
  match Prim2SF x with
  | S754_nan | S754_infinity _ => nan
  | S754_zero _ => 1%float
  | S754_finite s m e =>
      if tiny m e then 1%float
      else pyfloat.of_dyadic (cos_fx (reduce (cond_Zopp s (Zpos m)) e)) (- bits)
  end.

Definition tan (x : float) : float :=
  match Prim2SF x with
  | S754_nan | S754_infinity _ => nan
  | S754_zero _ => x
  | S754_finite s m e =>
      if tiny m e then x
      else
        let r := reduce (cond_Zopp s (Zpos m)) e in
        let sn := sin_fx r in
        let cs := cos_fx r in
        let q := pyfloat.of_ratio (Z.abs sn) (Z.abs cs) in
        if Bool.eqb (sn <? 0) (cs <? 0) then q else (- q)%float
  end.

Definition lm : math.libm :=
  {| math.c_tan := tan; math.c_sin := sin; math.c_cos := cos |}.

End reflibm.

(** The degree sign, U+00B0, as the two bytes of its UTF-8 encoding. *)
Definition degree_sign : string :=
  String (ascii_of_nat 194) (String (ascii_of_nat 176) EmptyString).

(** The double quote. *)
Definition dquote : string := String (ascii_of_nat 34) EmptyString.

(** ** yantra_core.py *)

(** The dictionary that [calculate_yantra_dimensions] returns, one field per
    key; [eot_chart] is the inner dictionary in the order it is written. *)
Record YantraDimensions : Type := {
  phi : string;
  lmbda : string;
  R : string;
  time_offset_str : string;
  time_offset_min : float;
  samrat_angle : string;
  samrat_height : string;
  nadivalaya_tilt : string;
  bhitti_alignment : string;
  rasivalaya_zd_ss : string;
  rasivalaya_zd_ws : string;
  eot_chart : list (string * float)
}.

Module yantra_core.

Local Open Scope float_scope.

Definition OBLIQUITY_ECLIPTIC : float := 23.44.
Definition IST_REFERENCE_LONGITUDE : float := 82.5.

Definition abs_offset_seconds (longitude_lambda : float) : float :=
  abs ((longitude_lambda - IST_REFERENCE_LONGITUDE) * 4) * 60.

Definition calculate_time_offset (longitude_lambda : float)
  : res (string * float) :=
  let longitude_difference := longitude_lambda - IST_REFERENCE_LONGITUDE in
  let time_offset_minutes := longitude_difference * 4 in
  let abs_offset_seconds := abs time_offset_minutes * 60 in
  h <- pyfloat.floordiv abs_offset_seconds 3600 ;;
  hours <- pyfloat.int h ;;
  r <- pyfloat.rem abs_offset_seconds 3600 ;;
  q <- pyfloat.floordiv r 60 ;;
  minutes <- pyfloat.int q ;;
  r' <- pyfloat.rem abs_offset_seconds 60 ;;
  seconds <- pyfloat.int r' ;;
  let direction :=
    if 0 <? time_offset_minutes then "AHEAD OF" else "BEHIND" in
  Ok ((pyint.format_0d 2 hours ++ "h " ++ pyint.format_0d 2 minutes ++ "m "
       ++ pyint.format_0d 2 seconds ++ "s " ++ direction ++ " IST")%string,
      time_offset_minutes).

Definition calculate_yantra_dimensions (lm : math.libm)
    (latitude_phi longitude_lambda base_radius_R : float)
  : res YantraDimensions :=
  let phi := latitude_phi in
  let lmbda := longitude_lambda in
  let R := base_radius_R in
  let phi_rad := math.radians phi in
  (* 1. Samrat Yantra *)
  let samrat_gnomon_angle := phi in
  t <- math.tan lm phi_rad ;;
  let samrat_gnomon_height := R * t in
  (* 2. Nadivalaya Yantra *)
  let nadivalaya_tilt_angle := 90.0 - phi in
  (* 3. Daksinottara Bhitti *)
  let bhitti_alignment :=
    "Must be aligned precisely North-South (Local Meridian)" in
  (* 4. Rasivalaya Yantras *)
  let ZD_eq := 90.0 - phi in
  let ZD_ss := ZD_eq - OBLIQUITY_ECLIPTIC in
  let ZD_ws := ZD_eq + OBLIQUITY_ECLIPTIC in
  (* 5. Time calibration *)
  tm <- calculate_time_offset lmbda ;;
  let eot_chart := [("Feb 11", -14.2); ("May 14", 3.8); ("Nov 03", 16.4)] in
  Ok {| phi := (pyfloat.format_f 4 phi ++ degree_sign ++ " N")%string;
        lmbda := (pyfloat.format_f 4 lmbda ++ degree_sign ++ " E")%string;
        R := pyfloat.format_f 3 R;
        time_offset_str := fst tm;
        time_offset_min := snd tm;
        samrat_angle :=
          (pyfloat.format_f 3 samrat_gnomon_angle ++ degree_sign)%string;
        samrat_height := pyfloat.format_f 3 samrat_gnomon_height;
        nadivalaya_tilt :=
          (pyfloat.format_f 3 nadivalaya_tilt_angle ++ degree_sign)%string;
        bhitti_alignment := bhitti_alignment;
        rasivalaya_zd_ss := (pyfloat.format_f 3 ZD_ss ++ degree_sign)%string;
        rasivalaya_zd_ws := (pyfloat.format_f 3 ZD_ws ++ degree_sign)%string;
        eot_chart := eot_chart |}.

End yantra_core.

(** ** yantra_report_app.py: its own copy of the calculator, and [main] *)

(** What a run of a command-line [main] ends with: the message printed by
    the [except ValueError] branch, the dictionary handed to the report
    template, or an exception that nothing catches. *)
Inductive outcome : Type :=
| Aborted (printed : string)
| Report (data : YantraDimensions)
| Uncaught (e : exn).

Module yantra_report_app.

Local Open Scope float_scope.

Definition OBLIQUITY_ECLIPTIC : float := 23.44.
Definition IST_REFERENCE_LONGITUDE : float := 82.5.

Definition calculate_time_offset (longitude_lambda : float)
  : res (string * float) :=
  let longitude_difference := longitude_lambda - IST_REFERENCE_LONGITUDE in
  let time_offset_minutes := longitude_difference * 4 in
  let abs_offset_seconds := abs time_offset_minutes * 60 in
  h <- pyfloat.floordiv abs_offset_seconds 3600 ;;
  hours <- pyfloat.int h ;;
  r <- pyfloat.rem abs_offset_seconds 3600 ;;
  q <- pyfloat.floordiv r 60 ;;
  minutes <- pyfloat.int q ;;
  r' <- pyfloat.rem abs_offset_seconds 60 ;;
  seconds <- pyfloat.int r' ;;
  let direction :=
    if 0 <? time_offset_minutes then "AHEAD OF" else "BEHIND" in
  Ok ((pyint.format_0d 2 hours ++ "h " ++ pyint.format_0d 2 minutes ++ "m "
       ++ pyint.format_0d 2 seconds ++ "s " ++ direction ++ " IST")%string,
      time_offset_minutes).

Definition calculate_yantra_dimensions (lm : math.libm)
    (latitude_phi longitude_lambda base_radius_R : float)
  : res YantraDimensions :=
  let phi := latitude_phi in
  let lmbda := longitude_lambda in
  let R := base_radius_R in
  let phi_rad := math.radians phi in
  let samrat_gnomon_angle := phi in
  t <- math.tan lm phi_rad ;;
  let samrat_gnomon_height := R * t in
  let nadivalaya_tilt_angle := 90.0 - phi in
  let bhitti_alignment :=
    "Must be aligned precisely North-South (Local Meridian)" in
  let ZD_eq := 90.0 - phi in
  let ZD_ss := ZD_eq - OBLIQUITY_ECLIPTIC in
  let ZD_ws := ZD_eq + OBLIQUITY_ECLIPTIC in
  tm <- calculate_time_offset lmbda ;;
  let eot_chart := [("Feb 11", -14.2); ("May 14", 3.8); ("Nov 03", 16.4)] in
  Ok {| phi := (pyfloat.format_f 4 phi ++ degree_sign ++ " N")%string;
        lmbda := (pyfloat.format_f 4 lmbda ++ degree_sign ++ " E")%string;
        R := pyfloat.format_f 3 R;
        time_offset_str := fst tm;
        time_offset_min := snd tm;
        samrat_angle :=
          (pyfloat.format_f 3 samrat_gnomon_angle ++ degree_sign)%string;
        samrat_height := pyfloat.format_f 3 samrat_gnomon_height;
        nadivalaya_tilt :=
          (pyfloat.format_f 3 nadivalaya_tilt_angle ++ degree_sign)%string;
        bhitti_alignment := bhitti_alignment;
        rasivalaya_zd_ss := (pyfloat.format_f 3 ZD_ss ++ degree_sign)%string;
        rasivalaya_zd_ws := (pyfloat.format_f 3 ZD_ws ++ degree_sign)%string;
        eot_chart := eot_chart |}.

(** The body of the [try] block: the three answers are converted, then the
    ranges are checked. *)
Definition read_inputs (lat_text lon_text radius_text : string)
  : res (float * float * float) :=
  latitude <- pystr.float (pystr.strip lat_text) ;;
  longitude <- pystr.float (pystr.strip lon_text) ;;
  base_radius <- pystr.float (pystr.strip radius_text) ;;
  if negb ((0 <=? latitude) && (latitude <=? 90))
  then Raise (ValueError "Latitude must be between 0 and 90.")
  else if negb ((0 <=? longitude) && (longitude <=? 180))
  then Raise (ValueError "Longitude must be between 0 and 180 (East).")
  else if base_radius <=? 0
  then Raise (ValueError "Radius must be positive.")
  else Ok (latitude, longitude, base_radius).

Definition main (lm : math.libm) (lat_text lon_text radius_text : string)
  : outcome :=
  match read_inputs lat_text lon_text radius_text with
  | Raise (ValueError msg) =>
      Aborted (String (ascii_of_nat 10) "ERROR: Invalid input. " ++ msg)
  | Raise e => Uncaught e
  | Ok (latitude, longitude, base_radius) =>
      match calculate_yantra_dimensions lm latitude longitude base_radius with
      | Ok data => Report data
      | Raise e => Uncaught e
      end
  end.

End yantra_report_app.

(** ** yantra_app.py: [main] over the calculator of yantra_core.py *)

Module yantra_app.

Local Open Scope float_scope.

Definition read_inputs (lat_text lon_text radius_text : string)
  : res (float * float * float) :=
  latitude <- pystr.float (pystr.strip lat_text) ;;
  longitude <- pystr.float (pystr.strip lon_text) ;;
  base_radius <- pystr.float (pystr.strip radius_text) ;;
  if negb ((0 <=? latitude) && (latitude <=? 90))
  then Raise (ValueError "Latitude must be between 0 and 90.")
  else if negb ((0 <=? longitude) && (longitude <=? 180))
  then Raise (ValueError "Longitude must be between 0 and 180 (East).")
  else if base_radius <=? 0
  then Raise (ValueError "Radius must be positive.")
  else Ok (latitude, longitude, base_radius).

Definition main (lm : math.libm) (lat_text lon_text radius_text : string)
  : outcome :=
  match read_inputs lat_text lon_text radius_text with
  | Raise (ValueError msg) =>
      Aborted (String (ascii_of_nat 10) "ERROR: Invalid input. " ++ msg)
  | Raise e => Uncaught e
  | Ok (latitude, longitude, base_radius) =>
      match yantra_core.calculate_yantra_dimensions
              lm latitude longitude base_radius with
      | Ok data => Report data
      | Raise e => Uncaught e
      end
  end.

End yantra_app.

(** ** yantra_web_app.py *)

Module yantra_web_app.

Local Open Scope float_scope.

(** [deg_to_dms]: [None] stands for Python's [None]. *)
Definition deg_to_dms (deg : option float) : res string :=
  match deg with
  | None => Ok "N/A"
  | Some deg =>
      let sign := 1%Z in
      let deg := abs deg in
      d <- pyfloat.int deg ;;
      d_float <- pyfloat.of_int d ;;
      let m_float := (deg - d_float) * 60 in
      m <- pyfloat.int m_float ;;
      m_flt <- pyfloat.of_int m ;;
      let s := (m_float - m_flt) * 60 in
      Ok (pyint.str (sign * d) ++ degree_sign ++ " " ++ pyint.str m ++ "' "
          ++ pyfloat.format_f 2 s ++ dquote)%string
  end.

Definition get_scale_factor (R_input : float) (unit_name : string)
  : res (float * string) :=
  if pystr.contains "Angula" unit_name then Ok (R_input * 0.02, "m")
  else
    w <- pystr.first_word unit_name ;;
    Ok (R_input, w).

(** The dictionary that [generate_yantra_data] returns. *)
Record YantraData : Type := {
  lat_dms : string;
  lon_dms : string;
  R_input : float;
  unit : string;
  unit_symbol : string;
  colat_dms : string;
  pala_bha : string;
  time_corr_min : string;
  time_corr_desc : string;
  samrat_angle : string;
  samrat_r : string;
  samrat_base : string;
  samrat_height : string;
  samrat_declination_ex : string;
  bhitti_r : string;
  bhitti_pole_alt : string;
  bhitti_equator_zd : string;
  nadi_tilt : string;
  digamsa_diameter : string;
  digamsa_pillar : string;
  rama_h : string;
  rama_r : string;
  rama_45deg : string;
  epsilon : string
}.

(** A length to three decimals, a space and the unit symbol. *)
Definition length_str (x : float) (unit_symbol : string) : string :=
  (pyfloat.format_f 3 x ++ " " ++ unit_symbol)%string.

Definition generate_yantra_data (lm : math.libm)
    (lat_deg lon_deg R_input : float) (unit_name : string)
  : res YantraData :=
  let OBLIQUITY_ECLIPTIC := "23.44"%string in  (* str(23.44) *)
  let IST_MERIDIAN := 82.5 in
  su <- get_scale_factor R_input unit_name ;;
  let scale_R_calc := fst su in
  let unit_symbol := snd su in
  (* Core calculations *)
  let phi_rad := math.radians lat_deg in
  let height_of_pole_angle := lat_deg in
  let colatitude_angle := 90.0 - lat_deg in
  t <- math.tan lm phi_rad ;;
  let pala_bha_length := scale_R_calc * t in
  let time_correction_minutes := (lon_deg - IST_MERIDIAN) * 4 in
  (* Samrat Yantra *)
  let gnomon_angle := lat_deg in
  c <- math.cos lm phi_rad ;;
  let gnomon_base_length := scale_R_calc * c in
  sn <- math.sin lm phi_rad ;;
  let gnomon_vertical_height := scale_R_calc * sn in
  (* Output data structure *)
  lat_dms <- deg_to_dms (Some lat_deg) ;;
  lon_dms <- deg_to_dms (Some lon_deg) ;;
  colat_dms <- deg_to_dms (Some colatitude_angle) ;;
  samrat_angle <- deg_to_dms (Some gnomon_angle) ;;
  t15 <- math.tan lm (math.radians 15) ;;
  bhitti_pole_alt <- deg_to_dms (Some height_of_pole_angle) ;;
  bhitti_equator_zd <- deg_to_dms (Some colatitude_angle) ;;
  nadi_tilt <- deg_to_dms (Some colatitude_angle) ;;
  t45 <- math.tan lm (math.radians 45) ;;
  Ok {| lat_dms := lat_dms;
        lon_dms := lon_dms;
        R_input := R_input;
        unit := unit_name;
        unit_symbol := unit_symbol;
        colat_dms := colat_dms;
        pala_bha := length_str pala_bha_length unit_symbol;
        time_corr_min := pyfloat.format_f 2 time_correction_minutes;
        time_corr_desc :=
          ("LST is " ++ pyfloat.format_f 2 (abs time_correction_minutes)
           ++ " min "
           ++ (if (0 <? time_correction_minutes)%float
               then "ahead" else "behind")
           ++ " IST")%string;
        samrat_angle := samrat_angle;
        samrat_r := length_str scale_R_calc unit_symbol;
        samrat_base := length_str gnomon_base_length unit_symbol;
        samrat_height := length_str gnomon_vertical_height unit_symbol;
        samrat_declination_ex := length_str (scale_R_calc * t15) unit_symbol;
        bhitti_r := length_str scale_R_calc unit_symbol;
        bhitti_pole_alt := bhitti_pole_alt;
        bhitti_equator_zd := bhitti_equator_zd;
        nadi_tilt := nadi_tilt;
        digamsa_diameter := length_str (2 * scale_R_calc) unit_symbol;
        digamsa_pillar := length_str (scale_R_calc / 5.0) unit_symbol;
        rama_h := length_str scale_R_calc unit_symbol;
        rama_r := length_str scale_R_calc unit_symbol;
        rama_45deg := length_str (scale_R_calc * t45) unit_symbol;
        epsilon := (OBLIQUITY_ECLIPTIC ++ degree_sign)%string |}.

(** The options of the unit select box. *)
Definition units : list string :=
  ["meters"; "feet"; "centimeters"; "Angula (approx. 2cm)"].

Definition exn_message (e : exn) : string :=
  match e with
  | ValueError m | OverflowError m | ZeroDivisionError m | IndexError m => m
  end.

(** The handler of the "Generate Report" button: [session] is the entry
    [results] of the session state, and the text is what the page shows. *)
Definition on_generate (lm : math.libm) (session : option YantraData)
    (lat_deg lon_deg R_input : float) (unit_name : string)
  : option YantraData * string :=
  match generate_yantra_data lm lat_deg lon_deg R_input unit_name with
  | Ok results => (Some results, "Dimensions Calculated Successfully!")
  | Raise e => (session, "Error during calculation: " ++ exn_message e)
  end%string.

End yantra_web_app.

(** * Magnitudes, exact values and printed values of floats

    These are the notions the theorems are stated with; none of them is
    part of the program. *)

(** [bnd k x]: [x] is a zero or a finite number below [2^k] in magnitude. *)
Definition bnd (k : Z) (x : spec_float) : Prop :=
  match x with
  | S754_zero _ => True
  | S754_finite _ m e => (Zpos (digits2_pos m) + e <= k)%Z
  | S754_infinity _ | S754_nan => False
  end.

(** [fbnd k x]: the float [x] is finite and below [2^k] in magnitude. *)
Definition fbnd (k : Z) (x : float) : Prop := bnd k (Prim2SF x).

(** The exact value of a finite float counted in units of [2^-1074], the
    smallest positive float: an integer. *)
Definition ival (x : spec_float) : Z :=
  match x with
  | S754_finite s m e => cond_Zopp s (Zpos m * 2 ^ (e + 1074))
  | _ => 0
  end%Z.

Definition exact (x : float) : Z := ival (Prim2SF x).

(** The number of units of [2^-1074] in one. *)
Definition one_exact : Z := 2 ^ 1074.

(** The sign a float is printed with. *)
Definition signbit (x : float) : bool :=
  match Prim2SF x with
  | S754_zero s | S754_infinity s | S754_finite s _ _ => s
  | S754_nan => false
  end.

(** The number that [format(x, ".pf")] prints for a finite [x], counted in
    units of [10^-p] and with its sign. *)
Definition printed (p : nat) (x : float) : Z :=
  match Prim2SF x with
  | S754_finite s m e => cond_Zopp s (pyfloat.scaled p m e)
  | _ => 0%Z
  end.

(** A text of white space only (the empty text is one). *)
Definition blank (s : string) : bool :=
  forallb pystr.is_space (list_ascii_of_string s).

(** [cut r N D]: the record [r] holds the number [N] cut at [D].  Its
    mantissa is [N / D], its round bit says whether the rest is half of
    [D] or more, its sticky bit whether anything is left beyond that. *)
Definition cut (r : shr_record) (N D : Z) : Prop :=
  exists R S : Z,
    (0 <= shr_m r /\ N = shr_m r * D + R /\
     2 * R = (if shr_r r then D else 0) + S /\ 0 <= S < D /\
     (shr_s r = false <-> S = 0))%Z.

(** * Facts about binary64 rounding

    The specification of the primitive operations ([SpecFloat]) rounds a
    mantissa and an exponent with [binary_round_aux].  The lemmas below
    bound the magnitude of its result and show it is a valid float; all
    arithmetic is on integers. *)

Section Rounding.

Local Open Scope Z_scope.

Lemma digits2_pos_size (p : positive) : digits2_pos p = Pos.size p.
Proof. induction p; simpl; congruence. Qed.

Lemma Zdigits2_log2 (m : Z) : 0 < m -> Zdigits2 m = Z.log2 m + 1.
Proof.
  destruct m as [|p|p]; try lia. intros _.
  destruct p; simpl; rewrite ?digits2_pos_size; lia.
Qed.

Lemma Zdigits2_nonneg (m : Z) : 0 <= Zdigits2 m.
Proof. destruct m; simpl; lia. Qed.

Lemma Zdigits2_pos (m : Z) : 0 < m -> 0 < Zdigits2 m.
Proof. destruct m; simpl; lia. Qed.

Lemma Zdigits2_lt_pow2 (m k : Z) : 0 <= m -> 0 <= k -> m < 2 ^ k -> Zdigits2 m <= k.
Proof.
  intros Hm Hk Hlt.
  destruct (Z.eq_dec m 0) as [->|Hne]; [simpl; lia|].
  rewrite Zdigits2_log2 by lia.
  assert (Z.log2 m < k) by (apply Z.log2_lt_pow2; lia). lia.
Qed.

Lemma Zdigits2_gt (m : Z) : 0 <= m -> m < 2 ^ Zdigits2 m.
Proof.
  intros Hm.
  destruct (Z.eq_dec m 0) as [->|Hne]; [simpl; lia|].
  rewrite Zdigits2_log2 by lia.
  replace (Z.log2 m + 1) with (Z.succ (Z.log2 m)) by lia.
  apply Z.log2_spec. lia.
Qed.

Lemma Zdigits2_le (m : Z) : 0 < m -> 2 ^ (Zdigits2 m - 1) <= m.
Proof.
  intros Hm. rewrite Zdigits2_log2 by lia.
  replace (Z.log2 m + 1 - 1) with (Z.log2 m) by lia.
  apply Z.log2_spec. lia.
Qed.

Lemma Zdigits2_mono (a b : Z) : 0 <= a <= b -> Zdigits2 a <= Zdigits2 b.
Proof.
  intros [Ha Hab].
  destruct (Z.eq_dec a 0) as [->|Hne]; [simpl; apply Zdigits2_nonneg|].
  rewrite !Zdigits2_log2 by lia.
  pose proof (Z.log2_le_mono a b Hab). lia.
Qed.

Lemma Zdigits2_div_pow2 (m n : Z) :
  0 <= n -> 0 < m / 2 ^ n -> Zdigits2 (m / 2 ^ n) = Zdigits2 m - n.
Proof.
  intros Hn Hq.
  assert (Hm : 0 < m).
  { destruct (Z_lt_le_dec 0 m) as [H|H]; [exact H|].
    assert (m / 2 ^ n <= 0) by (apply Z.div_le_upper_bound; lia). lia. }
  rewrite !Zdigits2_log2 by lia.
  rewrite <- Z.shiftr_div_pow2 by lia.
  rewrite Z.log2_shiftr by lia.
  rewrite <- Z.shiftr_div_pow2 in Hq by lia.
  assert (0 <= Z.log2 m - n).
  { destruct (Z_lt_le_dec (Z.log2 m) n) as [H|H]; [|lia].
    rewrite Z.shiftr_eq_0 in Hq; lia. }
  lia.
Qed.

Lemma Zdigits2_succ (m : Z) :
  0 < m ->
  Zdigits2 (m + 1) = Zdigits2 m \/
  (Zdigits2 (m + 1) = Zdigits2 m + 1 /\ m + 1 = 2 ^ Zdigits2 m).
Proof.
  intros Hm. rewrite !Zdigits2_log2 by lia.
  replace (m + 1) with (Z.succ m) by lia.
  destruct (Z.log2_succ_or m) as [H|H]; [right|left; lia].
  split; [lia|].
  destruct (Z.log2_eq_succ_is_pow2 m H) as [b Hb].
  rewrite Hb. f_equal.
  assert (0 <= b).
  { destruct (Z_lt_le_dec b 0) as [Hlt|Hle]; [|exact Hle].
    rewrite Z.pow_neg_r in Hb by lia. lia. }
  rewrite Hb in H. rewrite Z.log2_pow2 in H by lia. lia.
Qed.

(** Shifting a record to the right divides its mantissa by two. *)
Lemma shr_m_shr_1 (r : shr_record) : 0 <= shr_m r -> shr_m (shr_1 r) = shr_m r / 2.
Proof.
  destruct r as [m rb sb]. simpl. intros Hm.
  destruct m as [|p|p]; try lia; [reflexivity|].
  destruct p; simpl.
  - rewrite Pos2Z.inj_xI. apply Z.div_unique with 1; lia.
  - rewrite Pos2Z.inj_xO. apply Z.div_unique with 0; lia.
  - reflexivity.
Qed.

Lemma shr_m_iter_pos (p : positive) :
  forall r, 0 <= shr_m r ->
  shr_m (iter_pos shr_1 p r) = shr_m r / 2 ^ Zpos p.
Proof.
  induction p as [p IH|p IH|]; intros r Hr; simpl iter_pos.
  - assert (H1 : 0 <= shr_m (shr_1 r)).
    { rewrite shr_m_shr_1 by lia. apply Z.div_pos; lia. }
    assert (H2 : 0 <= shr_m (iter_pos shr_1 p (shr_1 r))).
    { rewrite IH by lia. apply Z.div_pos; lia. }
    rewrite IH by lia. rewrite IH by lia. rewrite shr_m_shr_1 by lia.
    rewrite !Z.div_div by lia. f_equal.
    replace (Zpos p~1) with (1 + Zpos p + Zpos p) by lia.
    rewrite !Z.pow_add_r by lia. lia.
  - assert (H2 : 0 <= shr_m (iter_pos shr_1 p r)).
    { rewrite IH by lia. apply Z.div_pos; lia. }
    rewrite IH by lia. rewrite IH by lia.
    rewrite !Z.div_div by lia. f_equal.
    replace (Zpos p~0) with (Zpos p + Zpos p) by lia.
    rewrite !Z.pow_add_r by lia. lia.
  - rewrite shr_m_shr_1 by lia. reflexivity.
Qed.

(** ** The rounding of [binary_round_aux], in integers *)

Lemma fexp_eq (e : Z) : fexp prec emax e = Z.max (e - 53) (-1074).
Proof. reflexivity. Qed.

Lemma shr_m_of_loc (m : Z) (l : location) : shr_m (shr_record_of_loc m l) = m.
Proof. destruct l as [|[]]; reflexivity. Qed.

Lemma round_nearest_even_cases (m : Z) (l : location) :
  round_nearest_even m l = m \/ round_nearest_even m l = m + 1.
Proof.
  destruct l as [|[]]; simpl; auto. destruct (Z.even m); auto.
Qed.

Lemma round_nearest_even_exact (m : Z) : round_nearest_even m loc_Exact = m.
Proof. reflexivity. Qed.

(** [shr_fexp] brings the exponent up to [fexp] of the magnitude and cuts
    the mantissa accordingly. *)
Lemma shr_fexp_spec (m e : Z) (l : location) :
  0 <= m ->
  let e' := Z.max e (fexp prec emax (Zdigits2 m + e)) in
  snd (shr_fexp prec emax m e l) = e' /\
  shr_m (fst (shr_fexp prec emax m e l)) = m / 2 ^ (e' - e) /\
  (e' = e -> fst (shr_fexp prec emax m e l) = shr_record_of_loc m l).
Proof.
  intros Hm e'. unfold shr_fexp, shr.
  destruct (fexp prec emax (Zdigits2 m + e) - e) as [|p|p] eqn:Hn; simpl.
  - assert (e' = e) by (unfold e'; lia).
    replace (e' - e) with 0 by lia. rewrite shr_m_of_loc, Z.div_1_r. auto.
  - assert (e' = e + Zpos p) by (unfold e'; lia).
    rewrite shr_m_iter_pos by (rewrite shr_m_of_loc; lia).
    rewrite shr_m_of_loc. replace (e' - e) with (Zpos p) by lia.
    repeat split; try lia.
  - assert (e' = e) by (unfold e'; lia).
    replace (e' - e) with 0 by lia. rewrite shr_m_of_loc, Z.div_1_r. auto.
Qed.

(** The two steps of [binary_round_aux]: cut, round up or not, cut again. *)
Lemma binary_round_aux_steps (s : bool) (mx ex : Z) (lx : location) :
  0 <= mx ->
  let e1 := Z.max ex (fexp prec emax (Zdigits2 mx + ex)) in
  let m1 := mx / 2 ^ (e1 - ex) in
  exists m2 : Z,
    (m2 = m1 \/ m2 = m1 + 1) /\
    (lx = loc_Exact -> e1 = ex -> m2 = mx) /\
    let e2 := Z.max e1 (fexp prec emax (Zdigits2 m2 + e1)) in
    binary_round_aux prec emax s mx ex lx =
      match m2 / 2 ^ (e2 - e1) with
      | Z0 => S754_zero s
      | Zpos m => if e2 <=? emax - prec then S754_finite s m e2
                  else S754_infinity s
      | Zneg _ => S754_nan
      end.
Proof.
  intros Hm e1 m1.
  destruct (shr_fexp_spec mx ex lx Hm) as (He1 & Hm1 & Hsame).
  fold e1 in He1, Hm1, Hsame. fold m1 in Hm1.
  unfold binary_round_aux.
  destruct (shr_fexp prec emax mx ex lx) as [mrs' e'] eqn:Hshr1.
  simpl in He1, Hm1, Hsame. subst e'.
  set (m2 := round_nearest_even (shr_m mrs') (loc_of_shr_record mrs')).
  assert (Hm1pos : 0 <= m1) by (apply Z.div_pos; lia).
  assert (Hm2 : m2 = m1 \/ m2 = m1 + 1).
  { unfold m2. rewrite <- Hm1. apply round_nearest_even_cases. }
  assert (Hm2pos : 0 <= m2) by lia.
  exists m2. split; [exact Hm2|]. split.
  { intros -> Heq. specialize (Hsame Heq). subst mrs'. reflexivity. }
  destruct (shr_fexp_spec m2 e1 loc_Exact Hm2pos) as (He2 & Hm3 & _).
  destruct (shr_fexp prec emax m2 e1 loc_Exact) as [mrs'' e''] eqn:Hshr2.
  simpl in He2, Hm3. subst e''. rewrite Hm3. reflexivity.
Qed.

(** ** Magnitude bounds *)

Lemma bnd_mono (k k' : Z) (x : spec_float) : k <= k' -> bnd k x -> bnd k' x.
Proof. destruct x; simpl; auto; lia. Qed.

Lemma fexp_le (e k : Z) : e <= k -> -1074 <= k -> fexp prec emax e <= k.
Proof. rewrite fexp_eq. lia. Qed.

Lemma fexp_mono (a b : Z) : a <= b -> fexp prec emax a <= fexp prec emax b.
Proof. rewrite !fexp_eq. lia. Qed.

Lemma Zdigits2_succ_le (m : Z) : 0 <= m -> Zdigits2 (m + 1) <= Zdigits2 m + 1.
Proof.
  intros Hm. destruct (Z.eq_dec m 0) as [->|Hne]; [simpl; lia|].
  destruct (Zdigits2_succ m) as [H|[H _]]; lia.
Qed.

Lemma Zdigits2_div_pow2_le (m n : Z) :
  0 <= m -> 0 <= n -> Zdigits2 (m / 2 ^ n) + n <= Z.max (Zdigits2 m) n.
Proof.
  intros Hm Hn.
  assert (Hq : 0 <= m / 2 ^ n) by (apply Z.div_pos; lia).
  destruct (Z.eq_dec (m / 2 ^ n) 0) as [->|Hne]; [simpl; lia|].
  rewrite Zdigits2_div_pow2 by lia. lia.
Qed.

Lemma binary_round_aux_bnd (s : bool) (mx ex : Z) (lx : location) (k : Z) :
  0 <= mx -> Zdigits2 mx + ex <= k -> ex <= 971 -> -1074 <= k <= 1023 ->
  bnd (k + 1) (binary_round_aux prec emax s mx ex lx).
Proof.
  intros Hm Hk Hex Hrange.
  destruct (binary_round_aux_steps s mx ex lx Hm) as (m2 & Hm2 & _ & Heq).
  cbv zeta in Heq. rewrite Heq. clear Heq.
  set (e1 := Z.max ex (fexp prec emax (Zdigits2 mx + ex))) in *.
  set (m1 := mx / 2 ^ (e1 - ex)) in *.
  set (e2 := Z.max e1 (fexp prec emax (Zdigits2 m2 + e1))).
  pose proof (Zdigits2_nonneg mx) as Hd.
  assert (He1 : e1 <= k).
  { unfold e1. pose proof (fexp_le (Zdigits2 mx + ex) k Hk). lia. }
  assert (He1'' : e1 <= 971).
  { unfold e1. rewrite fexp_eq. lia. }
  assert (He1' : ex <= e1) by (unfold e1; lia).
  assert (Hm1 : 0 <= m1) by (apply Z.div_pos; lia).
  assert (Hd1 : Zdigits2 m1 + e1 <= k).
  { pose proof (Zdigits2_div_pow2_le mx (e1 - ex) Hm). fold m1 in H. lia. }
  assert (Hm2' : 0 <= m2) by lia.
  assert (Hd2 : Zdigits2 m2 + e1 <= k + 1).
  { destruct Hm2 as [->| ->]; [lia|].
    pose proof (Zdigits2_succ_le m1 Hm1). lia. }
  assert (He2 : e2 <= k /\ e2 <= 971).
  { unfold e2. rewrite fexp_eq. lia. }
  assert (He2' : e1 <= e2) by (unfold e2; lia).
  assert (H : Zdigits2 (m2 / 2 ^ (e2 - e1)) + (e2 - e1)
              <= Z.max (Zdigits2 m2) (e2 - e1))
    by (apply Zdigits2_div_pow2_le; lia).
  assert (Hm3 : 0 <= m2 / 2 ^ (e2 - e1)) by (apply Z.div_pos; lia).
  destruct (m2 / 2 ^ (e2 - e1)) as [|m3|m3] eqn:Em3; [exact I| |lia].
  assert (Hle : (e2 <=? emax - prec) = true)
    by (apply Z.leb_le; change (emax - prec) with 971; lia).
  rewrite Hle. cbn [bnd].
  change (Zdigits2 (Zpos m3)) with (Zpos (digits2_pos m3)) in H.
  lia.
Qed.

(** ** Validity of the rounded result *)

Lemma binary_round_aux_valid (s : bool) (mx ex : Z) (lx : location) :
  0 < mx -> ex <= fexp prec emax (Zdigits2 mx + ex) ->
  valid_binary (binary_round_aux prec emax s mx ex lx) = true.
Proof.
  intros Hm Hex.
  destruct (binary_round_aux_steps s mx ex lx) as (m2 & Hm2 & _ & Heq);
    [lia|].
  cbv zeta in Heq. rewrite Heq. clear Heq.
  set (e1 := Z.max ex (fexp prec emax (Zdigits2 mx + ex))) in *.
  set (m1 := mx / 2 ^ (e1 - ex)) in *.
  set (e2 := Z.max e1 (fexp prec emax (Zdigits2 m2 + e1))).
  assert (He1 : e1 = fexp prec emax (Zdigits2 mx + ex)) by (unfold e1; lia).
  assert (Hm1 : 0 <= m1) by (apply Z.div_pos; lia).
  assert (Hm2' : 0 <= m2) by lia.
  assert (Hcan : m2 <> 0 -> e1 <= fexp prec emax (Zdigits2 m2 + e1)).
  { intros Hne.
    destruct (Z.eq_dec m1 0) as [Hz|Hnz].
    - (* the first cut left nothing: the exponent is the least one *)
      assert (Hlt : mx < 2 ^ (e1 - ex)).
      { apply Z.div_small_iff in Hz; lia. }
      assert (Zdigits2 mx <= e1 - ex).
      { apply Zdigits2_lt_pow2; lia. }
      rewrite fexp_eq in *. lia.
    - assert (Hc1 : Zdigits2 m1 + e1 = Zdigits2 mx + ex).
      { unfold m1. rewrite Zdigits2_div_pow2 by (fold m1; lia). lia. }
      assert (Zdigits2 m1 <= Zdigits2 m2).
      { apply Zdigits2_mono. lia. }
      rewrite He1 at 1. rewrite <- Hc1. apply fexp_mono. lia. }
  assert (Hm3 : 0 <= m2 / 2 ^ (e2 - e1)) by (apply Z.div_pos; lia).
  destruct (m2 / 2 ^ (e2 - e1)) as [|m3|m3] eqn:Em3; try reflexivity; try lia.
  destruct (e2 <=? emax - prec) eqn:Ele; [|reflexivity].
  simpl. unfold bounded, canonical_mantissa. rewrite Ele, andb_true_r.
  apply Z.eqb_eq.
  assert (Hne : m2 <> 0).
  { intros ->. rewrite Z.div_0_l in Em3 by lia. discriminate. }
  specialize (Hcan Hne).
  assert (He2 : e2 = fexp prec emax (Zdigits2 m2 + e1)) by (unfold e2; lia).
  assert (Hd3 : Zdigits2 (m2 / 2 ^ (e2 - e1)) = Zdigits2 m2 - (e2 - e1)).
  { apply Zdigits2_div_pow2; lia. }
  rewrite Em3 in Hd3. simpl in Hd3. rewrite Hd3.
  replace (Zdigits2 m2 - (e2 - e1) + e2) with (Zdigits2 m2 + e1) by lia.
  lia.
Qed.

(** ** [shl_align], [binary_round] and [binary_normalize] *)

Lemma pos_iter_xO (d m : positive) :
  Zpos (Pos.iter xO m d) = Zpos m * 2 ^ Zpos d.
Proof.
  revert m. induction d using Pos.peano_ind; intros m.
  - simpl. lia.
  - rewrite Pos.iter_succ. rewrite Pos2Z.inj_xO, IHd.
    rewrite Pos2Z.inj_succ, Z.pow_succ_r by lia. lia.
Qed.

Lemma shl_align_spec (mx : positive) (ex ex' : Z) :
  snd (shl_align mx ex ex') = Z.min ex ex' /\
  Zpos (fst (shl_align mx ex ex')) = Zpos mx * 2 ^ (ex - Z.min ex ex').
Proof.
  unfold shl_align. destruct (ex' - ex) as [|d|d] eqn:Hd; simpl.
  - replace (Z.min ex ex') with ex by lia. rewrite Z.sub_diag. simpl. lia.
  - replace (Z.min ex ex') with ex by lia. rewrite Z.sub_diag. simpl. lia.
  - replace (Z.min ex ex') with ex' by lia. split; [reflexivity|].
    rewrite pos_iter_xO. replace (ex - ex') with (Zpos d) by lia. reflexivity.
Qed.

Lemma Zdigits2_mul_pow2 (m n : Z) :
  0 < m -> 0 <= n -> Zdigits2 (m * 2 ^ n) = Zdigits2 m + n.
Proof.
  intros Hm Hn. rewrite !Zdigits2_log2 by nia.
  rewrite Z.log2_mul_pow2 by lia. lia.
Qed.

Lemma binary_round_valid (s : bool) (mx : positive) (ex : Z) :
  valid_binary (binary_round prec emax s mx ex) = true.
Proof.
  unfold binary_round.
  destruct (shl_align_spec mx ex (fexp prec emax (Zpos (digits2_pos mx) + ex)))
    as [He Hmz].
  destruct (shl_align mx ex _) as [mz ez]. cbn [fst snd] in He, Hmz.
  rewrite <- He in Hmz.
  assert (Hd : Zdigits2 (Zpos mz) = Zdigits2 (Zpos mx) + (ex - ez)).
  { rewrite Hmz. apply Zdigits2_mul_pow2; lia. }
  change (Zdigits2 (Zpos mx)) with (Zpos (digits2_pos mx)) in Hd.
  apply binary_round_aux_valid; [lia|].
  rewrite Hd.
  replace (Zpos (digits2_pos mx) + (ex - ez) + ez)
    with (Zpos (digits2_pos mx) + ex) by lia.
  lia.
Qed.

Lemma binary_round_bnd (s : bool) (mx : positive) (ex k : Z) :
  Zpos (digits2_pos mx) + ex <= k -> -1074 <= k <= 1023 ->
  bnd (k + 1) (binary_round prec emax s mx ex).
Proof.
  intros Hk Hrange. unfold binary_round.
  destruct (shl_align_spec mx ex (fexp prec emax (Zpos (digits2_pos mx) + ex)))
    as [He Hmz].
  destruct (shl_align mx ex _) as [mz ez]. cbn [fst snd] in He, Hmz.
  rewrite <- He in Hmz.
  assert (Hd : Zdigits2 (Zpos mz) = Zdigits2 (Zpos mx) + (ex - ez)).
  { rewrite Hmz. apply Zdigits2_mul_pow2; lia. }
  change (Zdigits2 (Zpos mx)) with (Zpos (digits2_pos mx)) in Hd.
  apply binary_round_aux_bnd; [lia| | |lia].
  - rewrite Hd. lia.
  - rewrite fexp_eq in He. lia.
Qed.

Lemma binary_normalize_valid (m e : Z) (sz : bool) :
  valid_binary (binary_normalize prec emax m e sz) = true.
Proof.
  destruct m; simpl; auto using binary_round_valid.
Qed.

Lemma binary_normalize_bnd (m e : Z) (sz : bool) (k : Z) :
  Zdigits2 m + e <= k -> -1074 <= k <= 1023 ->
  bnd (k + 1) (binary_normalize prec emax m e sz).
Proof.
  destruct m; simpl; auto using binary_round_bnd.
Qed.

End Rounding.

(** * Facts about the primitive floats *)

Section FloatFacts.

Local Open Scope Z_scope.

Lemma fbnd_mono (k k' : Z) (x : float) : k <= k' -> fbnd k x -> fbnd k' x.
Proof. apply bnd_mono. Qed.

Lemma valid_finite (s : bool) (m : positive) (e : Z) :
  valid_binary (S754_finite s m e) = true ->
  Zpos (digits2_pos m) <= 53 /\ -1074 <= e <= 971.
Proof.
  cbn [SpecFloat.valid_binary]. unfold bounded, canonical_mantissa.
  rewrite andb_true_iff, Z.eqb_eq, Z.leb_le, fexp_eq.
  change (emax - prec) with 971. lia.
Qed.

Lemma Prim2SF_finite_valid (x : float) (s : bool) (m : positive) (e : Z) :
  Prim2SF x = S754_finite s m e ->
  Zpos (digits2_pos m) <= 53 /\ -1074 <= e <= 971.
Proof.
  intros H. apply (valid_finite s). rewrite <- H. apply Prim2SF_valid.
Qed.

Lemma Prim2SF_finite_canonical (x : float) (s : bool) (m : positive) (e : Z) :
  Prim2SF x = S754_finite s m e ->
  e = Z.max (Zpos (digits2_pos m) + e - 53) (-1074).
Proof.
  intros H. pose proof (Prim2SF_valid x) as Hv. rewrite H in Hv.
  cbn [SpecFloat.valid_binary] in Hv. unfold bounded, canonical_mantissa in Hv.
  rewrite andb_true_iff, Z.eqb_eq, fexp_eq in Hv. lia.
Qed.

(** *** Classification *)

Lemma SFeqb_same (a : spec_float) :
  SFeqb a a = match a with S754_nan => false | _ => true end.
Proof.
  destruct a as [s|s| |s m e]; unfold SFeqb; simpl; try reflexivity.
  - destruct s; reflexivity.
  - rewrite Z.compare_refl, Pos.compare_cont_refl. destruct s; reflexivity.
Qed.

Lemma is_nan_spec (x : float) :
  is_nan x = match Prim2SF x with S754_nan => true | _ => false end.
Proof.
  unfold is_nan. rewrite eqb_spec, SFeqb_same. destruct (Prim2SF x); reflexivity.
Qed.

Lemma Prim2SF_infinity : Prim2SF infinity = S754_infinity false.
Proof. reflexivity. Qed.

Lemma is_infinity_spec (x : float) :
  is_infinity x = match Prim2SF x with S754_infinity _ => true | _ => false end.
Proof.
  unfold is_infinity. rewrite eqb_spec, abs_spec, Prim2SF_infinity.
  destruct (Prim2SF x) as [s|s| |s m e]; reflexivity.
Qed.

Lemma is_finite_spec (x : float) :
  is_finite x =
  match Prim2SF x with
  | S754_zero _ | S754_finite _ _ _ => true
  | S754_infinity _ | S754_nan => false
  end.
Proof.
  unfold is_finite. rewrite is_nan_spec, is_infinity_spec.
  destruct (Prim2SF x); reflexivity.
Qed.

Lemma fbnd_is_finite (k : Z) (x : float) : fbnd k x -> is_finite x = true.
Proof.
  unfold fbnd. rewrite is_finite_spec. destruct (Prim2SF x); simpl; tauto.
Qed.

Lemma is_finite_fbnd (x : float) : is_finite x = true -> fbnd 1024 x.
Proof.
  unfold fbnd. rewrite is_finite_spec.
  destruct (Prim2SF x) as [s|s| |s m e] eqn:E; cbn [bnd];
    try discriminate; auto.
  intros _. pose proof (Prim2SF_finite_valid x s m e E). lia.
Qed.

(** *** Values built from a mantissa and an exponent *)

Lemma Prim2SF_of_dyadic (m e : Z) :
  Prim2SF (pyfloat.of_dyadic m e) = binary_normalize prec emax m e false.
Proof. apply Prim2SF_SF2Prim, binary_normalize_valid. Qed.

Lemma fbnd_of_dyadic (m e k : Z) :
  Zdigits2 m + e <= k -> -1074 <= k <= 1023 ->
  fbnd (k + 1) (pyfloat.of_dyadic m e).
Proof.
  intros. unfold fbnd. rewrite Prim2SF_of_dyadic.
  now apply binary_normalize_bnd.
Qed.

(** *** The arithmetic operations keep finite what is not too large *)

Lemma Zdigits2_opp (m : Z) : Zdigits2 (- m) = Zdigits2 m.
Proof. destruct m; reflexivity. Qed.

Lemma Zdigits2_abs_lt (m k : Z) : 0 <= k -> Z.abs m < 2 ^ k -> Zdigits2 m <= k.
Proof.
  intros Hk H. destruct (Z_lt_le_dec m 0).
  - rewrite <- Zdigits2_opp. apply Zdigits2_lt_pow2; lia.
  - apply Zdigits2_lt_pow2; lia.
Qed.

Lemma pos_lt_pow2_digits (m : positive) (k : Z) :
  Zpos (digits2_pos m) <= k -> Zpos m < 2 ^ k.
Proof.
  intros H. pose proof (Zdigits2_gt (Zpos m)) as Hg.
  change (Zdigits2 (Zpos m)) with (Zpos (digits2_pos m)) in Hg.
  assert (2 ^ Zpos (digits2_pos m) <= 2 ^ k) by (apply Z.pow_le_mono_r; lia).
  lia.
Qed.

Lemma fbnd_mul (a b : Z) (x y : float) :
  fbnd a x -> fbnd b y -> -1074 <= a + b <= 1023 ->
  fbnd (a + b + 1) (x * y).
Proof.
  unfold fbnd. rewrite mul_spec. unfold SF64mul.
  destruct (Prim2SF x) as [sx|sx| |sx mx ex] eqn:Ex;
    destruct (Prim2SF y) as [sy|sy| |sy my ey] eqn:Ey; cbn [bnd SFmul];
    try tauto.
  intros Hx Hy Hr.
  pose proof (Prim2SF_finite_canonical x sx mx ex Ex) as Hcx.
  pose proof (Prim2SF_finite_canonical y sy my ey Ey) as Hcy.
  pose proof (Prim2SF_finite_valid x sx mx ex Ex) as Hvx.
  pose proof (Prim2SF_finite_valid y sy my ey Ey) as Hvy.
  apply binary_round_aux_bnd; [lia| |lia|lia].
  assert (Zdigits2 (Zpos (mx * my))
          <= Zpos (digits2_pos mx) + Zpos (digits2_pos my)).
  { apply Zdigits2_lt_pow2; try lia.
    rewrite Pos2Z.inj_mul, Z.pow_add_r by lia.
    pose proof (pos_lt_pow2_digits mx _ (Z.le_refl _)).
    pose proof (pos_lt_pow2_digits my _ (Z.le_refl _)).
    nia. }
  lia.
Qed.

(** The aligned mantissas of a sum, and the bound on the exact result. *)
Lemma aligned_sum_bound (sx sy : bool) (mx my : positive) (ex ey k : Z)
    (op : Z -> Z -> Z) :
  (forall u v, Z.abs (op u v) <= Z.abs u + Z.abs v) ->
  Zpos (digits2_pos mx) + ex <= k -> Zpos (digits2_pos my) + ey <= k ->
  let ez := Z.min ex ey in
  Zdigits2 (op (cond_Zopp sx (Zpos (fst (shl_align mx ex ez))))
               (cond_Zopp sy (Zpos (fst (shl_align my ey ez))))) + ez
  <= k + 1.
Proof.
  intros Hop Hx Hy ez.
  destruct (shl_align_spec mx ex ez) as [_ Hmx].
  destruct (shl_align_spec my ey ez) as [_ Hmy].
  replace (Z.min ex ez) with ez in Hmx by (unfold ez; lia).
  replace (Z.min ey ez) with ez in Hmy by (unfold ez; lia).
  rewrite Hmx, Hmy.
  set (u := cond_Zopp sx _). set (v := cond_Zopp sy _).
  assert (Hex : ez <= ex) by (unfold ez; lia).
  assert (Hey : ez <= ey) by (unfold ez; lia).
  assert (Hu : Z.abs u < 2 ^ (k - ez)).
  { assert (Z.abs u = Zpos mx * 2 ^ (ex - ez)) as ->.
    { unfold u. destruct sx; simpl cond_Zopp; rewrite ?Z.abs_opp;
        apply Z.abs_eq; nia. }
    pose proof (pos_lt_pow2_digits mx (k - ex) ltac:(lia)).
    replace (k - ez) with (k - ex + (ex - ez)) by lia.
    rewrite Z.pow_add_r by lia.
    assert (0 < 2 ^ (ex - ez)) by (apply Z.pow_pos_nonneg; lia). nia. }
  assert (Hv : Z.abs v < 2 ^ (k - ez)).
  { assert (Z.abs v = Zpos my * 2 ^ (ey - ez)) as ->.
    { unfold v. destruct sy; simpl cond_Zopp; rewrite ?Z.abs_opp;
        apply Z.abs_eq; nia. }
    pose proof (pos_lt_pow2_digits my (k - ey) ltac:(lia)).
    replace (k - ez) with (k - ey + (ey - ez)) by lia.
    rewrite Z.pow_add_r by lia.
    assert (0 < 2 ^ (ey - ez)) by (apply Z.pow_pos_nonneg; lia). nia. }
  assert (Hk : 0 <= k - ez) by lia.
  assert (Zdigits2 (op u v) <= k - ez + 1).
  { apply Zdigits2_abs_lt; [lia|].
    rewrite Z.pow_add_r by lia. specialize (Hop u v). lia. }
  lia.
Qed.

Lemma fbnd_add (k : Z) (x y : float) :
  fbnd k x -> fbnd k y -> -1074 <= k <= 1021 -> fbnd (k + 2) (x + y).
Proof.
  unfold fbnd. rewrite add_spec. unfold SF64add.
  destruct (Prim2SF x) as [sx|sx| |sx mx ex];
    destruct (Prim2SF y) as [sy|sy| |sy my ey]; cbn [bnd SFadd];
    try tauto.
  - destruct sx, sy; simpl; auto.
  - intros _ H _. cbn [bnd]. lia.
  - intros H _ _. cbn [bnd]. lia.
  - intros Hx Hy Hr.
    replace (k + 2) with (k + 1 + 1) by lia.
    apply binary_normalize_bnd; [|lia].
    apply (aligned_sum_bound sx sy mx my ex ey k Z.add); auto. intros; lia.
Qed.

Lemma fbnd_sub (k : Z) (x y : float) :
  fbnd k x -> fbnd k y -> -1074 <= k <= 1021 -> fbnd (k + 2) (x - y).
Proof.
  unfold fbnd. rewrite sub_spec. unfold SF64sub.
  destruct (Prim2SF x) as [sx|sx| |sx mx ex];
    destruct (Prim2SF y) as [sy|sy| |sy my ey]; cbn [bnd SFsub];
    try tauto.
  - destruct sx, sy; simpl; auto.
  - intros _ H _. cbn [bnd]. lia.
  - intros H _ _. cbn [bnd]. lia.
  - intros Hx Hy Hr.
    replace (k + 2) with (k + 1 + 1) by lia.
    apply binary_normalize_bnd; [|lia].
    apply (aligned_sum_bound sx sy mx my ex ey k Z.sub); auto. intros; lia.
Qed.

Lemma fbnd_abs (k : Z) (x : float) : fbnd k x -> fbnd k (abs x).
Proof.
  unfold fbnd. rewrite abs_spec. destruct (Prim2SF x); simpl; auto.
Qed.

Lemma SFdiv_core_bound (mx my : positive) (ex ey k : Z) :
  Zpos (digits2_pos mx) + ex - (Zpos (digits2_pos my) + ey) + 1 <= k ->
  -1074 <= k ->
  let '(q, e', _) := SFdiv_core_binary prec emax (Zpos mx) ex (Zpos my) ey in
  0 <= q /\ Zdigits2 q + e' <= k /\ e' <= Z.max (k - 54) (-1074).
Proof.
  intros Hk Hk'. unfold SFdiv_core_binary.
  change (Zdigits2 (Zpos mx)) with (Zpos (digits2_pos mx)).
  change (Zdigits2 (Zpos my)) with (Zpos (digits2_pos my)).
  set (d1 := Zpos (digits2_pos mx)) in *. set (d2 := Zpos (digits2_pos my)) in *.
  set (e' := Z.min (fexp prec emax (d1 + ex - (d2 + ey))) (ex - ey)).
  set (s := ex - ey - e').
  assert (Hs : 0 <= s) by (unfold s, e'; lia).
  set (m' := match s with Zpos _ => Z.shiftl (Zpos mx) s | Z0 => Zpos mx
                     | Zneg _ => 0 end).
  assert (Hm' : m' = Zpos mx * 2 ^ s).
  { unfold m'. destruct s as [|p|p]; [simpl; lia| |lia].
    rewrite Z.shiftl_mul_pow2 by lia. reflexivity. }
  pose proof (Z_div_mod m' (Zpos my) ltac:(lia)) as Hdiv.
  destruct (Z.div_eucl m' (Zpos my)) as [q r]. destruct Hdiv as [Hq Hr].
  assert (Hm'pos : 0 < m').
  { rewrite Hm'. assert (0 < 2 ^ s) by (apply Z.pow_pos_nonneg; lia). nia. }
  assert (Hq0 : 0 <= q) by nia.
  split; [exact Hq0|].
  assert (He'' : e' <= fexp prec emax (d1 + ex - (d2 + ey))) by (unfold e'; lia).
  rewrite fexp_eq in He''.
  split; [|lia].
  assert (Hmx : Zpos mx < 2 ^ d1) by (apply pos_lt_pow2_digits; unfold d1; lia).
  assert (Hmy : 2 ^ (d2 - 1) <= Zpos my).
  { pose proof (Zdigits2_le (Zpos my) ltac:(lia)) as H. exact H. }
  assert (Hd2 : 0 < d2) by (unfold d2; lia).
  assert (He' : e' <= fexp prec emax (d1 + ex - (d2 + ey))) by (unfold e'; lia).
  rewrite fexp_eq in He'.
  destruct (Z_lt_le_dec (d1 + s - d2 + 1) 0) as [Hneg|Hpos].
  - (* the quotient is zero *)
    assert (m' < Zpos my).
    { assert (m' < 2 ^ (d1 + s)).
      { rewrite Hm', Z.pow_add_r by (unfold d1; lia).
        assert (0 < 2 ^ s) by (apply Z.pow_pos_nonneg; lia). nia. }
      assert (2 ^ (d1 + s) <= 2 ^ (d2 - 1)) by (apply Z.pow_le_mono_r; lia).
      lia. }
    assert (q = 0) by nia. subst q. simpl Zdigits2. lia.
  - assert (q < 2 ^ (d1 + s - d2 + 1)).
    { assert (m' < 2 ^ (d1 + s - d2 + 1) * 2 ^ (d2 - 1)).
      { rewrite <- Z.pow_add_r by lia.
        replace (d1 + s - d2 + 1 + (d2 - 1)) with (d1 + s) by lia.
        rewrite Hm', Z.pow_add_r by (unfold d1; lia).
        assert (0 < 2 ^ s) by (apply Z.pow_pos_nonneg; lia). nia. }
      assert (0 < 2 ^ (d2 - 1)) by (apply Z.pow_pos_nonneg; lia).
      nia. }
    assert (Zdigits2 q <= d1 + s - d2 + 1) by (apply Zdigits2_lt_pow2; lia).
    unfold s in *. lia.
Qed.

Lemma fbnd_div (a b : Z) (x y : float) (sy : bool) (my : positive) (ey : Z) :
  fbnd a x -> Prim2SF y = S754_finite sy my ey ->
  b <= Zpos (digits2_pos my) + ey ->
  -1074 <= a - b + 1 <= 1023 ->
  fbnd (a - b + 2) (x / y).
Proof.
  unfold fbnd. rewrite div_spec. unfold SF64div. intros Hx Hy Hb Hr.
  rewrite Hy.
  destruct (Prim2SF x) as [sx|sx| |sx mx ex]; cbn [bnd SFdiv] in *;
    try tauto.
  pose proof (SFdiv_core_bound mx my ex ey (a - b + 1) ltac:(lia) ltac:(lia))
    as Hcore.
  destruct (SFdiv_core_binary prec emax (Zpos mx) ex (Zpos my) ey)
    as [[mz ez] lz].
  destruct Hcore as (Hq & Hd & He).
  replace (a - b + 2) with (a - b + 1 + 1) by lia.
  apply binary_round_aux_bnd; lia.
Qed.

(** *** Comparisons *)

Lemma Prim2SF_zero : Prim2SF 0%float = S754_zero false.
Proof. reflexivity. Qed.

Lemma Prim2SF_neg_zero : Prim2SF (-0)%float = S754_zero true.
Proof. reflexivity. Qed.

(** A float between zero and a positive constant is as small as it. *)
Lemma leb_fbnd (x c : float) (mc : positive) (ec : Z) :
  Prim2SF c = S754_finite false mc ec ->
  (0 <=? x)%float = true -> (x <=? c)%float = true ->
  fbnd (53 + ec) x.
Proof.
  intros Hc. rewrite !leb_spec, Hc, Prim2SF_zero. unfold fbnd, SFleb.
  destruct (Prim2SF x) as [s|s| |s m e] eqn:E; cbn [bnd SFcompare];
    try discriminate; auto.
  - destruct s; discriminate.
  - destruct s; [discriminate|]. intros _ H.
    pose proof (Prim2SF_finite_valid x false m e E).
    destruct (Z.compare_spec e ec); try discriminate; lia.
Qed.

(** *** What Python builds on the hardware *)

Lemma int_ok (k : Z) (x : float) : fbnd k x -> exists z, pyfloat.int x = Ok z.
Proof.
  unfold fbnd, pyfloat.int. destruct (Prim2SF x); cbn [bnd]; try tauto; eauto.
Qed.

Lemma fbnd_zero (k : Z) : fbnd k 0%float.
Proof. exact I. Qed.

Lemma fbnd_neg_zero (k : Z) : fbnd k (-0)%float.
Proof. exact I. Qed.

Lemma fbnd_copysign_zero (k : Z) (w : float) : fbnd k (pyfloat.copysign_zero w).
Proof. unfold pyfloat.copysign_zero. destruct (get_sign w); exact I. Qed.

Lemma fbnd_floor (k : Z) (x : float) :
  fbnd k x -> 0 <= k <= 1021 -> fbnd (k + 2) (pyfloat.floor x).
Proof.
  unfold fbnd, pyfloat.floor.
  destruct (Prim2SF x) as [s|s| |s m e] eqn:E; cbn [bnd]; try tauto;
    try (rewrite E; cbn [bnd]; tauto).
  intros Hk Hr.
  destruct (0 <=? e) eqn:He; [rewrite E; cbn [bnd]; lia|].
  apply Z.leb_gt in He.
  set (q := Zpos m / 2 ^ (- e)).
  assert (Hq : 0 <= q) by (apply Z.div_pos; lia).
  assert (Hdq : Zdigits2 q <= k).
  { pose proof (Zdigits2_div_pow2_le (Zpos m) (- e) ltac:(lia) ltac:(lia)) as H.
    fold q in H. change (Zdigits2 (Zpos m)) with (Zpos (digits2_pos m)) in H.
    lia. }
  destruct s.
  - destruct (Zpos m mod 2 ^ (- e) =? 0); [rewrite E; cbn [bnd]; lia|].
    apply (fbnd_mono (k + 1 + 1)); [lia|].
    apply fbnd_of_dyadic; [|lia].
    rewrite Zdigits2_opp. pose proof (Zdigits2_succ_le q Hq). lia.
  - destruct (q =? 0); [exact I|].
    apply (fbnd_mono (k + 1)); [lia|].
    apply fbnd_of_dyadic; lia.
Qed.

Lemma fbnd_fmod (a b : Z) (x y : float) (sy : bool) (my : positive) (ey : Z) :
  fbnd a x -> Prim2SF y = S754_finite sy my ey ->
  Zpos (digits2_pos my) + ey <= b -> -1074 <= b <= 1023 ->
  fbnd (Z.max a (b + 1)) (pyfloat.fmod x y).
Proof.
  unfold pyfloat.fmod. intros Hx Hy Hb Hr. rewrite Hy.
  unfold fbnd in Hx.
  destruct (Prim2SF x) as [sx|sx| |sx mx ex] eqn:E; cbn [bnd] in Hx;
    try tauto.
  - unfold fbnd. rewrite E. exact I.
  - set (e := Z.min ex ey).
    assert (Hey : e <= ey) by (unfold e; lia).
    assert (Hex : e <= ex) by (unfold e; lia).
    clearbody e.
    set (Y := Zpos my * 2 ^ (ey - e)).
    set (r := (Zpos mx * 2 ^ (ex - e)) mod Y).
    assert (HY : 0 < Y).
    { unfold Y. assert (0 < 2 ^ (ey - e)) by (apply Z.pow_pos_nonneg; lia).
      nia. }
    pose proof (Z.mod_pos_bound (Zpos mx * 2 ^ (ex - e)) Y HY) as Hrb.
    fold r in Hrb.
    destruct (r =? 0); [destruct sx; exact I|].
    apply (fbnd_mono (b + 1)); [lia|].
    apply fbnd_of_dyadic; [|lia].
    assert (Zdigits2 (cond_Zopp sx r) = Zdigits2 r) as ->
      by (destruct sx; simpl cond_Zopp; [apply Zdigits2_opp|reflexivity]).
    assert (Hlt : r < 2 ^ (b - e)).
    { assert (Y < 2 ^ (b - e)).
      { unfold Y.
        pose proof (pos_lt_pow2_digits my (b - ey) ltac:(lia)).
        replace (b - e) with (b - ey + (ey - e)) by lia.
        rewrite Z.pow_add_r by lia.
        assert (0 < 2 ^ (ey - e)) by (apply Z.pow_pos_nonneg; lia).
        nia. }
      lia. }
    assert (Zdigits2 r <= b - e).
    { apply Zdigits2_lt_pow2; lia. }
    lia.
Qed.

Lemma Prim2SF_one : Prim2SF 1%float = S754_finite false 4503599627370496 (-52).
Proof. reflexivity. Qed.

Lemma fbnd_one (k : Z) : 1 <= k -> fbnd k 1%float.
Proof. intros H. unfold fbnd. rewrite Prim2SF_one. cbn [bnd]. simpl. lia. Qed.

(** The floor quotient and the remainder by a positive finite divisor. *)
Lemma fbnd_div_mod (k : Z) (vx wx : float) (mw : positive) (ew : Z) :
  fbnd k vx -> Prim2SF wx = S754_finite false mw ew ->
  0 <= Zpos (digits2_pos mw) + ew <= k -> 1 <= k <= 1000 ->
  fbnd (k + 11) (fst (pyfloat.div_mod vx wx)) /\
  fbnd (k + 3) (snd (pyfloat.div_mod vx wx)).
Proof.
  intros Hv Hw Hb Hk. unfold pyfloat.div_mod.
  assert (Hwk : fbnd k wx) by (unfold fbnd; rewrite Hw; cbn [bnd]; lia).
  set (mod0 := pyfloat.fmod vx wx).
  assert (Hmod0 : fbnd (k + 1) mod0).
  { apply (fbnd_mono (Z.max k (k + 1))); [lia|].
    apply (fbnd_fmod k k vx wx false mw ew); auto; lia. }
  set (div0 := (vx - mod0)%float).
  assert (Hsub : fbnd (k + 3) div0).
  { replace (k + 3) with (k + 1 + 2) by lia.
    apply fbnd_sub; [apply (fbnd_mono k); [lia|exact Hv]|exact Hmod0|lia]. }
  assert (Hdiv0 : fbnd (k + 5) (div0 / wx)%float).
  { replace (k + 5) with (k + 3 - 0 + 2) by lia.
    apply (fbnd_div (k + 3) 0 div0 wx false mw ew); auto; lia. }
  cbn [fst snd].
  set (adjust := (pyfloat.is_nonzero mod0 && _)%bool).
  split.
  - assert (Hdiv1 : fbnd (k + 7)
                      (if adjust then (div0 / wx - 1)%float else (div0 / wx)%float)).
    { destruct adjust.
      - replace (k + 7) with (k + 5 + 2) by lia.
        apply fbnd_sub; [exact Hdiv0|apply fbnd_one; lia|lia].
      - apply (fbnd_mono (k + 5)); [lia|exact Hdiv0]. }
    set (div1 := if adjust then _ else _) in *.
    destruct (pyfloat.is_nonzero div1); [|apply fbnd_copysign_zero].
    assert (Hfl : fbnd (k + 9) (pyfloat.floor div1)).
    { replace (k + 9) with (k + 7 + 2) by lia. apply fbnd_floor; [exact Hdiv1|lia]. }
    destruct (0.5 <? _)%float.
    + replace (k + 11) with (k + 9 + 2) by lia.
      apply fbnd_add; [exact Hfl|apply fbnd_one; lia|lia].
    + apply (fbnd_mono (k + 9)); [lia|exact Hfl].
  - destruct (pyfloat.is_nonzero mod0); [|apply fbnd_copysign_zero].
    destruct adjust.
    + replace (k + 3) with (k + 1 + 2) by lia.
      apply fbnd_add; [exact Hmod0|apply (fbnd_mono k); [lia|exact Hwk]|lia].
    + apply (fbnd_mono (k + 1)); [lia|exact Hmod0].
Qed.

Lemma eqb_zero_finite (wx : float) (s : bool) (m : positive) (e : Z) :
  Prim2SF wx = S754_finite s m e -> (wx =? 0)%float = false.
Proof.
  intros H. rewrite eqb_spec, H, Prim2SF_zero. unfold SFeqb. cbn [SFcompare].
  destruct s; reflexivity.
Qed.

Lemma floordiv_ok (k : Z) (vx wx : float) (mw : positive) (ew : Z) :
  fbnd k vx -> Prim2SF wx = S754_finite false mw ew ->
  0 <= Zpos (digits2_pos mw) + ew <= k -> 1 <= k <= 1000 ->
  exists h, pyfloat.floordiv vx wx = Ok h /\ fbnd (k + 11) h.
Proof.
  intros Hv Hw Hb Hk. unfold pyfloat.floordiv.
  rewrite (eqb_zero_finite wx false mw ew Hw).
  eexists; split; [reflexivity|].
  apply (fbnd_div_mod k vx wx mw ew); auto.
Qed.

Lemma rem_ok (k : Z) (vx wx : float) (mw : positive) (ew : Z) :
  fbnd k vx -> Prim2SF wx = S754_finite false mw ew ->
  0 <= Zpos (digits2_pos mw) + ew <= k -> 1 <= k <= 1000 ->
  exists r, pyfloat.rem vx wx = Ok r /\ fbnd (k + 3) r.
Proof.
  intros Hv Hw Hb Hk. unfold pyfloat.rem.
  rewrite (eqb_zero_finite wx false mw ew Hw).
  eexists; split; [reflexivity|].
  pose proof (fbnd_div_mod k vx wx mw ew Hv Hw Hb Hk) as [_ H].
  unfold pyfloat.div_mod in H. cbn [snd] in H.
  destruct (pyfloat.is_nonzero (pyfloat.fmod vx wx)); [|exact H].
  rewrite andb_true_l in H. exact H.
Qed.

End FloatFacts.

(** * Exact values: the error of one rounding *)

Section Values.

Local Open Scope Z_scope.

Lemma pow2_pos (n : Z) : 0 <= n -> 0 < 2 ^ n.
Proof. intros H. apply Z.pow_pos_nonneg; lia. Qed.

Lemma abs_cond_Zopp_sub (s : bool) (a b : Z) :
  Z.abs (cond_Zopp s a - cond_Zopp s b) = Z.abs (a - b).
Proof. destruct s; cbn [cond_Zopp]; lia. Qed.

(** Two cuts with at most one step up in between move a number by no more
    than one unit of the last cut. *)
Lemma two_cuts (mx m1 m2 m3 P1 P2 : Z) :
  0 < P1 -> 0 < P2 -> 0 <= mx ->
  m1 = mx / P1 -> (m2 = m1 \/ m2 = m1 + 1) -> m3 = m2 / P2 ->
  Z.abs (m3 * (P1 * P2) - mx) <= P1 * P2.
Proof.
  intros HP1 HP2 Hmx Hm1 Hm2 Hm3.
  pose proof (Z.div_mod mx P1 ltac:(lia)) as D1.
  pose proof (Z.mod_pos_bound mx P1 HP1) as B1.
  pose proof (Z.div_mod m2 P2 ltac:(lia)) as D2.
  pose proof (Z.mod_pos_bound m2 P2 HP2) as B2.
  rewrite <- Hm1 in D1. rewrite <- Hm3 in D2.
  set (r1 := mx mod P1) in *. set (r2 := m2 mod P2) in *.
  clearbody r1 r2.
  assert (E : m3 * (P1 * P2) = (m2 - r2) * P1) by (rewrite D2; ring).
  rewrite E. clear E D2 Hm3 Hm1.
  assert (Hr2 : 0 <= r2 * P1 <= (P2 - 1) * P1) by nia.
  assert (HPP : (P2 - 1) * P1 = P1 * P2 - P1) by ring.
  destruct Hm2 as [->| ->].
  - replace ((m1 - r2) * P1 - mx) with (- (r1 + r2 * P1)) by (rewrite D1; ring).
    lia.
  - replace ((m1 + 1 - r2) * P1 - mx) with (P1 - r1 - r2 * P1)
      by (rewrite D1; ring).
    assert (P1 <= P1 * P2) by nia. lia.
Qed.

Lemma binary_round_aux_err (s : bool) (mx ex k : Z) :
  0 <= mx -> -1074 <= ex -> ex <= fexp prec emax (k + 1) ->
  Zdigits2 mx + ex <= k -> -1074 <= k <= 1023 ->
  Z.abs (ival (binary_round_aux prec emax s mx ex loc_Exact)
         - cond_Zopp s (mx * 2 ^ (ex + 1074)))
  <= 2 ^ (fexp prec emax (k + 1) + 1074).
Proof.
  intros Hm Hex Hexf Hk Hrange.
  destruct (binary_round_aux_steps s mx ex loc_Exact Hm)
    as (m2 & Hm2 & _ & Heq).
  cbv zeta in Heq. rewrite Heq. clear Heq.
  set (e1 := Z.max ex (fexp prec emax (Zdigits2 mx + ex))) in *.
  set (m1 := mx / 2 ^ (e1 - ex)) in *.
  set (e2 := Z.max e1 (fexp prec emax (Zdigits2 m2 + e1))).
  pose proof (Zdigits2_nonneg mx) as Hd.
  assert (He1' : ex <= e1) by (unfold e1; lia).
  assert (He1 : e1 <= fexp prec emax (k + 1)).
  { unfold e1. pose proof (fexp_mono (Zdigits2 mx + ex) (k + 1)). lia. }
  assert (Hm1 : 0 <= m1) by (apply Z.div_pos; [lia|apply pow2_pos; lia]).
  assert (Hd1 : Zdigits2 m1 + e1 <= k).
  { pose proof (Zdigits2_div_pow2_le mx (e1 - ex) Hm). fold m1 in H.
    rewrite fexp_eq in He1. unfold e1 in *. rewrite fexp_eq in *. lia. }
  assert (Hm2' : 0 <= m2) by lia.
  assert (Hd2 : Zdigits2 m2 + e1 <= k + 1).
  { destruct Hm2 as [->| ->]; [lia|].
    pose proof (Zdigits2_succ_le m1 Hm1). lia. }
  assert (He2' : e1 <= e2) by (unfold e2; lia).
  assert (He2 : e2 <= fexp prec emax (k + 1)).
  { unfold e2. pose proof (fexp_mono (Zdigits2 m2 + e1) (k + 1)). lia. }
  assert (He2'' : e2 <= 971) by (rewrite fexp_eq in He2; lia).
  set (P1 := 2 ^ (e1 - ex)) in *. set (P2 := 2 ^ (e2 - e1)).
  assert (HP1 : 0 < P1) by (apply pow2_pos; lia).
  assert (HP2 : 0 < P2) by (apply pow2_pos; lia).
  set (m3 := m2 / P2).
  assert (Hm3 : 0 <= m3) by (apply Z.div_pos; lia).
  assert (Hival : ival (match m3 with
                        | 0 => S754_zero s
                        | Zpos m => if e2 <=? emax - prec
                                    then S754_finite s m e2
                                    else S754_infinity s
                        | Zneg _ => S754_nan
                        end) = cond_Zopp s (m3 * 2 ^ (e2 + 1074))).
  { destruct m3 as [|m|m]; [destruct s; reflexivity| |lia].
    assert ((e2 <=? emax - prec) = true) as ->
      by (apply Z.leb_le; change (emax - prec) with 971; lia).
    reflexivity. }
  rewrite Hival, abs_cond_Zopp_sub.
  pose proof (two_cuts mx m1 m2 m3 P1 P2 HP1 HP2 Hm eq_refl Hm2 eq_refl) as Hc.
  set (A := 2 ^ (ex + 1074)).
  assert (HA : 0 < A) by (apply pow2_pos; lia).
  assert (E2 : 2 ^ (e2 + 1074) = A * (P1 * P2)).
  { unfold A, P1, P2. rewrite <- !Z.pow_add_r by lia. f_equal. lia. }
  assert (Hle : 2 ^ (e2 + 1074) <= 2 ^ (fexp prec emax (k + 1) + 1074))
    by (apply Z.pow_le_mono_r; lia).
  rewrite E2 in *.
  replace (m3 * (A * (P1 * P2)) - mx * A) with (A * (m3 * (P1 * P2) - mx))
    by ring.
  rewrite Z.abs_mul, (Z.abs_eq A) by lia.
  assert (A * Z.abs (m3 * (P1 * P2) - mx) <= A * (P1 * P2))
    by (apply Z.mul_le_mono_nonneg_l; lia).
  lia.
Qed.

Lemma binary_round_err (s : bool) (mx : positive) (ex k : Z) :
  -1074 <= ex -> Zpos (digits2_pos mx) + ex <= k -> -1074 <= k <= 1023 ->
  Z.abs (ival (binary_round prec emax s mx ex)
         - cond_Zopp s (Zpos mx * 2 ^ (ex + 1074)))
  <= 2 ^ (fexp prec emax (k + 1) + 1074).
Proof.
  intros Hex Hk Hrange. unfold binary_round.
  destruct (shl_align_spec mx ex (fexp prec emax (Zpos (digits2_pos mx) + ex)))
    as [He Hmz].
  destruct (shl_align mx ex _) as [mz ez]. cbn [fst snd] in He, Hmz.
  rewrite <- He in Hmz.
  assert (Hd : Zdigits2 (Zpos mz) = Zdigits2 (Zpos mx) + (ex - ez)).
  { rewrite Hmz. apply Zdigits2_mul_pow2; lia. }
  change (Zdigits2 (Zpos mx)) with (Zpos (digits2_pos mx)) in Hd.
  assert (Hez : -1074 <= ez) by (rewrite fexp_eq in He; lia).
  assert (Hval : Zpos mx * 2 ^ (ex + 1074) = Zpos mz * 2 ^ (ez + 1074)).
  { rewrite Hmz, <- Z.mul_assoc, <- Z.pow_add_r by lia. do 2 f_equal. lia. }
  pose proof (fexp_mono (Zpos (digits2_pos mx) + ex) (k + 1)) as Hmono.
  rewrite Hval. apply binary_round_aux_err; lia.
Qed.

Lemma binary_normalize_err (m e : Z) (sz : bool) (k : Z) :
  -1074 <= e -> Zdigits2 m + e <= k -> -1074 <= k <= 1023 ->
  Z.abs (ival (binary_normalize prec emax m e sz) - m * 2 ^ (e + 1074))
  <= 2 ^ (fexp prec emax (k + 1) + 1074).
Proof.
  intros He Hk Hrange.
  assert (Hp : 0 < 2 ^ (fexp prec emax (k + 1) + 1074))
    by (apply pow2_pos; rewrite fexp_eq; lia).
  destruct m as [|m|m]; cbn [binary_normalize].
  - cbn [ival]. lia.
  - apply (binary_round_err false m e k He Hk Hrange).
  - pose proof (binary_round_err true m e k He Hk Hrange) as H.
    cbn [cond_Zopp] in H.
    replace (Z.neg m * 2 ^ (e + 1074)) with (- (Zpos m * 2 ^ (e + 1074)))
      by lia.
    exact H.
Qed.

(** The exact value of an operand brought to the common exponent. *)
Lemma shl_align_ival (s : bool) (m : positive) (e ez : Z) :
  -1074 <= ez -> ez <= e ->
  cond_Zopp s (Zpos (fst (shl_align m e ez))) * 2 ^ (ez + 1074)
  = ival (S754_finite s m e).
Proof.
  intros Hez Hle. destruct (shl_align_spec m e ez) as [_ Hm].
  replace (Z.min e ez) with ez in Hm by lia. rewrite Hm. cbn [ival].
  replace (e + 1074) with (e - ez + (ez + 1074)) by lia.
  rewrite (Z.pow_add_r 2 (e - ez) (ez + 1074)) by lia.
  destruct s; cbn [cond_Zopp]; ring.
Qed.

Lemma exact_add (k : Z) (x y : float) :
  fbnd k x -> fbnd k y -> -1074 <= k <= 1021 ->
  Z.abs (exact (x + y) - (exact x + exact y))
  <= 2 ^ (fexp prec emax (k + 2) + 1074).
Proof.
  unfold fbnd, exact. rewrite add_spec. unfold SF64add.
  intros Hx Hy Hr.
  assert (Hp : 0 < 2 ^ (fexp prec emax (k + 2) + 1074))
    by (apply pow2_pos; rewrite fexp_eq; lia).
  destruct (Prim2SF x) as [sx|sx| |sx mx ex] eqn:Ex;
    destruct (Prim2SF y) as [sy|sy| |sy my ey] eqn:Ey; cbn [bnd] in Hx, Hy;
    try tauto; cbn [SFadd].
  - destruct sx, sy; cbn [ival]; lia.
  - cbn [ival]. lia.
  - cbn [ival]. lia.
  - destruct (Prim2SF_finite_valid x sx mx ex Ex) as (_ & Hex & _).
    destruct (Prim2SF_finite_valid y sy my ey Ey) as (_ & Hey & _).
    set (ez := Z.min ex ey).
    rewrite <- (shl_align_ival sx mx ex ez), <- (shl_align_ival sy my ey ez)
      by (unfold ez; lia).
    rewrite <- Z.mul_add_distr_r.
    replace (k + 2) with (k + 1 + 1) by lia.
    apply binary_normalize_err; [unfold ez; lia| |lia].
    apply (aligned_sum_bound sx sy mx my ex ey k Z.add); auto. intros; lia.
Qed.

Lemma exact_sub (k : Z) (x y : float) :
  fbnd k x -> fbnd k y -> -1074 <= k <= 1021 ->
  Z.abs (exact (x - y) - (exact x - exact y))
  <= 2 ^ (fexp prec emax (k + 2) + 1074).
Proof.
  unfold fbnd, exact. rewrite sub_spec. unfold SF64sub.
  intros Hx Hy Hr.
  assert (Hp : 0 < 2 ^ (fexp prec emax (k + 2) + 1074))
    by (apply pow2_pos; rewrite fexp_eq; lia).
  destruct (Prim2SF x) as [sx|sx| |sx mx ex] eqn:Ex;
    destruct (Prim2SF y) as [sy|sy| |sy my ey] eqn:Ey; cbn [bnd] in Hx, Hy;
    try tauto; cbn [SFsub].
  - destruct sx, sy; cbn [ival negb]; lia.
  - cbn [ival SFopp]. destruct sy; cbn [negb cond_Zopp]; lia.
  - cbn [ival]. lia.
  - destruct (Prim2SF_finite_valid x sx mx ex Ex) as (_ & Hex & _).
    destruct (Prim2SF_finite_valid y sy my ey Ey) as (_ & Hey & _).
    set (ez := Z.min ex ey).
    rewrite <- (shl_align_ival sx mx ex ez), <- (shl_align_ival sy my ey ez)
      by (unfold ez; lia).
    rewrite <- Z.mul_sub_distr_r.
    replace (k + 2) with (k + 1 + 1) by lia.
    apply binary_normalize_err; [unfold ez; lia| |lia].
    apply (aligned_sum_bound sx sy mx my ex ey k Z.sub); auto. intros; lia.
Qed.

(** ** What [format(x, ".pf")] prints *)

Lemma round_half_even_err (n d : Z) :
  0 < d -> Z.abs (2 * (pyfloat.round_half_even n d * d) - 2 * n) <= d.
Proof.
  intros Hd. unfold pyfloat.round_half_even.
  pose proof (Z.div_mod n d ltac:(lia)) as D.
  pose proof (Z.mod_pos_bound n d Hd) as B.
  set (q := n / d) in *. set (r := n mod d) in *. clearbody q r.
  assert (E : d * q = q * d) by ring.
  destruct (Z.compare_spec (2 * r) d) as [H|H|H].
  - destruct (Z.even q); lia.
  - lia.
  - lia.
Qed.

Lemma round_half_even_nonneg (n d : Z) :
  0 <= n -> 0 < d -> 0 <= pyfloat.round_half_even n d.
Proof.
  intros Hn Hd. unfold pyfloat.round_half_even.
  assert (0 <= n / d) by (apply Z.div_pos; lia).
  destruct (_ ?= _); [destruct (Z.even _)| |]; lia.
Qed.

Lemma scaled_nonneg (p : nat) (m : positive) (e : Z) :
  0 <= pyfloat.scaled p m e.
Proof.
  unfold pyfloat.scaled.
  assert (0 < 10 ^ Z.of_nat p) by (apply Z.pow_pos_nonneg; lia).
  destruct (Z.leb_spec 0 e).
  - assert (0 < 2 ^ e) by (apply pow2_pos; lia). nia.
  - apply round_half_even_nonneg; [nia|apply pow2_pos; lia].
Qed.

(** The text is the sign and the printed number. *)
Lemma format_f_printed (p : nat) (x : float) :
  is_finite x = true ->
  pyfloat.format_f p x
  = (pyfloat.sign_str (signbit x)
     ++ pyfloat.fixed p (Z.abs (printed p x)))%string.
Proof.
  rewrite is_finite_spec. unfold pyfloat.format_f, signbit, printed.
  destruct (Prim2SF x) as [s|s| |s m e]; try discriminate; intros _.
  - reflexivity.
  - pose proof (scaled_nonneg p m e).
    destruct s; cbn [cond_Zopp]; rewrite ?Z.abs_opp, Z.abs_eq by lia;
      reflexivity.
Qed.

(** The printed number is the exact value times [10^p], off by half a
    unit at most. *)
Lemma printed_err (p : nat) (x : float) :
  Z.abs (2 * (printed p x * one_exact) - 2 * (10 ^ Z.of_nat p * exact x))
  <= one_exact.
Proof.
  unfold printed, exact, one_exact.
  assert (HT : 0 < 2 ^ 1074) by (apply pow2_pos; lia).
  destruct (Prim2SF x) as [s|s| |s m e] eqn:Ex; cbn [ival]; try lia.
  destruct (Prim2SF_finite_valid x s m e Ex) as (_ & He & _).
  set (t := 10 ^ Z.of_nat p).
  assert (Hs : forall a b : Z,
             Z.abs (2 * (cond_Zopp s a * 2 ^ 1074)
                    - 2 * (t * cond_Zopp s b))
             = Z.abs (2 * (a * 2 ^ 1074) - 2 * (t * b)))
    by (intros a b; destruct s; cbn [cond_Zopp]; lia).
  rewrite Hs. clear Hs. unfold pyfloat.scaled. fold t.
  assert (HA : 0 < 2 ^ (e + 1074)) by (apply pow2_pos; lia).
  destruct (Z.leb_spec 0 e) as [H0|H0].
  - replace (2 ^ (e + 1074)) with (2 ^ e * 2 ^ 1074)
      by (rewrite <- Z.pow_add_r by lia; reflexivity).
    replace (2 * (Zpos m * 2 ^ e * t * 2 ^ 1074)
             - 2 * (t * (Zpos m * (2 ^ e * 2 ^ 1074)))) with 0 by ring.
    cbn [Z.abs]. lia.
  - set (d := 2 ^ (- e)). set (A := 2 ^ (e + 1074)) in *.
    assert (Hd : 0 < d) by (apply pow2_pos; lia).
    assert (E : 2 ^ 1074 = d * A).
    { unfold d, A. rewrite <- Z.pow_add_r by lia. f_equal. lia. }
    rewrite E.
    pose proof (round_half_even_err (Zpos m * t) d Hd) as Hr.
    set (N := pyfloat.round_half_even (Zpos m * t) d) in *. clearbody N.
    replace (2 * (N * (d * A)) - 2 * (t * (Zpos m * A)))
      with (A * (2 * (N * d) - 2 * (Zpos m * t))) by ring.
    rewrite Z.abs_mul, (Z.abs_eq A) by lia.
    rewrite (Z.mul_comm d A). apply Z.mul_le_mono_nonneg_l; lia.
Qed.

End Values.

(** * Order and sign *)

Section Order.

Local Open Scope Z_scope.

(** Of two positive floats the one with the larger exponent is larger. *)
Lemma canonical_lt (x y : float) (sx sy : bool) (mx my : positive) (ex ey : Z) :
  Prim2SF x = S754_finite sx mx ex -> Prim2SF y = S754_finite sy my ey ->
  ex < ey -> Zpos mx * 2 ^ (ex + 1074) < Zpos my * 2 ^ (ey + 1074).
Proof.
  intros Hx Hy Hlt.
  destruct (Prim2SF_finite_valid x sx mx ex Hx) as (Hdx & Hex & _).
  pose proof (Prim2SF_finite_canonical y sy my ey Hy) as Hcy.
  assert (Hdy : Zpos (digits2_pos my) = 53) by lia.
  pose proof (Zdigits2_le (Zpos my) ltac:(lia)) as Hmy.
  change (Zdigits2 (Zpos my)) with (Zpos (digits2_pos my)) in Hmy.
  rewrite Hdy in Hmy. change (2 ^ (53 - 1)) with 4503599627370496 in Hmy.
  pose proof (pos_lt_pow2_digits mx 53 Hdx) as Hmx.
  change (2 ^ 53) with 9007199254740992 in Hmx.
  assert (HA : 0 < 2 ^ (ex + 1074)) by (apply pow2_pos; lia).
  assert (HB : 2 * 2 ^ (ex + 1074) <= 2 ^ (ey + 1074)).
  { rewrite <- Z.pow_succ_r by lia. apply Z.pow_le_mono_r; lia. }
  nia.
Qed.

Lemma compare_scaled (a b c : Z) : 0 < c -> (a * c ?= b * c) = (a ?= b).
Proof.
  intros Hc. destruct (Z.compare_spec a b) as [H|H|H].
  - subst. apply Z.compare_refl.
  - apply Z.compare_lt_iff. nia.
  - apply Z.compare_gt_iff. nia.
Qed.

(** [SFcompare] on finite floats is the order of their exact values. *)
Lemma compare_exact (x y : float) :
  is_finite x = true -> is_finite y = true ->
  SFcompare (Prim2SF x) (Prim2SF y) = Some (exact x ?= exact y).
Proof.
  rewrite !is_finite_spec. unfold exact. intros Hx Hy.
  destruct (Prim2SF x) as [sx|sx| |sx mx ex] eqn:Ex; try discriminate;
    destruct (Prim2SF y) as [sy|sy| |sy my ey] eqn:Ey; try discriminate;
    cbn [SFcompare ival].
  - reflexivity.
  - destruct (Prim2SF_finite_valid y sy my ey Ey) as (_ & Hey & _).
    assert (0 < 2 ^ (ey + 1074)) by (apply pow2_pos; lia).
    f_equal. symmetry.
    destruct sy; cbn [cond_Zopp];
      [apply Z.compare_gt_iff|apply Z.compare_lt_iff]; nia.
  - destruct (Prim2SF_finite_valid x sx mx ex Ex) as (_ & Hex & _).
    assert (0 < 2 ^ (ex + 1074)) by (apply pow2_pos; lia).
    f_equal. symmetry.
    destruct sx; cbn [cond_Zopp];
      [apply Z.compare_lt_iff|apply Z.compare_gt_iff]; nia.
  - destruct (Prim2SF_finite_valid x sx mx ex Ex) as (_ & Hex & _).
    destruct (Prim2SF_finite_valid y sy my ey Ey) as (_ & Hey & _).
    assert (HA : 0 < 2 ^ (ex + 1074)) by (apply pow2_pos; lia).
    assert (HB : 0 < 2 ^ (ey + 1074)) by (apply pow2_pos; lia).
    assert (Hcmp : (Zpos mx * 2 ^ (ex + 1074) ?= Zpos my * 2 ^ (ey + 1074))
                   = match ex ?= ey with
                     | Eq => Pos.compare_cont Eq mx my
                     | Lt => Lt
                     | Gt => Gt
                     end).
    { destruct (Z.compare_spec ex ey) as [H|H|H].
      - subst ey. rewrite compare_scaled by lia. reflexivity.
      - apply Z.compare_lt_iff. exact (canonical_lt x y _ _ _ _ _ _ Ex Ey H).
      - apply Z.compare_gt_iff. exact (canonical_lt y x _ _ _ _ _ _ Ey Ex H). }
    f_equal. symmetry.
    destruct sx, sy; cbn [cond_Zopp].
    + rewrite Z.compare_opp, Z.compare_antisym, Hcmp.
      destruct (ex ?= ey); reflexivity.
    + apply Z.compare_lt_iff. nia.
    + apply Z.compare_gt_iff. nia.
    + exact Hcmp.
Qed.

(** ** A number that is not zero is not rounded to zero *)

Lemma div_pow2_pos (m n : Z) :
  0 < m -> 0 <= n -> n <= Zdigits2 m - 1 -> 0 < m / 2 ^ n.
Proof.
  intros Hm Hn Hd. pose proof (Zdigits2_le m Hm) as Hle.
  assert (2 ^ n <= 2 ^ (Zdigits2 m - 1)) by (apply Z.pow_le_mono_r; lia).
  apply Z.div_str_pos. split; [apply pow2_pos; lia|lia].
Qed.

Lemma binary_round_aux_finite (s : bool) (mx ex : Z) (lx : location) (k : Z) :
  0 < mx -> -1073 <= Zdigits2 mx + ex -> Zdigits2 mx + ex <= k ->
  ex <= 971 -> k <= 1023 ->
  exists m e, binary_round_aux prec emax s mx ex lx = S754_finite s m e.
Proof.
  intros Hm Hlo Hk Hex Hrange.
  destruct (binary_round_aux_steps s mx ex lx ltac:(lia))
    as (m2 & Hm2 & _ & Heq).
  cbv zeta in Heq. rewrite Heq. clear Heq.
  set (e1 := Z.max ex (fexp prec emax (Zdigits2 mx + ex))) in *.
  set (m1 := mx / 2 ^ (e1 - ex)) in *.
  set (e2 := Z.max e1 (fexp prec emax (Zdigits2 m2 + e1))).
  pose proof (Zdigits2_pos mx Hm) as Hd.
  assert (He1 : ex <= e1 /\ e1 - ex <= Zdigits2 mx - 1 /\ -1074 <= e1
                /\ e1 <= 971 /\ e1 <= k).
  { unfold e1. rewrite fexp_eq. lia. }
  assert (Hm1 : 0 < m1) by (apply div_pow2_pos; lia).
  assert (Hd1 : Zdigits2 m1 + e1 <= k).
  { pose proof (Zdigits2_div_pow2_le mx (e1 - ex) ltac:(lia) ltac:(lia)) as H.
    fold m1 in H. lia. }
  assert (Hm2' : 0 < m2) by lia.
  assert (Hd2 : Zdigits2 m2 + e1 <= k + 1).
  { destruct Hm2 as [->| ->]; [lia|].
    pose proof (Zdigits2_succ_le m1 ltac:(lia)). lia. }
  pose proof (Zdigits2_pos m2 Hm2') as Hd2'.
  assert (He2 : e1 <= e2 /\ e2 - e1 <= Zdigits2 m2 - 1 /\ e2 <= 971).
  { unfold e2. rewrite fexp_eq. lia. }
  assert (Hm3 : 0 < m2 / 2 ^ (e2 - e1)) by (apply div_pow2_pos; lia).
  destruct (m2 / 2 ^ (e2 - e1)) as [|m3|m3]; [lia| |lia].
  assert ((e2 <=? emax - prec) = true) as ->
    by (apply Z.leb_le; change (emax - prec) with 971; lia).
  eauto.
Qed.

Lemma binary_round_finite (s : bool) (mx : positive) (ex k : Z) :
  -1074 <= ex -> Zpos (digits2_pos mx) + ex <= k -> k <= 1023 ->
  exists m e, binary_round prec emax s mx ex = S754_finite s m e.
Proof.
  intros Hex Hk Hrange. unfold binary_round.
  destruct (shl_align_spec mx ex (fexp prec emax (Zpos (digits2_pos mx) + ex)))
    as [He Hmz].
  destruct (shl_align mx ex _) as [mz ez]. cbn [fst snd] in He, Hmz.
  rewrite <- He in Hmz.
  assert (Hd : Zdigits2 (Zpos mz) = Zdigits2 (Zpos mx) + (ex - ez)).
  { rewrite Hmz. apply Zdigits2_mul_pow2; lia. }
  change (Zdigits2 (Zpos mx)) with (Zpos (digits2_pos mx)) in Hd.
  rewrite fexp_eq in He.
  apply (binary_round_aux_finite s (Zpos mz) ez loc_Exact k); lia.
Qed.

End Order.

(** * The sign of a difference and of a product *)

Section Signs.

Local Open Scope Z_scope.

(** The sign of a difference is the order of its operands. *)
Lemma sub_compare (k : Z) (x y : float) :
  fbnd k x -> fbnd k y -> k <= 1021 ->
  SFcompare (S754_zero false) (Prim2SF (x - y))
  = SFcompare (Prim2SF y) (Prim2SF x).
Proof.
  intros Hx Hy Hk.
  rewrite (compare_exact y x)
    by (eapply fbnd_is_finite; eassumption).
  revert Hx Hy. unfold fbnd, exact. rewrite sub_spec. unfold SF64sub.
  destruct (Prim2SF x) as [sx|sx| |sx mx ex] eqn:Ex;
    destruct (Prim2SF y) as [sy|sy| |sy my ey] eqn:Ey; cbn [bnd];
    try tauto; intros Hx Hy; cbn [SFsub ival].
  - destruct sx, sy; reflexivity.
  - destruct (Prim2SF_finite_valid y sy my ey Ey) as (_ & Hey & _).
    assert (0 < 2 ^ (ey + 1074)) by (apply pow2_pos; lia).
    cbn [SFopp SFcompare]. f_equal. symmetry.
    destruct sy; cbn [negb cond_Zopp];
      [apply Z.compare_lt_iff|apply Z.compare_gt_iff]; nia.
  - destruct (Prim2SF_finite_valid x sx mx ex Ex) as (_ & Hex & _).
    assert (0 < 2 ^ (ex + 1074)) by (apply pow2_pos; lia).
    cbn [SFcompare]. f_equal. symmetry.
    destruct sx; cbn [cond_Zopp];
      [apply Z.compare_gt_iff|apply Z.compare_lt_iff]; nia.
  - destruct (Prim2SF_finite_valid x sx mx ex Ex) as (_ & Hex & _).
    destruct (Prim2SF_finite_valid y sy my ey Ey) as (_ & Hey & _).
    set (ez := Z.min ex ey).
    pose proof (shl_align_ival sx mx ex ez ltac:(unfold ez; lia)
                  ltac:(unfold ez; lia)) as Ix.
    pose proof (shl_align_ival sy my ey ez ltac:(unfold ez; lia)
                  ltac:(unfold ez; lia)) as Iy.
    cbn [ival] in Ix, Iy. rewrite <- Ix, <- Iy.
    pose proof (aligned_sum_bound sx sy mx my ex ey k Z.sub
                  ltac:(intros; lia) Hx Hy) as Hd.
    cbv zeta in Hd. fold ez in Hd.
    set (u := cond_Zopp sx (Zpos (fst (shl_align mx ex ez)))) in *.
    set (v := cond_Zopp sy (Zpos (fst (shl_align my ey ez)))) in *.
    rewrite compare_scaled by (apply pow2_pos; unfold ez; lia).
    destruct (u - v) as [|p|p] eqn:E; cbn [binary_normalize].
    + assert (v = u) as -> by lia. rewrite Z.compare_refl. reflexivity.
    + destruct (binary_round_finite false p ez (k + 1)) as (m & e & ->);
        [unfold ez; lia|exact Hd|lia|].
      cbn [SFcompare]. f_equal. symmetry. apply Z.compare_lt_iff. lia.
    + destruct (binary_round_finite true p ez (k + 1)) as (m & e & ->);
        [unfold ez; lia|exact Hd|lia|].
      cbn [SFcompare]. f_equal. symmetry. apply Z.compare_gt_iff. lia.
Qed.

(** A product of two finite numbers that is not too small has the sign
    of its factors. *)
Lemma mul_finite_sign (x y : float) (sx sy : bool) (mx my : positive)
    (ex ey : Z) :
  Prim2SF x = S754_finite sx mx ex -> Prim2SF y = S754_finite sy my ey ->
  -1073 <= Zdigits2 (Zpos (mx * my)) + (ex + ey) <= 1023 ->
  ex + ey <= 971 ->
  exists m e, Prim2SF (x * y) = S754_finite (xorb sx sy) m e.
Proof.
  intros Hx Hy Hr He. rewrite mul_spec. unfold SF64mul. rewrite Hx, Hy.
  cbn [SFmul].
  apply (binary_round_aux_finite _ _ _ _ 1023); lia.
Qed.

(** Four times a number has the sign of the number. *)
Lemma mul_4_compare (x : float) :
  fbnd 1000 x ->
  SFcompare (S754_zero false) (Prim2SF (x * 4))
  = SFcompare (S754_zero false) (Prim2SF x).
Proof.
  unfold fbnd. intros Hx.
  assert (E4 : Prim2SF 4 = S754_finite false 4503599627370496 (-50))
    by reflexivity.
  destruct (Prim2SF x) as [sx|sx| |sx mx ex] eqn:Ex; cbn [bnd] in Hx;
    try tauto.
  - rewrite mul_spec. unfold SF64mul. rewrite Ex, E4. reflexivity.
  - destruct (Prim2SF_finite_valid x sx mx ex Ex) as (_ & Hex & _).
    destruct (mul_finite_sign x 4 sx false mx 4503599627370496 ex (-50)
                Ex E4) as (m & e & ->).
    + rewrite Pos2Z.inj_mul.
      change (Zpos 4503599627370496) with (2 ^ 52).
      rewrite Zdigits2_mul_pow2 by lia.
      change (Zdigits2 (Zpos mx)) with (Zpos (digits2_pos mx)). lia.
    + lia.
    + rewrite xorb_false_r. reflexivity.
Qed.

Lemma ltb_exact (x y : float) :
  is_finite x = true -> is_finite y = true ->
  (x <? y)%float = (exact x <? exact y).
Proof.
  intros Hx Hy. rewrite ltb_spec. unfold SFltb.
  rewrite (compare_exact x y Hx Hy). unfold Z.ltb. reflexivity.
Qed.

Lemma eqb_exact (x y : float) :
  is_finite x = true -> is_finite y = true ->
  (x =? y)%float = (exact x =? exact y).
Proof.
  intros Hx Hy. rewrite eqb_spec. unfold SFeqb.
  rewrite (compare_exact x y Hx Hy), Z.eqb_compare. reflexivity.
Qed.

End Signs.

(** * The reference C library keeps the contract *)

Section RefLibm.

Local Open Scope Z_scope.

Lemma unit_pos : 0 < reflibm.unit.
Proof. reflexivity. Qed.

Lemma pi_fx_range : 0 < reflibm.pi_fx < 4 * reflibm.unit.
Proof. split; reflexivity. Qed.

(** The reduced argument lies between [- pi] and [pi]. *)
Lemma reduce_range (m e : Z) : Z.abs (reflibm.reduce m e) <= reflibm.pi_fx.
Proof.
  unfold reflibm.reduce.
  set (x := if 0 <=? e + reflibm.bits then _ else _). clearbody x.
  pose proof pi_fx_range as [HP _]. set (P := reflibm.pi_fx) in *. clearbody P.
  pose proof (Z.div_mod (2 * x + 2 * P) (4 * P) ltac:(lia)) as Hdm.
  pose proof (Z.mod_pos_bound (2 * x + 2 * P) (4 * P) ltac:(lia)) as Hmod.
  lia.
Qed.

Lemma div_abs_le (a b : Z) : 1 <= b -> Z.abs (a / b) <= Z.abs a.
Proof.
  intros Hb.
  pose proof (Z.div_mod a b ltac:(lia)) as Hdm.
  pose proof (Z.mod_pos_bound a b ltac:(lia)) as Hmod.
  nia.
Qed.

(** One term of the series is at most 17 times the one before, and one. *)
Lemma series_step (r2 term k : Z) :
  0 <= r2 <= 16 * reflibm.unit -> 1 <= k ->
  Z.abs (- (term * r2 / reflibm.unit) / (k * (k + 1))) + 1
  <= 17 * (Z.abs term + 1).
Proof.
  intros Hr Hk. pose proof unit_pos as HU.
  set (U := reflibm.unit) in *. clearbody U.
  pose proof (div_abs_le (- (term * r2 / U)) (k * (k + 1)) ltac:(nia)) as H1.
  rewrite Z.abs_opp in H1.
  assert (H2 : Z.abs (term * r2 / U) <= 16 * Z.abs term + 1).
  { pose proof (Z.div_mod (term * r2) U ltac:(lia)) as Hdm.
    pose proof (Z.mod_pos_bound (term * r2) U ltac:(lia)) as Hmod.
    assert (Z.abs (term * r2) <= 16 * U * Z.abs term).
    { rewrite Z.abs_mul. rewrite (Z.abs_eq r2) by lia. nia. }
    nia. }
  lia.
Qed.

Lemma series_bound (fuel : nat) (r2 : Z) :
  0 <= r2 <= 16 * reflibm.unit ->
  forall term k acc, 1 <= k ->
  Z.abs (reflibm.series fuel r2 term k acc)
  <= Z.abs acc + (Z.abs term + 1) * (18 ^ Z.of_nat fuel - 1).
Proof.
  intros Hr. induction fuel as [|fuel IH]; intros term k acc Hk.
  - simpl. lia.
  - cbn [reflibm.series].
    set (term' := - (term * r2 / reflibm.unit) / (k * (k + 1))).
    pose proof (series_step r2 term k Hr Hk) as Hstep. fold term' in Hstep.
    specialize (IH term' (k + 2) (acc + term') ltac:(lia)).
    rewrite Nat2Z.inj_succ, Z.pow_succ_r by lia.
    assert (0 < 18 ^ Z.of_nat fuel) by (apply Z.pow_pos_nonneg; lia).
    nia.
Qed.

Lemma r2_range (r : Z) :
  Z.abs r <= reflibm.pi_fx -> 0 <= r * r / reflibm.unit <= 16 * reflibm.unit.
Proof.
  intros Hr. pose proof unit_pos as HU. pose proof pi_fx_range as [HP HP'].
  set (U := reflibm.unit) in *. set (P := reflibm.pi_fx) in *.
  clearbody U P.
  split.
  - apply Z.div_pos; nia.
  - apply Z.div_le_upper_bound; nia.
Qed.

(** Both sums are far below the largest float, in fixed point. *)
Lemma sin_fx_small (r : Z) :
  Z.abs r <= reflibm.pi_fx -> Z.abs (reflibm.sin_fx r) < 2 ^ 700.
Proof.
  intros Hr. unfold reflibm.sin_fx.
  pose proof (series_bound 80 _ (r2_range r Hr) r 2 r ltac:(lia)) as H.
  pose proof pi_fx_range as [_ HP].
  assert (4 * reflibm.unit * 2 * 18 ^ Z.of_nat 80 < 2 ^ 700) by reflexivity.
  assert (0 < 18 ^ Z.of_nat 80) by reflexivity.
  nia.
Qed.

Lemma cos_fx_small (r : Z) :
  Z.abs r <= reflibm.pi_fx -> Z.abs (reflibm.cos_fx r) < 2 ^ 700.
Proof.
  intros Hr. unfold reflibm.cos_fx.
  pose proof (series_bound 80 _ (r2_range r Hr) reflibm.unit 1 reflibm.unit
                ltac:(lia)) as H.
  pose proof unit_pos.
  assert (4 * reflibm.unit * 2 * 18 ^ Z.of_nat 80 < 2 ^ 700) by reflexivity.
  assert (0 < 18 ^ Z.of_nat 80) by reflexivity.
  rewrite (Z.abs_eq reflibm.unit) in H by lia.
  nia.
Qed.

Lemma of_ratio_fbnd (n d : Z) :
  0 <= n < 2 ^ 700 -> 0 <= d -> fbnd 702 (pyfloat.of_ratio n d).
Proof.
  intros Hn Hd. unfold pyfloat.of_ratio.
  set (k := 64 + Z.log2_up d).
  assert (Hk : 64 <= k) by (unfold k; pose proof (Z.log2_up_nonneg d); lia).
  clearbody k.
  set (sticky := if _ =? 0 then 0 else 1).
  assert (Hs : 0 <= sticky <= 1) by (unfold sticky; destruct (_ =? 0); lia).
  clearbody sticky.
  rewrite Z.shiftl_mul_pow2 by lia.
  assert (Hq : 0 <= n * 2 ^ k / d <= n * 2 ^ k).
  { assert (0 < 2 ^ k) by (apply Z.pow_pos_nonneg; lia).
    destruct (Z.eq_dec d 0) as [->|Hne].
    - rewrite Z.div_0_r. nia.
    - split; [apply Z.div_pos; nia|].
      apply Z.div_le_upper_bound; nia. }
  change 702 with (701 + 1). apply fbnd_of_dyadic; [|lia].
  assert (Zdigits2 (2 * (n * 2 ^ k / d) + sticky) <= 700 + k + 1).
  { apply Zdigits2_lt_pow2; try lia.
    rewrite !Z.pow_add_r by lia.
    assert (0 < 2 ^ k) by (apply Z.pow_pos_nonneg; lia). nia. }
  lia.
Qed.

Lemma fbnd_opp (k : Z) (x : float) : fbnd k x -> fbnd k (- x)%float.
Proof.
  unfold fbnd. rewrite opp_spec. destruct (Prim2SF x); simpl; auto.
Qed.

Lemma fbnd_self (x : float) (s : bool) (m : positive) (e : Z) :
  Prim2SF x = S754_finite s m e -> fbnd 1024 x.
Proof.
  intros E. unfold fbnd. rewrite E. cbn [bnd].
  pose proof (Prim2SF_finite_valid x s m e E). lia.
Qed.

Lemma reflibm_sin_finite (x : float) :
  is_finite x = true -> is_finite (reflibm.sin x) = true.
Proof.
  rewrite (is_finite_spec x). unfold reflibm.sin.
  destruct (Prim2SF x) as [s|s| |s m e] eqn:E; try discriminate; intros _.
  - rewrite is_finite_spec, E. reflexivity.
  - destruct (reflibm.tiny m e); [rewrite is_finite_spec, E; reflexivity|].
    apply (fbnd_is_finite (700 - 320 + 1)). apply fbnd_of_dyadic; [|lia].
    pose proof (sin_fx_small _ (reduce_range (cond_Zopp s (Zpos m)) e)).
    assert (Zdigits2 (reflibm.sin_fx (reflibm.reduce (cond_Zopp s (Zpos m)) e))
            <= 700) by (apply Zdigits2_abs_lt; lia).
    unfold reflibm.bits. lia.
Qed.

Lemma reflibm_cos_finite (x : float) :
  is_finite x = true -> is_finite (reflibm.cos x) = true.
Proof.
  rewrite (is_finite_spec x). unfold reflibm.cos.
  destruct (Prim2SF x) as [s|s| |s m e] eqn:E; try discriminate; intros _.
  - reflexivity.
  - destruct (reflibm.tiny m e); [reflexivity|].
    apply (fbnd_is_finite (700 - 320 + 1)). apply fbnd_of_dyadic; [|lia].
    pose proof (cos_fx_small _ (reduce_range (cond_Zopp s (Zpos m)) e)).
    assert (Zdigits2 (reflibm.cos_fx (reflibm.reduce (cond_Zopp s (Zpos m)) e))
            <= 700) by (apply Zdigits2_abs_lt; lia).
    unfold reflibm.bits. lia.
Qed.

Lemma reflibm_tan_finite (x : float) :
  is_finite x = true -> is_finite (reflibm.tan x) = true.
Proof.
  rewrite (is_finite_spec x). unfold reflibm.tan.
  destruct (Prim2SF x) as [s|s| |s m e] eqn:E; try discriminate; intros _.
  - rewrite is_finite_spec, E. reflexivity.
  - destruct (reflibm.tiny m e); [rewrite is_finite_spec, E; reflexivity|].
    pose proof (sin_fx_small _ (reduce_range (cond_Zopp s (Zpos m)) e)).
    set (r := reflibm.reduce _ _) in *.
    assert (Hq : fbnd 702 (pyfloat.of_ratio (Z.abs (reflibm.sin_fx r))
                                            (Z.abs (reflibm.cos_fx r)))).
    { apply of_ratio_fbnd; lia. }
    apply (fbnd_is_finite 702).
    destruct (Bool.eqb _ _); [exact Hq|apply fbnd_opp, Hq].
Qed.

Lemma reflibm_of_infinity (f : float -> float) (x : float) :
  (forall y, f y = match Prim2SF y with
                   | S754_nan | S754_infinity _ => nan
                   | _ => f y
                   end) ->
  is_infinity x = true -> is_nan (f x) = true.
Proof.
  intros Hf. rewrite is_infinity_spec, (Hf x).
  destruct (Prim2SF x); try discriminate; reflexivity.
Qed.

Theorem reflibm_ok : math.libm_ok reflibm.lm.
Proof.
  split; cbn [math.c_tan math.c_sin math.c_cos reflibm.lm].
  - exact reflibm_tan_finite.
  - exact reflibm_sin_finite.
  - exact reflibm_cos_finite.
  - intros x. apply (reflibm_of_infinity reflibm.tan). intros y. unfold reflibm.tan.
    destruct (Prim2SF y); reflexivity.
  - intros x. apply (reflibm_of_infinity reflibm.sin). intros y. unfold reflibm.sin.
    destruct (Prim2SF y); reflexivity.
  - intros x. apply (reflibm_of_infinity reflibm.cos). intros y. unfold reflibm.cos.
    destruct (Prim2SF y); reflexivity.
Qed.

End RefLibm.

(** * Numbers that are rounded to themselves *)

Section Representable.

Local Open Scope Z_scope.

Lemma shr_1_even (k : Z) :
  0 <= k ->
  shr_1 {| shr_m := 2 * k; shr_r := false; shr_s := false |}
  = {| shr_m := k; shr_r := false; shr_s := false |}.
Proof. intros Hk. destruct k as [|p|p]; [reflexivity|reflexivity|lia]. Qed.

(** Shifting out zeros keeps the record exact. *)
Lemma iter_shr_1_exact (p : positive) :
  forall k : Z, 0 <= k ->
  iter_pos shr_1 p
    {| shr_m := k * 2 ^ Zpos p; shr_r := false; shr_s := false |}
  = {| shr_m := k; shr_r := false; shr_s := false |}.
Proof.
  induction p as [p IH|p IH|]; intros k Hk; cbn [iter_pos].
  - replace (k * 2 ^ Zpos p~1) with (2 * (k * 2 ^ Zpos p * 2 ^ Zpos p)).
    2:{ replace (Zpos p~1) with (1 + Zpos p + Zpos p) by lia.
        rewrite !Z.pow_add_r by lia. ring. }
    assert (0 < 2 ^ Zpos p) by (apply pow2_pos; lia).
    rewrite shr_1_even by nia. rewrite IH by nia. apply IH. exact Hk.
  - replace (k * 2 ^ Zpos p~0) with (k * 2 ^ Zpos p * 2 ^ Zpos p).
    2:{ replace (Zpos p~0) with (Zpos p + Zpos p) by lia.
        rewrite !Z.pow_add_r by lia. ring. }
    assert (0 < 2 ^ Zpos p) by (apply pow2_pos; lia).
    rewrite IH by nia. apply IH. exact Hk.
  - replace (k * 2 ^ 1) with (2 * k) by lia. apply shr_1_even. exact Hk.
Qed.

Lemma shr_fexp_exact (k e e' : Z) :
  0 <= k -> e <= e' ->
  e' = Z.max e (fexp prec emax (Zdigits2 (k * 2 ^ (e' - e)) + e)) ->
  shr_fexp prec emax (k * 2 ^ (e' - e)) e loc_Exact
  = ({| shr_m := k; shr_r := false; shr_s := false |}, e').
Proof.
  intros Hk Hle He'. unfold shr_fexp, shr. cbn [shr_record_of_loc].
  destruct (fexp prec emax (Zdigits2 (k * 2 ^ (e' - e)) + e) - e)
    as [|p|p] eqn:Hn.
  - assert (e' = e) as -> by lia. rewrite Z.sub_diag, Z.mul_1_r. reflexivity.
  - assert (e' - e = Zpos p) as -> by lia.
    rewrite iter_shr_1_exact by exact Hk. f_equal. lia.
  - assert (e' = e) as -> by lia. rewrite Z.sub_diag, Z.mul_1_r. reflexivity.
Qed.

(** A mantissa whose low bits, below the exponent of its magnitude, are all
    zero is kept as it is. *)
Lemma binary_round_aux_exact (s : bool) (k : positive) (ex e' : Z) :
  ex <= e' ->
  e' = fexp prec emax (Zpos (digits2_pos k) + e') ->
  e' <= 971 ->
  binary_round_aux prec emax s (Zpos k * 2 ^ (e' - ex)) ex loc_Exact
  = S754_finite s k e'.
Proof.
  intros Hle He' Hmax. unfold binary_round_aux.
  assert (Hd : Zdigits2 (Zpos k * 2 ^ (e' - ex)) + ex
               = Zpos (digits2_pos k) + e').
  { rewrite Zdigits2_mul_pow2 by lia.
    change (Zdigits2 (Zpos k)) with (Zpos (digits2_pos k)). lia. }
  rewrite (shr_fexp_exact (Zpos k) ex e') by (rewrite ?Hd; lia).
  cbn [shr_m loc_of_shr_record round_nearest_even].
  pose proof (shr_fexp_exact (Zpos k) e' e' ltac:(lia) ltac:(lia)) as H2.
  rewrite Z.sub_diag, Z.mul_1_r in H2.
  rewrite H2
    by (change (Zdigits2 (Zpos k)) with (Zpos (digits2_pos k)); lia).
  cbn [shr_m].
  assert ((e' <=? emax - prec) = true) as ->
    by (apply Z.leb_le; change (emax - prec) with 971; lia).
  reflexivity.
Qed.

(** The same for [binary_round]: a number [mx * 2^ex] that is a multiple
    of the unit of its magnitude. *)
Lemma binary_round_exact (s : bool) (mx : positive) (ex : Z) (n : Z) :
  -1074 <= ex -> Zpos (digits2_pos mx) + ex <= 1024 ->
  Zpos mx * 2 ^ (ex + 1074)
  = n * 2 ^ (fexp prec emax (Zpos (digits2_pos mx) + ex) + 1074) ->
  exists m e,
    binary_round prec emax s mx ex = S754_finite s m e /\
    Zpos m * 2 ^ (e + 1074) = Zpos mx * 2 ^ (ex + 1074).
Proof.
  intros Hex Hd Hn. unfold binary_round.
  set (D := Zpos (digits2_pos mx) + ex) in *.
  destruct (shl_align_spec mx ex (fexp prec emax D)) as [He Hmz].
  destruct (shl_align mx ex (fexp prec emax D)) as [mz ez].
  cbn [fst snd] in He, Hmz. rewrite <- He in Hmz.
  set (E := fexp prec emax D) in *.
  assert (HE : -1074 <= E <= 971) by (unfold E; rewrite fexp_eq; lia).
  assert (Hez : ez <= E /\ ez <= ex /\ -1074 <= ez) by lia.
  (* the mantissa at the exponent [E] *)
  assert (Hk : exists k : positive, Zpos mz = Zpos k * 2 ^ (E - ez)).
  { assert (Hpos : 0 < 2 ^ (E - ez)) by (apply pow2_pos; lia).
    assert (Hval : Zpos mz * 2 ^ (ez + 1074) = n * 2 ^ (E + 1074)).
    { rewrite <- Hn, Hmz, <- Z.mul_assoc, <- Z.pow_add_r by lia.
      do 2 f_equal. lia. }
    replace (E + 1074) with (E - ez + (ez + 1074)) in Hval by lia.
    rewrite (Z.pow_add_r 2 (E - ez) (ez + 1074)), Z.mul_assoc in Hval by lia.
    apply Z.mul_cancel_r in Hval;
      [|assert (0 < 2 ^ (ez + 1074)) by (apply pow2_pos; lia); lia].
    assert (0 < n) by nia.
    exists (Z.to_pos n). rewrite Z2Pos.id by lia. exact Hval. }
  destruct Hk as (k & Hk).
  assert (Hdk : Zpos (digits2_pos k) + E = D).
  { assert (Hdz : Zdigits2 (Zpos mz) = Zdigits2 (Zpos k) + (E - ez))
      by (rewrite Hk; apply Zdigits2_mul_pow2; lia).
    assert (Hdz' : Zdigits2 (Zpos mz) = Zdigits2 (Zpos mx) + (ex - ez))
      by (rewrite Hmz; apply Zdigits2_mul_pow2; lia).
    change (Zdigits2 (Zpos k)) with (Zpos (digits2_pos k)) in Hdz.
    change (Zdigits2 (Zpos mx)) with (Zpos (digits2_pos mx)) in Hdz'.
    unfold D. lia. }
  rewrite Hk. rewrite (binary_round_aux_exact s k ez E); [|lia| |lia].
  - exists k, E. split; [reflexivity|].
    assert (Hval : Zpos mz * 2 ^ (ez + 1074) = Zpos k * 2 ^ (E + 1074)).
    { rewrite Hk, <- Z.mul_assoc, <- Z.pow_add_r by lia.
      do 2 f_equal. lia. }
    assert (Hval' : Zpos mz * 2 ^ (ez + 1074) = Zpos mx * 2 ^ (ex + 1074)).
    { rewrite Hmz, <- Z.mul_assoc, <- Z.pow_add_r by lia.
      do 2 f_equal. lia. }
    lia.
  - rewrite Hdk. reflexivity.
Qed.

(** A number with at most 53 significant bits above [2^g] is a multiple
    of the unit of its magnitude. *)
Lemma small_on_grid (mx : positive) (ex n g : Z) :
  -1074 <= ex -> -1074 <= g -> 0 <= n < 2 ^ 53 ->
  Zpos mx * 2 ^ (ex + 1074) = n * 2 ^ (g + 1074) ->
  let D := Zpos (digits2_pos mx) + ex in
  D <= g + 53 /\
  exists n', Zpos mx * 2 ^ (ex + 1074) = n' * 2 ^ (fexp prec emax D + 1074).
Proof.
  intros Hex Hg Hn Hv D.
  pose proof (Zdigits2_le (Zpos mx) ltac:(lia)) as Hlow.
  change (Zdigits2 (Zpos mx)) with (Zpos (digits2_pos mx)) in Hlow.
  assert (HD : D <= g + 53).
  { destruct (Z_le_gt_dec D (g + 53)) as [H|H]; [exact H|exfalso].
    assert (H1 : 2 ^ (g + 53 + 1074) <= 2 ^ (D - 1 + 1074))
      by (apply Z.pow_le_mono_r; lia).
    assert (H2 : 2 ^ (D - 1 + 1074)
                 = 2 ^ (Zpos (digits2_pos mx) - 1) * 2 ^ (ex + 1074)).
    { rewrite <- Z.pow_add_r by lia. f_equal. unfold D. lia. }
    assert (H3 : 2 ^ (g + 53 + 1074) = 2 ^ 53 * 2 ^ (g + 1074)).
    { rewrite <- Z.pow_add_r by lia. f_equal. lia. }
    assert (0 < 2 ^ (ex + 1074)) by (apply pow2_pos; lia).
    assert (0 < 2 ^ (g + 1074)) by (apply pow2_pos; lia).
    nia. }
  split; [exact HD|].
  assert (HE : -1074 <= fexp prec emax D <= g) by (rewrite fexp_eq; lia).
  exists (n * 2 ^ (g - fexp prec emax D)).
  rewrite Hv, <- Z.mul_assoc, <- Z.pow_add_r by lia. do 2 f_equal. lia.
Qed.

(** [binary_normalize] keeps a number with at most 53 significant bits
    above [2^g], for [g] from -1074 on. *)
Lemma binary_normalize_exact (m e : Z) (sz : bool) (n g : Z) :
  -1074 <= e -> -1074 <= g <= 971 -> Z.abs n < 2 ^ 53 ->
  m * 2 ^ (e + 1074) = n * 2 ^ (g + 1074) ->
  ival (binary_normalize prec emax m e sz) = m * 2 ^ (e + 1074) /\
  bnd (g + 53) (binary_normalize prec emax m e sz).
Proof.
  intros He Hg Hn Hv.
  assert (HA : 0 < 2 ^ (e + 1074)) by (apply pow2_pos; lia).
  assert (HB : 0 < 2 ^ (g + 1074)) by (apply pow2_pos; lia).
  destruct m as [|m|m]; cbn [binary_normalize].
  - cbn [ival bnd]. split; [lia|exact I].
  - destruct (small_on_grid m e n g He ltac:(lia) ltac:(nia) Hv)
      as (HD & n' & Hn').
    destruct (binary_round_exact false m e n' He ltac:(lia) Hn')
      as (m' & e' & Heq & Hval).
    pose proof (binary_round_valid false m e) as Hvalid.
    rewrite Heq in *. apply valid_finite in Hvalid.
    cbn [ival cond_Zopp bnd]. split; [lia|].
    destruct (Z_le_gt_dec (Zpos (digits2_pos m') + e') (g + 53))
      as [H|H]; [exact H | exfalso].
    pose proof (Zdigits2_le (Zpos m') ltac:(lia)) as Hlow.
    change (Zdigits2 (Zpos m')) with (Zpos (digits2_pos m')) in Hlow.
    assert (H1 : 2 ^ (g + 53 + 1074) <= 2 ^ (Zpos (digits2_pos m') - 1)
                                        * 2 ^ (e' + 1074)).
    { rewrite <- Z.pow_add_r by lia. apply Z.pow_le_mono_r; lia. }
    assert (H3 : 2 ^ (g + 53 + 1074) = 2 ^ 53 * 2 ^ (g + 1074)).
    { rewrite <- Z.pow_add_r by lia. f_equal. lia. }
    assert (0 < 2 ^ (e' + 1074)) by (apply pow2_pos; lia).
    nia.
  - assert (Hv' : Zpos m * 2 ^ (e + 1074) = (- n) * 2 ^ (g + 1074)) by lia.
    destruct (small_on_grid m e (- n) g He ltac:(lia) ltac:(nia) Hv')
      as (HD & n' & Hn').
    destruct (binary_round_exact true m e n' He ltac:(lia) Hn')
      as (m' & e' & Heq & Hval).
    pose proof (binary_round_valid true m e) as Hvalid.
    rewrite Heq in *. apply valid_finite in Hvalid.
    cbn [ival cond_Zopp bnd]. split; [lia|].
    destruct (Z_le_gt_dec (Zpos (digits2_pos m') + e') (g + 53))
      as [H|H]; [exact H | exfalso].
    pose proof (Zdigits2_le (Zpos m') ltac:(lia)) as Hlow.
    change (Zdigits2 (Zpos m')) with (Zpos (digits2_pos m')) in Hlow.
    assert (H1 : 2 ^ (g + 53 + 1074) <= 2 ^ (Zpos (digits2_pos m') - 1)
                                        * 2 ^ (e' + 1074)).
    { rewrite <- Z.pow_add_r by lia. apply Z.pow_le_mono_r; lia. }
    assert (H3 : 2 ^ (g + 53 + 1074) = 2 ^ 53 * 2 ^ (g + 1074)).
    { rewrite <- Z.pow_add_r by lia. f_equal. lia. }
    assert (0 < 2 ^ (e' + 1074)) by (apply pow2_pos; lia).
    nia.
Qed.

End Representable.

(** * Operations whose result is exact *)

Section ExactOps.

Local Open Scope Z_scope.

Lemma exact_finite_abs (s : bool) (m : positive) (e : Z) :
  -1074 <= e ->
  Z.abs (cond_Zopp s (Zpos m * 2 ^ (e + 1074))) = Zpos m * 2 ^ (e + 1074) /\
  0 < Zpos m * 2 ^ (e + 1074).
Proof.
  intros He. assert (0 < 2 ^ (e + 1074)) by (apply pow2_pos; lia).
  assert (0 < Zpos m * 2 ^ (e + 1074)) by nia.
  destruct s; cbn [cond_Zopp]; lia.
Qed.

(** The magnitude of a finite float, from its exact value. *)
Lemma fbnd_of_exact (x : float) (k : Z) :
  is_finite x = true -> Z.abs (exact x) < 2 ^ (k + 1074) -> fbnd k x.
Proof.
  rewrite is_finite_spec. unfold fbnd, exact.
  destruct (Prim2SF x) as [s|s| |s m e] eqn:E; try discriminate;
    intros _ H; cbn [bnd ival] in *; [exact I|].
  destruct (Prim2SF_finite_valid x s m e E) as (_ & He & _).
  destruct (exact_finite_abs s m e ltac:(lia)) as [Habs Hpos].
  rewrite Habs in H.
  pose proof (Zdigits2_le (Zpos m) ltac:(lia)) as Hlow.
  change (Zdigits2 (Zpos m)) with (Zpos (digits2_pos m)) in Hlow.
  destruct (Z_le_gt_dec (Zpos (digits2_pos m) + e) k) as [Hle|Hgt];
    [exact Hle|exfalso].
  assert (0 <= k + 1074).
  { destruct (Z_le_gt_dec 0 (k + 1074)); [lia|].
    rewrite (Z.pow_neg_r 2 (k + 1074)) in H by lia. lia. }
  assert (H1 : 2 ^ (k + 1074)
               <= 2 ^ (Zpos (digits2_pos m) - 1) * 2 ^ (e + 1074)).
  { rewrite <- Z.pow_add_r by lia. apply Z.pow_le_mono_r; lia. }
  assert (0 < 2 ^ (e + 1074)) by (apply pow2_pos; lia).
  nia.
Qed.

Lemma exact_of_dyadic (m e n g : Z) :
  -1074 <= e -> -1074 <= g <= 971 -> Z.abs n < 2 ^ 53 ->
  m * 2 ^ (e + 1074) = n * 2 ^ (g + 1074) ->
  exact (pyfloat.of_dyadic m e) = m * 2 ^ (e + 1074) /\
  fbnd (g + 53) (pyfloat.of_dyadic m e).
Proof.
  unfold exact, fbnd. rewrite Prim2SF_of_dyadic.
  apply binary_normalize_exact.
Qed.

(** An integer below [2^53] is converted exactly. *)
Lemma exact_of_int (z : Z) :
  Z.abs z < 2 ^ 53 ->
  exact (pyfloat.of_dyadic z 0) = z * 2 ^ 1074 /\
  fbnd 53 (pyfloat.of_dyadic z 0).
Proof.
  intros Hz. apply (exact_of_dyadic z 0 z 0); [lia|lia|exact Hz|reflexivity].
Qed.

(** A difference with at most 53 significant bits above [2^g] is exact. *)
Lemma exact_sub_repr (x y : float) (n g : Z) :
  is_finite x = true -> is_finite y = true ->
  -1074 <= g <= 971 -> Z.abs n < 2 ^ 53 ->
  exact x - exact y = n * 2 ^ (g + 1074) ->
  exact (x - y) = exact x - exact y /\ fbnd (g + 53) (x - y).
Proof.
  intros Hx Hy Hg Hn Hv.
  assert (Hmain : exact (x - y) = exact x - exact y
                  /\ is_finite (x - y) = true).
  { revert Hx Hy Hv. rewrite !is_finite_spec. unfold exact.
    rewrite sub_spec. unfold SF64sub.
    destruct (Prim2SF x) as [sx|sx| |sx mx ex] eqn:Ex; try discriminate;
      destruct (Prim2SF y) as [sy|sy| |sy my ey] eqn:Ey; try discriminate;
      intros _ _ Hv; cbn [SFsub ival] in *.
    - destruct sx, sy; cbn; auto.
    - cbn [SFopp ival]. split; [destruct sy; cbn [negb cond_Zopp]; lia|].
      reflexivity.
    - split; [cbn [ival]; lia|reflexivity].
    - destruct (Prim2SF_finite_valid x sx mx ex Ex) as (_ & Hex & _).
      destruct (Prim2SF_finite_valid y sy my ey Ey) as (_ & Hey & _).
      set (ez := Z.min ex ey) in *.
      pose proof (shl_align_ival sx mx ex ez ltac:(unfold ez; lia)
                    ltac:(unfold ez; lia)) as Ix.
      pose proof (shl_align_ival sy my ey ez ltac:(unfold ez; lia)
                    ltac:(unfold ez; lia)) as Iy.
      cbn [ival] in Ix, Iy. rewrite <- Ix, <- Iy in Hv |- *.
      rewrite <- Z.mul_sub_distr_r in Hv |- *.
      destruct (binary_normalize_exact _ ez false n g
                  ltac:(unfold ez; lia) Hg Hn Hv) as [H1 H2].
      split; [exact H1|].
      destruct (binary_normalize prec emax _ ez false); cbn [bnd] in H2;
        try tauto; reflexivity. }
  destruct Hmain as [He Hf]. split; [exact He|].
  apply fbnd_of_exact; [exact Hf|]. rewrite He, Hv.
  rewrite Z.abs_mul.
  assert (HB : 0 < 2 ^ (g + 1074)) by (apply pow2_pos; lia).
  rewrite (Z.abs_eq (2 ^ (g + 1074))) by lia.
  replace (g + 53 + 1074) with (53 + (g + 1074)) by lia.
  rewrite (Z.pow_add_r 2 53 (g + 1074)) by lia. nia.
Qed.

(** [int(x)] for a float that is not negative. *)
Lemma exact_int (x : float) :
  is_finite x = true -> 0 <= exact x ->
  pyfloat.int x = Ok (exact x / 2 ^ 1074).
Proof.
  rewrite is_finite_spec. unfold exact, pyfloat.int.
  destruct (Prim2SF x) as [s|s| |s m e] eqn:E; try discriminate;
    intros _ H; cbn [ival] in *; [reflexivity|].
  destruct (Prim2SF_finite_valid x s m e E) as (_ & He & _).
  destruct (exact_finite_abs s m e ltac:(lia)) as [_ Hpos].
  destruct s; cbn [cond_Zopp] in *; [lia|]. f_equal.
  unfold pyfloat.trunc_dyadic. destruct (Z.leb_spec 0 e) as [H0|H0].
  - rewrite Z.pow_add_r, Z.mul_assoc by lia.
    rewrite Z.div_mul by (apply Z.pow_nonzero; lia). reflexivity.
  - replace (2 ^ 1074) with (2 ^ (- e) * 2 ^ (e + 1074))
      by (rewrite <- Z.pow_add_r by lia; f_equal; lia).
    rewrite Z.div_mul_cancel_r; [reflexivity| |];
      apply Z.pow_nonzero; lia.
Qed.

Lemma exact_zero_cases (x : float) :
  is_finite x = true -> exact x = 0 ->
  exists s, Prim2SF x = S754_zero s.
Proof.
  rewrite is_finite_spec. unfold exact.
  destruct (Prim2SF x) as [s|s| |s m e] eqn:E; try discriminate;
    intros _ H; [eauto|].
  destruct (Prim2SF_finite_valid x s m e E) as (_ & He & _).
  destruct (exact_finite_abs s m e ltac:(lia)) as [Habs Hpos].
  cbn [ival] in H. rewrite H in Habs. change (Z.abs 0) with 0 in Habs. lia.
Qed.

Lemma exact_pos_cases (x : float) :
  is_finite x = true -> 0 < exact x ->
  exists m e, Prim2SF x = S754_finite false m e /\ -1074 <= e <= 971 /\
              Zpos (digits2_pos m) <= 53 /\
              exact x = Zpos m * 2 ^ (e + 1074).
Proof.
  rewrite is_finite_spec. unfold exact.
  destruct (Prim2SF x) as [s|s| |s m e] eqn:E; try discriminate;
    intros _ H; cbn [ival] in H.
  destruct (Prim2SF_finite_valid x s m e E) as (Hd & He).
  destruct (exact_finite_abs s m e ltac:(lia)) as [Habs Hpos].
  destruct s; cbn [cond_Zopp] in H; [lia|].
  exists m, e. cbn [ival cond_Zopp]. auto.
Qed.

(** C's [fmod] of a number that is not negative by a positive one is the
    remainder of the exact values. *)
Lemma exact_fmod (x y : float) :
  is_finite x = true -> is_finite y = true ->
  0 <= exact x -> 0 < exact y ->
  exact (pyfloat.fmod x y) = exact x mod exact y /\
  is_finite (pyfloat.fmod x y) = true.
Proof.
  intros Hx Hy Hx0 Hy0.
  destruct (exact_pos_cases y Hy Hy0) as (my & ey & Ey & Hey & Hdy & Vy).
  destruct (Z.eq_dec (exact x) 0) as [Hz|Hnz].
  - destruct (exact_zero_cases x Hx Hz) as (s & Ex).
    unfold pyfloat.fmod. rewrite Ex, Ey. rewrite Hz, Z.mod_0_l by lia.
    split; [first [reflexivity|exact Hz]|exact Hx].
  - destruct (exact_pos_cases x Hx ltac:(lia))
      as (mx & ex & Ex & Hex & Hdx & Vx).
    unfold pyfloat.fmod. rewrite Ex, Ey.
    set (e := Z.min ex ey).
    set (a := Zpos mx * 2 ^ (ex - e)). set (b := Zpos my * 2 ^ (ey - e)).
    assert (Hc : 0 < 2 ^ (e + 1074)) by (apply pow2_pos; unfold e; lia).
    assert (Ha : exact x = a * 2 ^ (e + 1074)).
    { rewrite Vx. unfold a. rewrite <- Z.mul_assoc, <- Z.pow_add_r
        by (unfold e; lia). do 2 f_equal. lia. }
    assert (Hb : exact y = b * 2 ^ (e + 1074)).
    { rewrite Vy. unfold b. rewrite <- Z.mul_assoc, <- Z.pow_add_r
        by (unfold e; lia). do 2 f_equal. lia. }
    assert (Hbpos : 0 < b) by nia.
    assert (Hapos : 0 < a) by nia.
    rewrite Ha, Hb, Z.mul_mod_distr_r by lia.
    pose proof (Z.mod_pos_bound a b Hbpos) as Hr.
    pose proof (Z.mod_le a b ltac:(lia) Hbpos) as Hr'.
    destruct (Z.eqb_spec (a mod b) 0) as [H0|H0].
    + rewrite H0. split; reflexivity.
    + assert (Hsmall : Z.abs (a mod b) < 2 ^ 53).
      { pose proof (pos_lt_pow2_digits mx 53 Hdx).
        pose proof (pos_lt_pow2_digits my 53 Hdy).
        destruct (Z.min_spec ex ey) as [[_ Hm]|[_ Hm]]; fold e in Hm.
        - assert (a = Zpos mx)
            by (unfold a; rewrite Hm, Z.sub_diag; lia). lia.
        - assert (b = Zpos my)
            by (unfold b; rewrite Hm, Z.sub_diag; lia). lia. }
      cbn [cond_Zopp].
      destruct (exact_of_dyadic (a mod b) e (a mod b) e
                  ltac:(unfold e; lia) ltac:(unfold e; lia) Hsmall eq_refl)
        as [H1 H2].
      split; [exact H1|]. exact (fbnd_is_finite _ _ H2).
Qed.

(** ** A quotient that is an integer *)

Lemma div_eucl_multiple (K b : Z) : 0 < b -> Z.div_eucl (K * b) b = (K, 0).
Proof.
  intros Hb. destruct (Z.div_eucl (K * b) b) as [q r] eqn:E.
  assert (Hq : q = K * b / b) by (unfold Z.div; rewrite E; reflexivity).
  assert (Hr : r = (K * b) mod b) by (unfold Z.modulo; rewrite E; reflexivity).
  rewrite Z.div_mul in Hq by lia. rewrite Z.mod_mul in Hr by lia.
  subst. reflexivity.
Qed.

Lemma new_location_zero (nb : Z) : new_location nb 0 = loc_Exact.
Proof.
  unfold new_location, new_location_even, new_location_odd.
  destruct (Z.even nb); reflexivity.
Qed.

Lemma SFdiv_core_exact (s : bool) (mx my : positive) (ex ey Q : Z) :
  0 < Q < 2 ^ 53 -> -1074 <= ex -> -1074 <= ey ->
  Zpos mx * 2 ^ (ex + 1074) = Q * (Zpos my * 2 ^ (ey + 1074)) ->
  exists k E,
    (let '(mz, ez, lz) :=
       SFdiv_core_binary prec emax (Zpos mx) ex (Zpos my) ey in
     binary_round_aux prec emax s mz ez lz) = S754_finite s k E /\
    -1074 <= E /\ Zpos k * 2 ^ (E + 1074) = Q * 2 ^ 1074.
Proof.
  intros HQ Hex Hey Hv. unfold SFdiv_core_binary.
  change (Zdigits2 (Zpos mx)) with (Zpos (digits2_pos mx)).
  change (Zdigits2 (Zpos my)) with (Zpos (digits2_pos my)).
  set (d1 := Zpos (digits2_pos mx)) in *.
  set (d2 := Zpos (digits2_pos my)) in *.
  set (e' := Z.min (fexp prec emax (d1 + ex - (d2 + ey))) (ex - ey)).
  set (sh := ex - ey - e').
  assert (Hs : 0 <= sh) by (unfold sh, e'; lia).
  set (m' := match sh with Zpos _ => Z.shiftl (Zpos mx) sh | Z0 => Zpos mx
                      | Zneg _ => 0 end).
  assert (Hm' : m' = Zpos mx * 2 ^ sh).
  { unfold m'. destruct sh as [|p|p]; [simpl; lia| |lia].
    rewrite Z.shiftl_mul_pow2 by lia. reflexivity. }
  (* the magnitude of the quotient *)
  set (D := Zdigits2 Q).
  assert (HD : 1 <= D <= 53).
  { split; [pose proof (Zdigits2_pos Q ltac:(lia)); unfold D; lia|].
    apply Zdigits2_lt_pow2; lia. }
  assert (HA : 0 < 2 ^ (ex + 1074)) by (apply pow2_pos; lia).
  assert (HB : 0 < 2 ^ (ey + 1074)) by (apply pow2_pos; lia).
  assert (Hdelta : d1 + ex - (d2 + ey) <= D).
  { pose proof (Zdigits2_le (Zpos mx) ltac:(lia)) as Hlow.
    change (Zdigits2 (Zpos mx)) with d1 in Hlow.
    pose proof (pos_lt_pow2_digits my d2 ltac:(unfold d2; lia)) as Hup.
    pose proof (Zdigits2_gt Q ltac:(lia)) as HQup. fold D in HQup.
    destruct (Z_le_gt_dec (d1 + ex - (d2 + ey)) D) as [H|H];
      [exact H|exfalso].
    assert (Hd1 : 1 <= d1) by (unfold d1; lia).
    assert (Hd2 : 1 <= d2) by (unfold d2; lia).
    assert (H1 : 2 ^ D * 2 ^ d2 * 2 ^ (ey + 1074)
                 <= 2 ^ (d1 - 1) * 2 ^ (ex + 1074)).
    { rewrite <- (Z.pow_add_r 2 D d2), <- (Z.pow_add_r 2 (D + d2)),
        <- (Z.pow_add_r 2 (d1 - 1)) by lia.
      apply Z.pow_le_mono_r; lia. }
    assert (0 < 2 ^ D) by (apply pow2_pos; lia).
    assert (0 < 2 ^ d2) by (apply pow2_pos; unfold d2; lia).
    assert (0 < 2 ^ (d1 - 1)) by (apply pow2_pos; unfold d1; lia).
    assert (Hup2 : Q * (Zpos my * 2 ^ (ey + 1074))
                   < 2 ^ D * 2 ^ d2 * 2 ^ (ey + 1074)).
    { assert (Q * Zpos my < 2 ^ D * 2 ^ d2) by nia. nia. }
    assert (Hlow2 : 2 ^ (d1 - 1) * 2 ^ (ex + 1074)
                    <= Zpos mx * 2 ^ (ex + 1074)) by nia.
    lia. }
  set (E := D - 53).
  assert (HE : e' <= E /\ -52 <= E <= 0).
  { unfold E. split; [|lia].
    assert (e' <= fexp prec emax (d1 + ex - (d2 + ey))) by (unfold e'; lia).
    pose proof (fexp_mono (d1 + ex - (d2 + ey)) D Hdelta) as Hmono.
    rewrite (fexp_eq D) in Hmono. lia. }
  assert (Hm'' : m' = Q * 2 ^ (- e') * Zpos my).
  { assert (H1 : m' * 2 ^ (ey + 1074)
                 = Q * 2 ^ (- e') * Zpos my * 2 ^ (ey + 1074)).
    { rewrite Hm'.
      replace (Zpos mx * 2 ^ sh * 2 ^ (ey + 1074))
        with (Zpos mx * 2 ^ (ex + 1074) * 2 ^ (- e')).
      2:{ rewrite <- !Z.mul_assoc, <- !Z.pow_add_r by lia.
          do 2 f_equal. unfold sh. lia. }
      rewrite Hv. ring. }
    apply Z.mul_cancel_r in H1; lia. }
  rewrite Hm'', div_eucl_multiple by lia. rewrite new_location_zero.
  set (k := Z.to_pos (Q * 2 ^ (- E))).
  assert (Hpow : 0 < 2 ^ (- E)) by (apply pow2_pos; lia).
  assert (Hk : Zpos k = Q * 2 ^ (- E)) by (unfold k; rewrite Z2Pos.id; nia).
  assert (Hq : Q * 2 ^ (- e') = Zpos k * 2 ^ (E - e')).
  { rewrite Hk, <- Z.mul_assoc, <- Z.pow_add_r by lia. do 2 f_equal. lia. }
  rewrite Hq.
  assert (Hdk : Zpos (digits2_pos k) = 53).
  { change (Zpos (digits2_pos k)) with (Zdigits2 (Zpos k)).
    rewrite Hk, Zdigits2_mul_pow2 by lia. fold D. unfold E. lia. }
  exists k, E. split; [|split; [lia|]].
  - apply binary_round_aux_exact; [lia| |lia].
    rewrite Hdk, fexp_eq. lia.
  - rewrite Hk, <- Z.mul_assoc, <- Z.pow_add_r by lia. do 2 f_equal. lia.
Qed.

Lemma exact_div (x y : float) (Q : Z) :
  is_finite x = true -> is_finite y = true -> 0 < exact y ->
  0 <= Q < 2 ^ 53 -> exact x = Q * exact y ->
  exact (x / y) = Q * 2 ^ 1074 /\ is_finite (x / y) = true.
Proof.
  intros Hx Hy Hy0 HQ Hv.
  destruct (exact_pos_cases y Hy Hy0) as (my & ey & Ey & Hey & Hdy & Vy).
  rewrite is_finite_spec. unfold exact at 1. rewrite div_spec.
  unfold SF64div.
  destruct (Z.eq_dec Q 0) as [->|HQ0].
  - destruct (exact_zero_cases x Hx ltac:(lia)) as (s & Ex).
    rewrite Ex, Ey. cbn [SFdiv ival]. split; reflexivity.
  - assert (Hpos : 0 < exact x) by nia.
    destruct (exact_pos_cases x Hx Hpos) as (mx & ex & Ex & Hex & Hdx & Vx).
    rewrite Ex, Ey. cbn [SFdiv xorb].
    rewrite Vx, Vy in Hv.
    destruct (SFdiv_core_exact false mx my ex ey Q ltac:(lia) ltac:(lia)
                ltac:(lia) Hv) as (k & E & -> & HE & Hval).
    cbn [ival cond_Zopp]. split; [exact Hval|reflexivity].
Qed.

(** ** [floor], [//] and [%] on numbers that are not negative *)

Lemma exact_floor (x : float) :
  is_finite x = true -> 0 <= exact x ->
  exact (pyfloat.floor x) = exact x / 2 ^ 1074 * 2 ^ 1074 /\
  is_finite (pyfloat.floor x) = true.
Proof.
  intros Hx H0.
  assert (HT : 0 < 2 ^ 1074) by (apply pow2_pos; lia).
  destruct (Z.eq_dec (exact x) 0) as [Hz|Hnz].
  - destruct (exact_zero_cases x Hx Hz) as (s & Ex).
    unfold pyfloat.floor. rewrite Ex, Hz.
    split; [rewrite Z.div_0_l by lia; reflexivity|exact Hx].
  - destruct (exact_pos_cases x Hx ltac:(lia)) as (m & e & Ex & He & Hd & Vx).
    pose proof (exact_int x Hx H0) as Hint.
    unfold pyfloat.int in Hint. rewrite Ex in Hint. cbn [cond_Zopp] in Hint.
    assert (Hint' : pyfloat.trunc_dyadic (Zpos m) e = exact x / 2 ^ 1074)
      by congruence.
    clear Hint. rename Hint' into Hint.
    unfold pyfloat.trunc_dyadic in Hint.
    unfold pyfloat.floor. rewrite Ex.
    destruct (Z.leb_spec 0 e) as [Hpos|Hneg].
    + split; [|exact Hx].
      rewrite <- Hint, Vx, Z.pow_add_r, Z.mul_assoc by lia. reflexivity.
    + rewrite Hint.
      assert (Hq : 0 <= exact x / 2 ^ 1074 < 2 ^ 53).
      { rewrite <- Hint. pose proof (pos_lt_pow2_digits m 53 Hd).
        assert (0 < 2 ^ (- e)) by (apply pow2_pos; lia).
        split; [apply Z.div_pos; lia|].
        apply Z.div_lt_upper_bound; nia. }
      destruct (Z.eqb_spec (exact x / 2 ^ 1074) 0) as [Hq0|Hq0].
      * rewrite Hq0. split; reflexivity.
      * destruct (exact_of_int (exact x / 2 ^ 1074) ltac:(lia)) as [H1 H2].
        split; [exact H1|exact (fbnd_is_finite _ _ H2)].
Qed.

Lemma exact_copysign_zero (w : float) :
  exact (pyfloat.copysign_zero w) = 0 /\
  is_finite (pyfloat.copysign_zero w) = true.
Proof.
  unfold pyfloat.copysign_zero. destruct (get_sign w); split; reflexivity.
Qed.

Lemma is_nonzero_exact (x : float) :
  is_finite x = true -> pyfloat.is_nonzero x = negb (exact x =? 0).
Proof.
  intros Hx. unfold pyfloat.is_nonzero.
  rewrite (eqb_exact x 0 Hx eq_refl). reflexivity.
Qed.

Lemma ltb_zero_nonneg (x : float) :
  is_finite x = true -> 0 <= exact x -> (x <? 0)%float = false.
Proof.
  intros Hx H0. rewrite (ltb_exact x 0 Hx eq_refl).
  change (exact 0) with 0. apply Z.ltb_ge. exact H0.
Qed.

(** [float_divmod] on a number that is not negative and a positive
    integer: the quotient and the remainder of the exact values. *)
Lemma exact_div_mod (x y : float) (c : Z) :
  is_finite x = true -> 0 <= exact x < 2 ^ 53 * 2 ^ 1074 ->
  is_finite y = true -> 0 < c -> exact y = c * 2 ^ 1074 ->
  exact (fst (pyfloat.div_mod x y)) = exact x / exact y * 2 ^ 1074 /\
  is_finite (fst (pyfloat.div_mod x y)) = true /\
  exact (snd (pyfloat.div_mod x y)) = exact x mod exact y /\
  is_finite (snd (pyfloat.div_mod x y)) = true.
Proof.
  intros Hx Hxr Hy Hc Vy.
  assert (HT : 0 < 2 ^ 1074) by (apply pow2_pos; lia).
  assert (Hy0 : 0 < exact y) by nia.
  destruct (exact_fmod x y Hx Hy ltac:(lia) Hy0) as [Vm Hm].
  pose proof (Z.mod_pos_bound (exact x) (exact y) Hy0) as Hmb.
  pose proof (Z.div_mod (exact x) (exact y) ltac:(lia)) as Hdm.
  set (Q := exact x / exact y) in *.
  assert (HQ : 0 <= Q) by (apply Z.div_pos; lia).
  assert (HQc : Q * c < 2 ^ 53) by nia.
  assert (HQ53 : Q < 2 ^ 53) by nia.
  unfold pyfloat.div_mod. cbv zeta.
  set (mod0 := pyfloat.fmod x y) in *.
  (* the subtraction and the division are exact *)
  destruct (exact_sub_repr x mod0 (Q * c) 0 Hx Hm ltac:(lia) ltac:(lia))
    as [Vs Hs]; [rewrite Vm, Z.add_0_l; nia|].
  apply fbnd_is_finite in Hs.
  destruct (exact_div (x - mod0) y Q Hs Hy Hy0 ltac:(lia))
    as [Vd Hd]; [rewrite Vs, Vm; nia|].
  set (div0 := ((x - mod0) / y)%float) in *.
  (* no adjustment: the remainder has the sign of the divisor *)
  rewrite (ltb_zero_nonneg y Hy ltac:(lia)).
  rewrite (ltb_zero_nonneg mod0 Hm ltac:(lia)).
  cbn [Bool.eqb negb]. rewrite andb_false_r.
  rewrite (is_nonzero_exact mod0 Hm), (is_nonzero_exact div0 Hd).
  rewrite Vm, Vd.
  assert (Hfst :
    exact (if negb (Q * 2 ^ 1074 =? 0)
           then
             if (0.5 <? div0 - pyfloat.floor div0)%float
             then (pyfloat.floor div0 + 1)%float else pyfloat.floor div0
           else pyfloat.copysign_zero (x / y)%float) = Q * 2 ^ 1074 /\
    is_finite (if negb (Q * 2 ^ 1074 =? 0)
               then
                 if (0.5 <? div0 - pyfloat.floor div0)%float
                 then (pyfloat.floor div0 + 1)%float else pyfloat.floor div0
               else pyfloat.copysign_zero (x / y)%float) = true).
  { destruct (Z.eqb_spec (Q * 2 ^ 1074) 0) as [H0|H0]; cbn [negb].
    - rewrite H0. apply exact_copysign_zero.
    - destruct (exact_floor div0 Hd ltac:(rewrite Vd; nia)) as [Vf Hf].
      rewrite Vd, Z.div_mul in Vf by lia.
      destruct (exact_sub_repr div0 (pyfloat.floor div0) 0 0 Hd Hf
                  ltac:(lia) ltac:(lia)) as [Vz Hz];
        [rewrite Vd, Vf; lia|].
      apply fbnd_is_finite in Hz.
      rewrite (ltb_exact 0.5%float _ eq_refl Hz), Vz, Vd, Vf, Z.sub_diag.
      change (exact 0.5 <? 0) with false. cbv iota. auto. }
  cbn [fst snd]. destruct Hfst as [H1 H2].
  split; [exact H1|]. split; [exact H2|].
  destruct (Z.eqb_spec (exact x mod exact y) 0) as [H0|H0]; cbn [negb].
  - rewrite H0. apply exact_copysign_zero.
  - auto.
Qed.

Lemma exact_floordiv (x y : float) (c : Z) :
  is_finite x = true -> 0 <= exact x < 2 ^ 53 * 2 ^ 1074 ->
  is_finite y = true -> 0 < c -> exact y = c * 2 ^ 1074 ->
  exists h, pyfloat.floordiv x y = Ok h /\ is_finite h = true /\
            exact h = exact x / exact y * 2 ^ 1074.
Proof.
  intros Hx Hxr Hy Hc Vy.
  assert (HT : 0 < 2 ^ 1074) by (apply pow2_pos; lia).
  destruct (exact_div_mod x y c Hx Hxr Hy Hc Vy) as (H1 & H2 & _).
  unfold pyfloat.floordiv. rewrite (eqb_exact y 0 Hy eq_refl).
  change (exact 0) with 0.
  assert ((exact y =? 0) = false) as -> by (apply Z.eqb_neq; nia).
  eauto.
Qed.

Lemma exact_rem (x y : float) (c : Z) :
  is_finite x = true -> 0 <= exact x < 2 ^ 53 * 2 ^ 1074 ->
  is_finite y = true -> 0 < c -> exact y = c * 2 ^ 1074 ->
  exists r, pyfloat.rem x y = Ok r /\ is_finite r = true /\
            exact r = exact x mod exact y.
Proof.
  intros Hx Hxr Hy Hc Vy.
  assert (HT : 0 < 2 ^ 1074) by (apply pow2_pos; lia).
  assert (Hy0 : 0 < exact y) by nia.
  destruct (exact_fmod x y Hx Hy ltac:(lia) Hy0) as [Vm Hm].
  pose proof (Z.mod_pos_bound (exact x) (exact y) Hy0) as Hmb.
  unfold pyfloat.rem. rewrite (eqb_exact y 0 Hy eq_refl).
  change (exact 0) with 0.
  assert ((exact y =? 0) = false) as -> by (apply Z.eqb_neq; nia).
  eexists. split; [reflexivity|].
  rewrite (ltb_zero_nonneg y Hy ltac:(lia)).
  rewrite (ltb_zero_nonneg _ Hm ltac:(lia)).
  cbn [Bool.eqb negb]. rewrite (is_nonzero_exact _ Hm), Vm.
  destruct (Z.eqb_spec (exact x mod exact y) 0) as [H0|H0]; cbn [negb].
  - rewrite H0. destruct (exact_copysign_zero y). auto.
  - auto.
Qed.

(** The magnitude bound of a float is a bound of its exact value. *)
Lemma exact_lt_of_fbnd (k : Z) (x : float) :
  fbnd k x -> -1074 <= k -> Z.abs (exact x) < 2 ^ (k + 1074).
Proof.
  unfold fbnd, exact. intros H Hk.
  assert (0 < 2 ^ (k + 1074)) by (apply pow2_pos; lia).
  destruct (Prim2SF x) as [s|s| |s m e] eqn:E; cbn [bnd ival] in *;
    try tauto.
  destruct (Prim2SF_finite_valid x s m e E) as (_ & He & _).
  destruct (exact_finite_abs s m e ltac:(lia)) as [-> _].
  pose proof (pos_lt_pow2_digits m (k - e) ltac:(lia)) as Hm.
  replace (k + 1074) with (k - e + (e + 1074)) by lia.
  rewrite (Z.pow_add_r 2 (k - e) (e + 1074)) by lia.
  assert (0 < 2 ^ (e + 1074)) by (apply pow2_pos; lia). nia.
Qed.

(** A product whose factors have the sign plus is not negative. *)
Lemma binary_round_aux_nonneg (mx ex : Z) (lx : location) :
  0 <= mx -> 0 <= ival (binary_round_aux prec emax false mx ex lx).
Proof.
  intros Hm.
  destruct (binary_round_aux_steps false mx ex lx Hm) as (m2 & _ & _ & Heq).
  cbv zeta in Heq. rewrite Heq.
  destruct (m2 / 2 ^ _) as [|m|m]; cbn [ival]; [lia| |lia].
  destruct (_ <=? _); cbn [ival cond_Zopp]; [|lia].
  destruct (Z_le_gt_dec 0 (Z.max (Z.max ex (fexp prec emax (Zdigits2 mx + ex)))
                             (fexp prec emax
                                (Zdigits2 m2
                                 + Z.max ex (fexp prec emax (Zdigits2 mx + ex))))
                           + 1074)) as [H|H].
  - assert (0 < 2 ^ _) by (apply pow2_pos; exact H). nia.
  - rewrite Z.pow_neg_r by lia. lia.
Qed.

Lemma exact_abs_mul_nonneg (t c : float) (mc : positive) (ec : Z) :
  Prim2SF c = S754_finite false mc ec -> 0 <= exact (abs t * c).
Proof.
  intros Hc. unfold exact. rewrite mul_spec, abs_spec, Hc.
  unfold SF64mul.
  destruct (Prim2SF t) as [s|s| |s m e]; cbn [SFabs SFmul ival xorb];
    try lia.
  apply binary_round_aux_nonneg. lia.
Qed.

(** Hours, minutes and seconds of whole seconds. *)
Lemma hms_arith (X T : Z) :
  0 < T -> 0 <= X ->
  X / (3600 * T) = X / T / 3600 /\
  X mod (3600 * T) / (60 * T) = (X / T) mod 3600 / 60 /\
  X mod (60 * T) / T = (X / T) mod 60.
Proof.
  intros HT HX.
  pose proof (Z.mod_pos_bound X T HT) as Hf.
  split; [|split].
  - rewrite (Z.mul_comm 3600 T), Z.div_div by lia. reflexivity.
  - rewrite (Z.mul_comm 3600 T), Z.rem_mul_r by lia.
    rewrite (Z.mul_comm 60 T), <- Z.div_div by lia.
    rewrite (Z.mul_comm T (_ mod 3600)), Z.div_add by lia.
    rewrite (Z.div_small (X mod T) T) by lia. reflexivity.
  - rewrite (Z.mul_comm 60 T), Z.rem_mul_r by lia.
    rewrite (Z.mul_comm T (_ mod 60)), Z.div_add by lia.
    rewrite (Z.div_small (X mod T) T) by lia. reflexivity.
Qed.

End ExactOps.

(** * Rounding to nearest: half a unit in the last place *)

Section HalfUlp.

Local Open Scope Z_scope.

Lemma cut_start (m : Z) : 0 <= m -> cut (shr_record_of_loc m loc_Exact) m 1.
Proof.
  intros Hm. exists 0, 0. cbn. repeat split; lia.
Qed.

Lemma cut_shr_1 (r : shr_record) (N D : Z) :
  0 < D -> cut r N D -> cut (shr_1 r) N (2 * D).
Proof.
  intros HD (R & S & Hm & HN & HR & HS & Hs).
  destruct r as [m rb sb]. cbn [shr_m shr_r shr_s] in *.
  assert (Hor : orb rb sb = false <-> 2 * R = 0).
  { destruct rb; cbn [orb].
    - split; [discriminate|lia].
    - split; intros H; [apply Hs in H; lia|apply Hs; lia]. }
  destruct m as [|p|p]; [|destruct p as [p|p|]|lia]; cbn [shr_1].
  - exists R, (2 * R). cbn [shr_m shr_r shr_s]. repeat split; try lia;
      try (destruct rb; lia); apply Hor.
  - exists (D + R), (2 * R). cbn [shr_m shr_r shr_s].
    rewrite Pos2Z.inj_xI in HN.
    repeat split; try lia; try (destruct rb; lia); apply Hor.
  - exists R, (2 * R). cbn [shr_m shr_r shr_s].
    rewrite Pos2Z.inj_xO in HN.
    repeat split; try lia; try (destruct rb; lia); apply Hor.
  - exists (D + R), (2 * R). cbn [shr_m shr_r shr_s].
    repeat split; try lia; try (destruct rb; lia); apply Hor.
Qed.

Lemma cut_iter_pos (p : positive) :
  forall (r : shr_record) (N D : Z),
    0 < D -> cut r N D -> cut (iter_pos shr_1 p r) N (D * 2 ^ Zpos p).
Proof.
  induction p as [p IH|p IH|]; intros r N D HD H; simpl iter_pos.
  - assert (HP : 0 < 2 ^ Zpos p) by (apply pow2_pos; lia).
    replace (D * 2 ^ Zpos p~1) with (2 * D * 2 ^ Zpos p * 2 ^ Zpos p).
    + apply IH; [nia|]. apply IH; [lia|]. apply cut_shr_1; assumption.
    + replace (Zpos p~1) with (1 + Zpos p + Zpos p) by lia.
      rewrite !Z.pow_add_r by lia. ring.
  - assert (HP : 0 < 2 ^ Zpos p) by (apply pow2_pos; lia).
    replace (D * 2 ^ Zpos p~0) with (D * 2 ^ Zpos p * 2 ^ Zpos p).
    + apply IH; [nia|]. apply IH; assumption.
    + replace (Zpos p~0) with (Zpos p + Zpos p) by lia.
      rewrite !Z.pow_add_r by lia. ring.
  - replace (D * 2 ^ 1) with (2 * D) by lia. apply cut_shr_1; assumption.
Qed.

(** Rounding a cut number to nearest moves it by half of [D] at most. *)
Lemma round_cut (r : shr_record) (N D : Z) :
  cut r N D ->
  Z.abs (2 * (round_nearest_even (shr_m r) (loc_of_shr_record r) * D - N))
  <= D.
Proof.
  intros (R & S & Hm & HN & HR & HS & Hs).
  destruct r as [m rb sb]. cbn [shr_m shr_r shr_s] in *.
  assert (Hsb : sb = true -> 0 < S).
  { intros ->. destruct (Z.eq_dec S 0) as [E|E]; [|lia].
    destruct Hs as [_ Hs]. specialize (Hs E). discriminate. }
  assert (Hsb' : sb = false -> S = 0) by (intros ->; apply Hs; reflexivity).
  destruct rb, sb; cbn [loc_of_shr_record round_nearest_even];
    try specialize (Hsb eq_refl); try specialize (Hsb' eq_refl);
    try destruct (Z.even m); lia.
Qed.

(** The first cut of [binary_round_aux]. *)
Lemma shr_fexp_cut (m e : Z) :
  0 <= m ->
  cut (fst (shr_fexp prec emax m e loc_Exact)) m
      (2 ^ (Z.max e (fexp prec emax (Zdigits2 m + e)) - e)).
Proof.
  intros Hm. unfold shr_fexp, shr.
  destruct (fexp prec emax (Zdigits2 m + e) - e) as [|p|p] eqn:Hn;
    cbn [fst].
  - replace (Z.max e _ - e) with 0 by lia. apply cut_start, Hm.
  - replace (Z.max e _ - e) with (Zpos p) by lia.
    replace (2 ^ Zpos p) with (1 * 2 ^ Zpos p) by lia.
    apply cut_iter_pos; [lia|apply cut_start, Hm].
  - replace (Z.max e _ - e) with 0 by lia. apply cut_start, Hm.
Qed.

(** The second cut of [binary_round_aux] loses nothing: it halves a
    mantissa that the rounding has turned into a power of two. *)
Lemma second_cut_exact (m1 m2 e1 : Z) :
  0 <= m1 -> fexp prec emax (Zdigits2 m1 + e1) <= e1 ->
  m2 = m1 \/ m2 = m1 + 1 ->
  let e2 := Z.max e1 (fexp prec emax (Zdigits2 m2 + e1)) in
  e2 <= e1 + 1 /\ m2 / 2 ^ (e2 - e1) * 2 ^ (e2 - e1) = m2.
Proof.
  intros Hm1 Hf Hm2 e2.
  assert (Hsame : e2 = e1 -> e2 <= e1 + 1
                             /\ m2 / 2 ^ (e2 - e1) * 2 ^ (e2 - e1) = m2).
  { intros ->. replace (e1 - e1) with 0 by lia.
    change (2 ^ 0) with 1. rewrite Z.div_1_r. lia. }
  destruct Hm2 as [-> | ->]; [apply Hsame; unfold e2; lia|].
  destruct (Z.eq_dec m1 0) as [->|Hne].
  { apply Hsame. unfold e2. rewrite fexp_eq in *.
    change (Zdigits2 0) with 0 in Hf. change (Zdigits2 (0 + 1)) with 1. lia. }
  destruct (Zdigits2_succ m1 ltac:(lia)) as [Hd|[Hd Hp]].
  { apply Hsame. unfold e2. rewrite Hd. lia. }
  pose proof (Zdigits2_pos m1 ltac:(lia)) as Hdpos.
  assert (He2 : e2 = e1 \/ e2 = e1 + 1).
  { unfold e2. rewrite Hd. rewrite fexp_eq in *. lia. }
  destruct He2 as [He2|He2]; [apply Hsame, He2|].
  split; [lia|]. rewrite He2. replace (e1 + 1 - e1) with 1 by lia.
  rewrite Hp. change (2 ^ 1) with 2.
  replace (Zdigits2 m1) with (1 + (Zdigits2 m1 - 1)) by lia.
  rewrite (Z.pow_add_r 2 1 (Zdigits2 m1 - 1)) by lia.
  change (2 ^ 1) with 2.
  rewrite (Z.mul_comm 2 (2 ^ (Zdigits2 m1 - 1))), Z.div_mul by lia.
  reflexivity.
Qed.

(** [binary_round_aux] of an exact product or sum: the mantissa is cut
    once, rounded to nearest, and kept. *)
Lemma binary_round_aux_near (s : bool) (mx ex : Z) :
  0 <= mx -> ex <= 971 -> Zdigits2 mx + ex <= 1023 ->
  let e1 := Z.max ex (fexp prec emax (Zdigits2 mx + ex)) in
  exists m2 e2 : Z,
    0 <= m2 /\ e1 <= e2 <= 971 /\
    Z.abs (2 * (m2 * 2 ^ (e2 - ex) - mx)) <= 2 ^ (e1 - ex) /\
    binary_round_aux prec emax s mx ex loc_Exact =
      match m2 with
      | Z0 => S754_zero s
      | Zpos m => S754_finite s m e2
      | Zneg _ => S754_nan
      end.
Proof.
  intros Hm Hex Hk e1.
  destruct (shr_fexp_spec mx ex loc_Exact Hm) as (He1 & Hm1 & _).
  pose proof (shr_fexp_cut mx ex Hm) as Hcut.
  fold e1 in He1, Hm1, Hcut.
  unfold binary_round_aux.
  destruct (shr_fexp prec emax mx ex loc_Exact) as [mrs' e'] eqn:Hshr1.
  cbn [fst snd] in He1, Hm1, Hcut. subst e'.
  pose proof (round_cut mrs' mx _ Hcut) as Hnear.
  pose proof (round_nearest_even_cases (shr_m mrs') (loc_of_shr_record mrs'))
    as Hm2.
  set (m2 := round_nearest_even (shr_m mrs') (loc_of_shr_record mrs')) in *.
  set (m1 := shr_m mrs') in *.
  assert (He1' : ex <= e1) by (unfold e1; lia).
  assert (He1'' : e1 <= 971) by (unfold e1; rewrite fexp_eq; lia).
  assert (HP1 : 0 < 2 ^ (e1 - ex)) by (apply pow2_pos; lia).
  assert (Hm1pos : 0 <= m1) by (rewrite Hm1; apply Z.div_pos; lia).
  assert (Hf : fexp prec emax (Zdigits2 m1 + e1) <= e1).
  { pose proof (Zdigits2_div_pow2_le mx (e1 - ex) Hm ltac:(lia)) as H.
    rewrite <- Hm1 in H. pose proof (Zdigits2_nonneg m1).
    pose proof (fexp_eq (Zdigits2 mx + ex)) as F.
    rewrite (fexp_eq (Zdigits2 m1 + e1)). unfold e1 in *. lia. }
  destruct (second_cut_exact m1 m2 e1 Hm1pos Hf Hm2) as [He2 Hm3].
  assert (Hm2pos : 0 <= m2) by lia.
  destruct (shr_fexp_spec m2 e1 loc_Exact Hm2pos) as (He2' & Hm3' & _).
  destruct (shr_fexp prec emax m2 e1 loc_Exact) as [mrs'' e''] eqn:Hshr2.
  cbn [fst snd] in He2', Hm3'. subst e''.
  set (e2 := Z.max e1 (fexp prec emax (Zdigits2 m2 + e1))) in *.
  assert (He2'' : e1 <= e2) by (unfold e2; lia).
  assert (Hd2 : Zdigits2 m2 + e1 <= 1024).
  { pose proof (Zdigits2_div_pow2_le mx (e1 - ex) Hm ltac:(lia)) as H.
    rewrite <- Hm1 in H. fold m1 in H.
    pose proof (Zdigits2_succ_le m1 Hm1pos). pose proof (Zdigits2_nonneg mx).
    destruct Hm2 as [->| ->]; lia. }
  assert (He2max : e2 <= 971) by (unfold e2; rewrite fexp_eq; lia).
  exists (shr_m mrs''), e2. rewrite Hm3'.
  assert (HP2 : 0 < 2 ^ (e2 - e1)) by (apply pow2_pos; lia).
  split; [apply Z.div_pos; lia|]. split; [lia|]. split.
  - replace (e2 - ex) with (e2 - e1 + (e1 - ex)) by lia.
    rewrite (Z.pow_add_r 2 (e2 - e1) (e1 - ex)) by lia.
    rewrite Z.mul_assoc, Hm3. exact Hnear.
  - destruct (m2 / 2 ^ (e2 - e1)); try reflexivity.
    assert ((e2 <=? emax - prec) = true) as ->
      by (apply Z.leb_le; change (emax - prec) with 971; lia).
    reflexivity.
Qed.

(** ** Products *)

(** A product is the exact product rounded to nearest: it is off by half
    a unit in the last place of its magnitude at most. *)
Lemma exact_mul_near (a b : Z) (x y : float) :
  fbnd a x -> fbnd b y -> -1074 <= a + b <= 1023 ->
  Z.abs (2 * (exact (x * y) * 2 ^ 1074 - exact x * exact y))
  <= 2 ^ (fexp prec emax (a + b) + 2148).
Proof.
  unfold fbnd, exact. rewrite mul_spec. unfold SF64mul.
  assert (HB : forall k, -1074 <= k -> 0 <= 2 ^ (fexp prec emax k + 2148)).
  { intros k Hk. apply Z.pow_nonneg. lia. }
  destruct (Prim2SF x) as [sx|sx| |sx mx ex] eqn:Ex;
    destruct (Prim2SF y) as [sy|sy| |sy my ey] eqn:Ey; cbn [bnd SFmul ival];
    try tauto; intros Hx Hy Hr;
    try (rewrite ?Z.mul_0_l, ?Z.mul_0_r; cbn [Z.sub Z.opp Z.add Z.mul Z.abs];
         apply HB; lia).
  pose proof (Prim2SF_finite_canonical x sx mx ex Ex) as Hcx.
  pose proof (Prim2SF_finite_canonical y sy my ey Ey) as Hcy.
  pose proof (Prim2SF_finite_valid x sx mx ex Ex) as Hvx.
  pose proof (Prim2SF_finite_valid y sy my ey Ey) as Hvy.
  assert (Hd : Zdigits2 (Zpos (mx * my))
               <= Zpos (digits2_pos mx) + Zpos (digits2_pos my)).
  { apply Zdigits2_lt_pow2; try lia.
    rewrite Pos2Z.inj_mul, Z.pow_add_r by lia.
    pose proof (pos_lt_pow2_digits mx _ (Z.le_refl _)).
    pose proof (pos_lt_pow2_digits my _ (Z.le_refl _)).
    nia. }
  destruct (binary_round_aux_near (xorb sx sy) (Zpos (mx * my)) (ex + ey)
              ltac:(lia) ltac:(lia) ltac:(lia))
    as (m2 & e2 & Hm2 & He2 & Hnear & ->).
  set (e1 := Z.max (ex + ey)
               (fexp prec emax (Zdigits2 (Zpos (mx * my)) + (ex + ey)))) in *.
  assert (Hival : ival (match m2 with
                        | 0 => S754_zero (xorb sx sy)
                        | Zpos m => S754_finite (xorb sx sy) m e2
                        | Zneg _ => S754_nan
                        end) = cond_Zopp (xorb sx sy) (m2 * 2 ^ (e2 + 1074))).
  { destruct m2 as [|m|m]; [destruct (xorb sx sy); reflexivity| |lia].
    reflexivity. }
  rewrite Hival. clear Hival.
  set (A := 2 ^ (ex + ey + 2148)).
  assert (HA : 0 < A) by (apply pow2_pos; lia).
  assert (He1 : ex + ey <= e1) by (unfold e1; lia).
  assert (He1' : -1074 <= e1) by (unfold e1; rewrite fexp_eq; lia).
  assert (E1 : 2 ^ (e2 + 1074) * 2 ^ 1074 = 2 ^ (e2 - (ex + ey)) * A).
  { unfold A. rewrite <- (Z.pow_add_r 2 (e2 + 1074) 1074) by lia.
    rewrite <- (Z.pow_add_r 2 (e2 - (ex + ey)) (ex + ey + 2148)) by lia.
    f_equal. lia. }
  assert (E2 : 2 ^ (ex + 1074) * 2 ^ (ey + 1074) = A).
  { unfold A. rewrite <- Z.pow_add_r by lia. f_equal. lia. }
  assert (Hs : Z.abs (2 * (cond_Zopp (xorb sx sy) (m2 * 2 ^ (e2 + 1074))
                           * 2 ^ 1074
                           - cond_Zopp sx (Zpos mx * 2 ^ (ex + 1074))
                             * cond_Zopp sy (Zpos my * 2 ^ (ey + 1074))))
               = A * Z.abs (2 * (m2 * 2 ^ (e2 - (ex + ey))
                                 - Zpos (mx * my)))).
  { rewrite <- (Z.abs_eq A) at 1 by lia. rewrite <- Z.abs_mul.
    rewrite Pos2Z.inj_mul.
    replace (A * (2 * (m2 * 2 ^ (e2 - (ex + ey)) - Zpos mx * Zpos my)))
      with (2 * (m2 * (2 ^ (e2 - (ex + ey)) * A)
                 - Zpos mx * Zpos my * A)) by ring.
    rewrite <- E1, <- E2.
    destruct sx, sy; cbn [xorb cond_Zopp];
      first [f_equal; ring|rewrite <- Z.abs_opp; f_equal; ring]. }
  rewrite Hs. clear Hs.
  destruct (Z_le_gt_dec e1 (fexp prec emax (a + b))) as [Hle|Hgt].
  - assert (Hp : 2 ^ (e1 + 2148) <= 2 ^ (fexp prec emax (a + b) + 2148))
      by (apply Z.pow_le_mono_r; lia).
    assert (E3 : 2 ^ (e1 + 2148) = A * 2 ^ (e1 - (ex + ey))).
    { unfold A. rewrite <- Z.pow_add_r by lia. f_equal. lia. }
    rewrite E3 in Hp.
    assert (A * Z.abs (2 * (m2 * 2 ^ (e2 - (ex + ey)) - Zpos (mx * my)))
            <= A * 2 ^ (e1 - (ex + ey)))
      by (apply Z.mul_le_mono_nonneg_l; lia).
    lia.
  - assert (e1 = ex + ey).
    { pose proof (fexp_mono (Zdigits2 (Zpos (mx * my)) + (ex + ey)) (a + b)).
      unfold e1 in *. lia. }
    replace (e1 - (ex + ey)) with 0 in Hnear by lia.
    change (2 ^ 0) with 1 in Hnear.
    assert (Z.abs (2 * (m2 * 2 ^ (e2 - (ex + ey)) - Zpos (mx * my))) = 0)
      as -> by lia.
    rewrite Z.mul_0_r. apply HB. lia.
Qed.

(** A product of two numbers that are not negative is not negative. *)
Lemma exact_mul_nonneg (x y : float) :
  0 <= exact x -> 0 <= exact y -> 0 <= exact (x * y).
Proof.
  unfold exact. rewrite mul_spec. unfold SF64mul.
  destruct (Prim2SF x) as [sx|sx| |sx mx ex] eqn:Ex;
    destruct (Prim2SF y) as [sy|sy| |sy my ey] eqn:Ey; cbn [SFmul ival];
    try lia.
  destruct (Prim2SF_finite_valid x sx mx ex Ex) as (_ & Hex & _).
  destruct (Prim2SF_finite_valid y sy my ey Ey) as (_ & Hey & _).
  destruct (exact_finite_abs sx mx ex ltac:(lia)) as [_ Hpx].
  destruct (exact_finite_abs sy my ey ltac:(lia)) as [_ Hpy].
  destruct sx, sy; cbn [cond_Zopp xorb]; try lia.
  intros _ _. apply binary_round_aux_nonneg. lia.
Qed.

(** ** The parts of an angle *)

(** A float below one is below it by [2^-53] at least. *)
Lemma below_one_gap (x : float) :
  is_finite x = true -> 0 <= exact x < 2 ^ 1074 ->
  exact x <= 2 ^ 1074 - 2 ^ 1021.
Proof.
  rewrite is_finite_spec. unfold exact.
  assert (HQ : 0 < 2 ^ 1020) by (apply pow2_pos; lia).
  assert (ET : 2 ^ 1074 = 2 ^ 54 * 2 ^ 1020)
    by (rewrite <- Z.pow_add_r by lia; reflexivity).
  assert (ER : 2 ^ 1021 = 2 * 2 ^ 1020)
    by (rewrite <- Z.pow_succ_r by lia; reflexivity).
  assert (E54 : 2 ^ 54 = 18014398509481984) by reflexivity.
  destruct (Prim2SF x) as [s|s| |s m e] eqn:E; cbn [ival];
    intros Hf H; try discriminate Hf.
  { rewrite ET, ER, E54. set (Q := 2 ^ 1020) in *. clearbody Q. lia. }
  destruct (Prim2SF_finite_valid x s m e E) as (Hd & He & _).
  destruct (exact_finite_abs s m e ltac:(lia)) as [_ Hpos].
  destruct s; cbn [cond_Zopp] in *; [lia|].
  pose proof (pos_lt_pow2_digits m 53 Hd) as Hm.
  change (2 ^ 53) with 9007199254740992 in Hm.
  assert (HA : 0 < 2 ^ (e + 1074)) by (apply pow2_pos; lia).
  destruct (Z_le_gt_dec (-53) e) as [Hbig|Hsmall].
  - assert (Hneg : e < 0).
    { destruct (Z_lt_le_dec e 0) as [Hlt|Hge]; [exact Hlt|exfalso].
      assert (2 ^ 1074 <= 2 ^ (e + 1074)) by (apply Z.pow_le_mono_r; lia).
      nia. }
    assert (EA : 2 ^ 1074 = 2 ^ (- e) * 2 ^ (e + 1074)).
    { rewrite <- Z.pow_add_r by lia. f_equal. lia. }
    assert (HR : 2 ^ 1021 <= 2 ^ (e + 1074))
      by (apply Z.pow_le_mono_r; lia).
    assert (HB : 0 < 2 ^ (- e)) by (apply pow2_pos; lia).
    rewrite EA in H |- *.
    set (A := 2 ^ (e + 1074)) in *. set (B := 2 ^ (- e)) in *.
    set (R := 2 ^ 1021) in *. clearbody A B R. clear ET ER EA HQ.
    assert (Zpos m < B) by nia. nia.
  - assert (HR : 2 ^ (e + 1074) <= 2 ^ 1020)
      by (apply Z.pow_le_mono_r; lia).
    rewrite ET, ER, E54.
    set (A := 2 ^ (e + 1074)) in *. set (Q := 2 ^ 1020) in *.
    clearbody A Q. clear ET ER H. nia.
Qed.

(** What is left of a float without its whole part is a float. *)
Lemma exact_frac (x : float) :
  is_finite x = true -> 0 <= exact x < 2 ^ 53 * 2 ^ 1074 ->
  let y := pyfloat.of_dyadic (exact x / 2 ^ 1074) 0 in
  is_finite y = true /\ is_finite (x - y) = true /\
  exact (x - y) = exact x mod 2 ^ 1074.
Proof.
  intros Hx HX y.
  assert (HT : 0 < 2 ^ 1074) by (apply pow2_pos; lia).
  assert (Hz : 0 <= exact x / 2 ^ 1074 < 2 ^ 53).
  { split; [apply Z.div_pos; lia|].
    apply Z.div_lt_upper_bound; [exact HT|]. lia. }
  destruct (exact_of_int (exact x / 2 ^ 1074)) as [Ey Hby];
    [rewrite Z.abs_eq; lia|].
  fold y in Ey, Hby. pose proof (fbnd_is_finite _ _ Hby) as Hy.
  assert (Hmod : exact x - exact y = exact x mod 2 ^ 1074).
  { rewrite Ey, Z.mod_eq by lia. ring. }
  assert (Hrep : exists n g, -1074 <= g <= 971 /\ Z.abs n < 2 ^ 53 /\
                             exact x mod 2 ^ 1074 = n * 2 ^ (g + 1074)).
  { clear Ey Hby Hy Hmod Hz y. revert Hx HX. rewrite is_finite_spec.
    unfold exact.
    destruct (Prim2SF x) as [s|s| |s m e] eqn:E; cbn [ival];
      intros Hf HX; try discriminate Hf.
    - exists 0, 0. split; [lia|]. split; [reflexivity|].
      rewrite Z.mod_0_l by lia. reflexivity.
    - destruct (Prim2SF_finite_valid x s m e E) as (Hd & He & _).
      destruct (exact_finite_abs s m e ltac:(lia)) as [_ Hpos].
      destruct s; cbn [cond_Zopp] in *; [lia|].
      pose proof (pos_lt_pow2_digits m 53 Hd) as Hm.
      destruct (Z_le_gt_dec 0 e) as [Hge|Hlt].
      + exists 0, 0. split; [lia|]. split; [reflexivity|].
        rewrite (Z.pow_add_r 2 e 1074), Z.mul_assoc by lia.
        rewrite Z.mod_mul by lia. reflexivity.
      + exists (Zpos m mod 2 ^ (- e)), e.
        assert (HB : 0 < 2 ^ (- e)) by (apply pow2_pos; lia).
        assert (HA : 0 < 2 ^ (e + 1074)) by (apply pow2_pos; lia).
        pose proof (Z.mod_pos_bound (Zpos m) (2 ^ (- e)) HB) as Hr.
        pose proof (Z.mod_le (Zpos m) (2 ^ (- e)) ltac:(lia) HB) as Hr'.
        split; [lia|]. split; [rewrite Z.abs_eq; lia|].
        replace (2 ^ 1074) with (2 ^ (- e) * 2 ^ (e + 1074))
          by (rewrite <- Z.pow_add_r by lia; f_equal; lia).
        apply Z.mul_mod_distr_r; lia. }
  destruct Hrep as (n & g & Hg & Hn & Hv).
  rewrite <- Hmod in Hv.
  destruct (exact_sub_repr x y n g Hx Hy Hg Hn Hv) as [He Hb].
  split; [exact Hy|]. split; [exact (fbnd_is_finite _ _ Hb)|].
  rewrite He. exact Hmod.
Qed.

(** Sixty times a float below one is below sixty, and off the exact
    product by [2^-48] at most. *)
Lemma exact_times_60 (x : float) :
  is_finite x = true -> 0 <= exact x <= 2 ^ 1074 - 2 ^ 1021 ->
  is_finite (x * 60)%float = true /\
  0 <= exact (x * 60)%float < 60 * 2 ^ 1074 /\
  Z.abs (exact (x * 60)%float - 60 * exact x) <= 2 ^ 1026.
Proof.
  intros Hx HX.
  assert (HR : 0 < 2 ^ 1021) by (apply pow2_pos; lia).
  assert (EP : 2 ^ 1026 = 32 * 2 ^ 1021)
    by (change 32 with (2 ^ 5);
        rewrite <- (Z.pow_add_r 2 5 1021) by lia; reflexivity).
  assert (ET : 2 ^ 1074 = 9007199254740992 * 2 ^ 1021)
    by (change 9007199254740992 with (2 ^ 53);
        rewrite <- (Z.pow_add_r 2 53 1021) by lia; reflexivity).
  assert (E60 : exact 60%float = 60 * 2 ^ 1074).
  { unfold exact.
    assert (Prim2SF 60%float = S754_finite false 8444249301319680 (-47))
      as -> by reflexivity.
    cbn [ival cond_Zopp]. change (-47 + 1074) with 1027.
    replace (2 ^ 1074) with (140737488355328 * 2 ^ 1027)
      by (change 140737488355328 with (2 ^ 47);
          rewrite <- (Z.pow_add_r 2 47 1027) by lia; reflexivity).
    ring. }
  assert (Hb0 : fbnd 0 x).
  { apply fbnd_of_exact; [exact Hx|]. change (0 + 1074) with 1074.
    rewrite Z.abs_eq by lia. lia. }
  assert (Hb6 : fbnd 6 60%float).
  { unfold fbnd.
    assert (Prim2SF 60%float = S754_finite false 8444249301319680 (-47))
      as -> by reflexivity.
    cbn. lia. }
  pose proof (fbnd_mul 0 6 x 60%float Hb0 Hb6 ltac:(lia)) as Hb.
  pose proof (exact_mul_nonneg x 60%float ltac:(lia) ltac:(lia)) as Hpos.
  pose proof (exact_mul_near 0 6 x 60%float Hb0 Hb6 ltac:(lia)) as Hnear.
  change (fexp prec emax (0 + 6) + 2148) with 2101 in Hnear.
  rewrite E60 in Hnear.
  assert (E2 : 2 ^ 2101 = 2 * 2 ^ 1074 * 2 ^ 1026).
  { rewrite <- (Z.pow_succ_r 2 1074) by lia.
    rewrite <- (Z.pow_add_r 2 (Z.succ 1074) 1026) by lia. reflexivity. }
  rewrite E2 in Hnear.
  assert (Herr : Z.abs (exact (x * 60)%float - 60 * exact x) <= 2 ^ 1026).
  { set (E := exact (x * 60)%float) in *. set (X := exact x) in *.
    assert (HT : 0 < 2 ^ 1074) by (apply pow2_pos; lia).
    set (T := 2 ^ 1074) in *. set (P := 2 ^ 1026) in *.
    clearbody E X T P. clear - Hnear HT.
    replace (2 * (E * T - X * (60 * T))) with (2 * T * (E - 60 * X))
      in Hnear by ring.
    rewrite Z.abs_mul, (Z.abs_eq (2 * T)) in Hnear by lia.
    apply (Z.mul_le_mono_pos_l _ _ (2 * T)); [lia|exact Hnear]. }
  split; [exact (fbnd_is_finite _ _ Hb)|]. split; [|exact Herr].
  split; [exact Hpos|].
  rewrite EP in Herr. rewrite ET in HX |- *.
  set (E := exact (x * 60)%float) in *. set (X := exact x) in *.
  set (R := 2 ^ 1021) in *. clearbody E X R. lia.
Qed.

End HalfUlp.

(** * The calculators return on the inputs they are given *)

Section Returns.

Local Open Scope float_scope.

(** A bound on a constant is decided by evaluation. *)
Ltac fbnd_closed :=
  unfold fbnd; vm_compute; first [exact I | let H := fresh in intro H; discriminate H].

Lemma Prim2SF_3600 : Prim2SF 3600 = S754_finite false 7916483719987200 (-41).
Proof. reflexivity. Qed.

Lemma Prim2SF_60 : Prim2SF 60 = S754_finite false 8444249301319680 (-47).
Proof. reflexivity. Qed.

(** [math_1] returns what the C function gives when that is finite. *)
Lemma math_1_finite (func : float -> float) (x : float) :
  is_finite (func x) = true -> math.math_1 func x = Ok (func x).
Proof.
  unfold math.math_1, is_finite. intros H.
  destruct (is_nan (func x)); [discriminate|].
  destruct (is_infinity (func x)); [discriminate|]. reflexivity.
Qed.

(** A NaN argument never makes [math_1] raise. *)
Lemma math_1_nan (func : float -> float) (x : float) :
  is_nan x = true -> math.math_1 func x = Ok (func x).
Proof.
  unfold math.math_1, is_finite. intros H. rewrite H.
  cbn [negb orb]. rewrite !andb_false_r. reflexivity.
Qed.

(** An infinite argument does, with a C function that gives NaN there. *)
Lemma math_1_infinite (func : float -> float) (x : float) :
  is_infinity x = true -> is_nan (func x) = true ->
  math.math_1 func x = Raise (ValueError "math domain error").
Proof.
  unfold math.math_1. intros Hx Hr. rewrite Hr.
  assert (is_nan x = false) as ->.
  { rewrite is_nan_spec. rewrite is_infinity_spec in Hx.
    destruct (Prim2SF x); try discriminate; reflexivity. }
  reflexivity.
Qed.

Lemma radians_finite (x : float) :
  is_finite x = true -> is_finite (math.radians x) = true.
Proof.
  intros H. apply (fbnd_is_finite (1024 + (-5) + 1)).
  unfold math.radians. apply fbnd_mul.
  - now apply is_finite_fbnd.
  - fbnd_closed.
  - simpl. lia.
Qed.

Lemma radians_infinite (x : float) :
  is_infinity x = true -> is_infinity (math.radians x) = true.
Proof.
  rewrite !is_infinity_spec. unfold math.radians. rewrite mul_spec.
  unfold SF64mul.
  assert (Prim2SF math.degToRad = S754_finite false 5030569068109113 (-58)) as ->
    by reflexivity.
  destruct (Prim2SF x); try discriminate; reflexivity.
Qed.

Lemma radians_nan (x : float) :
  is_nan x = true -> is_nan (math.radians x) = true.
Proof.
  rewrite !is_nan_spec. unfold math.radians. rewrite mul_spec.
  destruct (Prim2SF x); try discriminate; reflexivity.
Qed.

(** The three cases of the tangent of a latitude. *)
Lemma tan_latitude_finite (lm : math.libm) (phi : float) :
  math.libm_ok lm -> is_finite phi = true ->
  math.tan lm (math.radians phi) = Ok (math.c_tan lm (math.radians phi)).
Proof.
  intros Hlm H. apply math_1_finite, (math.tan_finite lm Hlm).
  now apply radians_finite.
Qed.

Lemma tan_latitude_nan (lm : math.libm) (phi : float) :
  is_nan phi = true ->
  math.tan lm (math.radians phi) = Ok (math.c_tan lm (math.radians phi)).
Proof. intros H. apply math_1_nan. now apply radians_nan. Qed.

Lemma tan_latitude_infinite (lm : math.libm) (phi : float) :
  math.libm_ok lm -> is_infinity phi = true ->
  math.tan lm (math.radians phi) = Raise (ValueError "math domain error").
Proof.
  intros Hlm H. apply math_1_infinite.
  - now apply radians_infinite.
  - apply (math.tan_inf lm Hlm). now apply radians_infinite.
Qed.

(** A float between [- c] and [c] is as small as [c]. *)
Lemma between_fbnd (x c : float) (mc : positive) (ec : Z) :
  Prim2SF c = S754_finite false mc ec ->
  (- c <=? x) = true -> (x <=? c) = true ->
  fbnd (53 + ec) x.
Proof.
  intros Hc. rewrite !leb_spec, opp_spec, Hc. unfold fbnd, SFleb.
  destruct (Prim2SF x) as [s|s| |s m e] eqn:E; cbn [bnd SFcompare SFopp negb];
    try discriminate; auto.
  - destruct s; discriminate.
  - pose proof (Prim2SF_finite_valid x s m e E).
    destruct s; intros H1 H2.
    + destruct (Z.compare_spec ec e); try discriminate; lia.
    + destruct (Z.compare_spec e ec); try discriminate; lia.
Qed.

(** The seconds of the offset stay finite for a longitude that is. *)
Lemma abs_offset_seconds_fbnd (lambda : float) :
  fbnd 900 lambda -> fbnd 913 (yantra_core.abs_offset_seconds lambda).
Proof.
  intros H. unfold yantra_core.abs_offset_seconds,
    yantra_core.IST_REFERENCE_LONGITUDE.
  change 913%Z with (906 + 6 + 1)%Z. apply fbnd_mul; [|fbnd_closed|lia].
  apply fbnd_abs.
  change 906%Z with (902 + 3 + 1)%Z. apply fbnd_mul; [|fbnd_closed|lia].
  change 902%Z with (900 + 2)%Z. apply fbnd_sub; [exact H|fbnd_closed|lia].
Qed.

(** The three integer divisions of [calculate_time_offset] succeed on a
    finite number of seconds. *)
Lemma hms_ok (secs : float) :
  fbnd 913 secs ->
  exists h r q r' hours minutes seconds,
    pyfloat.floordiv secs 3600 = Ok h /\ pyfloat.int h = Ok hours /\
    pyfloat.rem secs 3600 = Ok r /\ pyfloat.floordiv r 60 = Ok q /\
    pyfloat.int q = Ok minutes /\
    pyfloat.rem secs 60 = Ok r' /\ pyfloat.int r' = Ok seconds.
Proof.
  intros Hs.
  destruct (floordiv_ok 913 secs 3600 _ _ Hs Prim2SF_3600) as (h & Hh & Hbh);
    [simpl; lia|lia|].
  destruct (int_ok _ h Hbh) as (hours & Hhours).
  destruct (rem_ok 913 secs 3600 _ _ Hs Prim2SF_3600) as (r & Hr & Hbr);
    [simpl; lia|lia|].
  destruct (floordiv_ok _ r 60 _ _ Hbr Prim2SF_60) as (q & Hq & Hbq);
    [simpl; lia|lia|].
  destruct (int_ok _ q Hbq) as (minutes & Hminutes).
  destruct (rem_ok 913 secs 60 _ _ Hs Prim2SF_60) as (r' & Hr' & Hbr');
    [simpl; lia|lia|].
  destruct (int_ok _ r' Hbr') as (seconds & Hseconds).
  exists h, r, q, r', hours, minutes, seconds. tauto.
Qed.

Lemma calculate_time_offset_ok (lambda : float) :
  fbnd 900 lambda ->
  exists text, yantra_core.calculate_time_offset lambda
               = Ok (text, (lambda - 82.5) * 4).
Proof.
  intros H.
  destruct (hms_ok _ (abs_offset_seconds_fbnd lambda H))
    as (h & r & q & r' & hours & minutes & seconds &
        Hh & Hhours & Hr & Hq & Hminutes & Hr' & Hseconds).
  unfold yantra_core.abs_offset_seconds in *.
  unfold yantra_core.calculate_time_offset.
  cbv zeta. rewrite Hh. cbn [bind]. rewrite Hhours. cbn [bind].
  rewrite Hr. cbn [bind]. rewrite Hq. cbn [bind]. rewrite Hminutes.
  cbn [bind]. rewrite Hr'. cbn [bind]. rewrite Hseconds. cbn [bind].
  eexists. reflexivity.
Qed.

(** A float that is not finite is NaN or one of the two infinities. *)
Lemma not_finite_cases (x : float) :
  is_finite x = false -> x = nan \/ x = infinity \/ x = neg_infinity.
Proof.
  rewrite is_finite_spec. intros H.
  destruct (Prim2SF x) as [s|s| |s m e] eqn:E; try discriminate.
  - destruct s; [right; right|right; left]; apply Prim2SF_inj; rewrite E;
      reflexivity.
  - left. apply Prim2SF_inj. rewrite E. reflexivity.
Qed.

Lemma calculate_time_offset_not_finite (lambda : float) :
  is_finite lambda = false ->
  yantra_core.calculate_time_offset lambda
  = Raise (ValueError "cannot convert float NaN to integer").
Proof.
  intros H. destruct (not_finite_cases lambda H) as [->|[->| ->]];
    vm_compute; reflexivity.
Qed.

(** *** [deg_to_dms] *)

Lemma abs_abs (x : float) : abs (abs x) = abs x.
Proof.
  apply Prim2SF_inj. rewrite !abs_spec. destruct (Prim2SF x); reflexivity.
Qed.

(** The integer part of a bounded float is bounded, and it is not below
    zero for a float that is not. *)
Lemma int_bound (k : Z) (x : float) :
  fbnd k x -> (0 <= k)%Z ->
  exists z, pyfloat.int x = Ok z /\ (Zdigits2 z <= k)%Z.
Proof.
  unfold fbnd, pyfloat.int.
  destruct (Prim2SF x) as [s|s| |s m e]; cbn [bnd]; try tauto.
  - intros _ Hk. exists 0%Z. split; [reflexivity|simpl; lia].
  - intros Hb Hk. eexists. split; [reflexivity|].
    assert (Zdigits2 (cond_Zopp s (pyfloat.trunc_dyadic (Zpos m) e))
            = Zdigits2 (pyfloat.trunc_dyadic (Zpos m) e)) as ->
      by (destruct s; [apply Zdigits2_opp|reflexivity]).
    unfold pyfloat.trunc_dyadic. destruct (Z.leb_spec 0 e).
    + rewrite Zdigits2_mul_pow2 by lia.
      change (Zdigits2 (Zpos m)) with (Zpos (digits2_pos m)). lia.
    + pose proof (Zdigits2_div_pow2_le (Zpos m) (- e) ltac:(lia) ltac:(lia))
        as H'.
      change (Zdigits2 (Zpos m)) with (Zpos (digits2_pos m)) in H'. lia.
Qed.

Lemma int_abs_nonneg (x : float) (z : Z) :
  pyfloat.int (abs x) = Ok z -> (0 <= z)%Z.
Proof.
  unfold pyfloat.int. rewrite abs_spec.
  destruct (Prim2SF x) as [s|s| |s m e]; cbn [SFabs]; try discriminate;
    intros H; inversion H; subst; [lia|].
  cbn [cond_Zopp]. unfold pyfloat.trunc_dyadic.
  destruct (Z.leb_spec 0 e).
  - apply Z.mul_nonneg_nonneg; [lia|apply Z.pow_nonneg; lia].
  - apply Z.div_pos; [lia|apply Z.pow_pos_nonneg; lia].
Qed.

Lemma of_int_ok (k z : Z) :
  (Zdigits2 z <= k)%Z -> (-1074 <= k <= 1023)%Z ->
  pyfloat.of_int z = Ok (pyfloat.of_dyadic z 0) /\
  fbnd (k + 1) (pyfloat.of_dyadic z 0).
Proof.
  intros Hz Hk.
  assert (H : fbnd (k + 1) (pyfloat.of_dyadic z 0))
    by (apply fbnd_of_dyadic; lia).
  split; [|exact H]. unfold pyfloat.of_int.
  rewrite (fbnd_is_finite _ _ H). reflexivity.
Qed.

(** The conversion returns for every angle below [2^1000]. *)
Lemma deg_to_dms_ok (deg : float) :
  fbnd 1000 deg ->
  exists d m,
    pyfloat.int (abs deg) = Ok d /\ (0 <= d)%Z /\
    pyfloat.int ((abs deg - pyfloat.of_dyadic d 0) * 60) = Ok m /\
    yantra_web_app.deg_to_dms (Some deg)
    = Ok (pyint.str d ++ degree_sign ++ " " ++ pyint.str m ++ "' "
          ++ pyfloat.format_f 2
               (((abs deg - pyfloat.of_dyadic d 0) * 60
                 - pyfloat.of_dyadic m 0) * 60)
          ++ dquote)%string.
Proof.
  intros H. apply fbnd_abs in H.
  destruct (int_bound 1000 _ H ltac:(lia)) as (d & Hd & Hbd).
  destruct (of_int_ok 1000 d Hbd ltac:(lia)) as (Hfd & Hbfd).
  assert (Hm : fbnd 1010 ((abs deg - pyfloat.of_dyadic d 0) * 60)).
  { change 1010%Z with (1003 + 6 + 1)%Z. apply fbnd_mul; [|fbnd_closed|lia].
    change 1003%Z with (1001 + 2)%Z.
    apply fbnd_sub; [apply (fbnd_mono 1000); [lia|exact H]|exact Hbfd|lia]. }
  destruct (int_bound 1010 _ Hm ltac:(lia)) as (m & Hmi & Hbm).
  destruct (of_int_ok 1010 m Hbm ltac:(lia)) as (Hfm & _).
  exists d, m. split; [exact Hd|]. split; [exact (int_abs_nonneg _ _ Hd)|].
  split; [exact Hmi|].
  unfold yantra_web_app.deg_to_dms.
  rewrite Hd. cbn [bind]. rewrite Hfd. cbn [bind]. rewrite Hmi. cbn [bind].
  rewrite Hfm. cbn [bind].
  replace (1 * d)%Z with d by lia. reflexivity.
Qed.

End Returns.

(** * The claims *)

Section Claims.

Local Open Scope float_scope.

Ltac fbnd_closed :=
  unfold fbnd; vm_compute; first [exact I | let H := fresh in intro H; discriminate H].

(** ** C1 *)

(** C1.  For every validated input (latitude between 0 and 90, longitude
    between 0 and 180, radius above 0) the calculator of yantra_core.py
    returns a dictionary in which [samrat_angle] is the latitude written
    with three decimals, [samrat_height] is [R * tan(radians(phi))] written
    with three decimals and [nadivalaya_tilt] is [90 - phi] written with
    three decimals. *)
Theorem C1_samrat_and_nadivalaya (lm : math.libm) (phi lambda R : float) :
  math.libm_ok lm ->
  (0 <=? phi) && (phi <=? 90) = true ->
  (0 <=? lambda) && (lambda <=? 180) = true ->
  (0 <? R) = true ->
  exists data,
    yantra_core.calculate_yantra_dimensions lm phi lambda R = Ok data /\
    samrat_angle data = (pyfloat.format_f 3 phi ++ degree_sign)%string /\
    samrat_height data
    = pyfloat.format_f 3 (R * math.c_tan lm (math.radians phi)) /\
    nadivalaya_tilt data
    = (pyfloat.format_f 3 (90 - phi) ++ degree_sign)%string.
Proof.
  intros Hlm Hphi Hlambda _.
  apply andb_true_iff in Hphi as [Hphi0 Hphi90].
  apply andb_true_iff in Hlambda as [Hl0 Hl180].
  assert (Hfphi : is_finite phi = true).
  { apply (fbnd_is_finite (53 + -46)).
    apply (leb_fbnd phi 90 6333186975989760 (-46)); auto. }
  assert (Hbl : fbnd 900 lambda).
  { apply (fbnd_mono (53 + -45)); [lia|].
    apply (leb_fbnd lambda 180 6333186975989760 (-45)); auto. }
  destruct (calculate_time_offset_ok lambda Hbl) as (text & Htm).
  unfold yantra_core.calculate_yantra_dimensions. cbv zeta.
  rewrite (tan_latitude_finite lm phi Hlm Hfphi). cbn [bind].
  rewrite Htm. cbn [bind].
  eexists. split; [reflexivity|]. cbn. auto.
Qed.

Lemma C1_witness :
  exists data,
    yantra_core.calculate_yantra_dimensions reflibm.lm 26.9167 75.8167 10
    = Ok data /\
    samrat_angle data = (pyfloat.format_f 3 26.9167 ++ degree_sign)%string /\
    samrat_height data
    = pyfloat.format_f 3
        (10 * math.c_tan reflibm.lm (math.radians 26.9167)) /\
    nadivalaya_tilt data
    = (pyfloat.format_f 3 (90 - 26.9167) ++ degree_sign)%string.
Proof.
  apply (C1_samrat_and_nadivalaya reflibm.lm 26.9167 75.8167 10 reflibm_ok);
    reflexivity.
Defined.

(** ** C2 *)

(** C2.  For every longitude (any float between -180 and 180)
    [calculate_time_offset] returns the signed minutes
    [(lambda - 82.5) * 4] together with a text made of the hours, minutes
    and seconds that floor division and remainder by 3600 and 60 take out
    of the absolute value of the minutes times 60, followed by "AHEAD OF"
    when the minutes are above zero and by "BEHIND" otherwise; at 82.5 the
    minutes are zero and the text says "BEHIND". *)
Theorem C2_time_offset (lambda : float) :
  (- 180 <=? lambda) && (lambda <=? 180) = true ->
  let minutes_signed := (lambda - 82.5) * 4 in
  let secs := abs minutes_signed * 60 in
  (exists h r q r' hours minutes seconds,
     pyfloat.floordiv secs 3600 = Ok h /\ pyfloat.int h = Ok hours /\
     pyfloat.rem secs 3600 = Ok r /\ pyfloat.floordiv r 60 = Ok q /\
     pyfloat.int q = Ok minutes /\
     pyfloat.rem secs 60 = Ok r' /\ pyfloat.int r' = Ok seconds /\
     yantra_core.calculate_time_offset lambda
     = Ok ((pyint.format_0d 2 hours ++ "h " ++ pyint.format_0d 2 minutes
            ++ "m " ++ pyint.format_0d 2 seconds ++ "s "
            ++ (if (0 <? minutes_signed)%float then "AHEAD OF" else "BEHIND")
            ++ " IST")%string,
           minutes_signed)) /\
  yantra_core.calculate_time_offset 82.5 = Ok ("00h 00m 00s BEHIND IST", 0).
Proof.
  intros Hrange minutes_signed secs. split; [|reflexivity].
  apply andb_true_iff in Hrange as [Hlo Hhi].
  assert (H : fbnd 900 lambda).
  { apply (fbnd_mono (53 + -45)); [lia|].
    apply (between_fbnd lambda 180 6333186975989760 (-45)); auto. }
  destruct (hms_ok _ (abs_offset_seconds_fbnd lambda H))
    as (h & r & q & r' & hours & minutes & seconds &
        Hh & Hhours & Hr & Hq & Hminutes & Hr' & Hseconds).
  unfold yantra_core.abs_offset_seconds,
    yantra_core.IST_REFERENCE_LONGITUDE in *.
  fold minutes_signed in Hh, Hr, Hr'. fold secs in Hh, Hr, Hr'.
  exists h, r, q, r', hours, minutes, seconds.
  repeat (split; [assumption|]).
  unfold yantra_core.calculate_time_offset,
    yantra_core.IST_REFERENCE_LONGITUDE. cbv zeta.
  fold minutes_signed. fold secs.
  rewrite Hh. cbn [bind]. rewrite Hhours. cbn [bind].
  rewrite Hr. cbn [bind]. rewrite Hq. cbn [bind]. rewrite Hminutes.
  cbn [bind]. rewrite Hr'. cbn [bind]. rewrite Hseconds. cbn [bind].
  reflexivity.
Qed.

Lemma C2_witness :
  exists text,
    yantra_core.calculate_time_offset 75.8167
    = Ok (text, (75.8167 - 82.5) * 4).
Proof.
  destruct (C2_time_offset 75.8167 eq_refl)
    as [(h & r & q & r' & hours & minutes & seconds & Heq) _].
  eexists. apply Heq.
Defined.

(** ** C3 *)

(** What the [try] block of [main] accepts. *)
Lemma read_inputs_accepts (lat_text lon_text radius_text : string)
    (phi lambda R : float) :
  yantra_app.read_inputs lat_text lon_text radius_text = Ok (phi, lambda, R)
  <->
  pystr.float (pystr.strip lat_text) = Ok phi /\
  pystr.float (pystr.strip lon_text) = Ok lambda /\
  pystr.float (pystr.strip radius_text) = Ok R /\
  (0 <=? phi) && (phi <=? 90) = true /\
  (0 <=? lambda) && (lambda <=? 180) = true /\
  (R <=? 0) = false.
Proof.
  unfold yantra_app.read_inputs.
  destruct (pystr.float (pystr.strip lat_text)) as [a|e1]; cbn [bind];
    [|split; [discriminate|intros (H & _); discriminate]].
  destruct (pystr.float (pystr.strip lon_text)) as [b|e2]; cbn [bind];
    [|split; [discriminate|intros (_ & H & _); discriminate]].
  destruct (pystr.float (pystr.strip radius_text)) as [c|e3]; cbn [bind];
    [|split; [discriminate|intros (_ & _ & H & _); discriminate]].
  destruct ((0 <=? a) && (a <=? 90)) eqn:Ha; cbn [negb].
  2:{ split; [discriminate|]. intros (H & _ & _ & H' & _).
      inversion H; subst. congruence. }
  destruct ((0 <=? b) && (b <=? 180)) eqn:Hb; cbn [negb].
  2:{ split; [discriminate|]. intros (_ & H & _ & _ & H' & _).
      inversion H; subst. congruence. }
  destruct (c <=? 0) eqn:Hc.
  - split; [discriminate|]. intros (_ & _ & H & _ & _ & H').
    inversion H; subst. congruence.
  - split.
    + intros H; inversion H; subst. auto 10.
    + intros (H1 & H2 & H3 & _). inversion H1; inversion H2; inversion H3.
      reflexivity.
Qed.

(** The conversions raise nothing but [ValueError]. *)
Lemma float_raises_value_error (s : string) (e : exn) :
  pystr.float s = Raise e -> exists msg, e = ValueError msg.
Proof.
  unfold pystr.float. destruct (pystr.parse_float _); [discriminate|].
  intros H; inversion H. eauto.
Qed.

Lemma read_inputs_raises_value_error (lat_text lon_text radius_text : string)
    (e : exn) :
  yantra_app.read_inputs lat_text lon_text radius_text = Raise e ->
  exists msg, e = ValueError msg.
Proof.
  unfold yantra_app.read_inputs.
  destruct (pystr.float (pystr.strip lat_text)) as [a|e1] eqn:E1; cbn [bind];
    [|intros H; inversion H; subst; eapply float_raises_value_error; eauto].
  destruct (pystr.float (pystr.strip lon_text)) as [b|e2] eqn:E2; cbn [bind];
    [|intros H; inversion H; subst; eapply float_raises_value_error; eauto].
  destruct (pystr.float (pystr.strip radius_text)) as [c|e3] eqn:E3;
    cbn [bind];
    [|intros H; inversion H; subst; eapply float_raises_value_error; eauto].
  destruct (negb _); [intros H; inversion H; eauto|].
  destruct (negb _); [intros H; inversion H; eauto|].
  destruct (c <=? 0); [intros H; inversion H; eauto|discriminate].
Qed.

(** A text that is not a number aborts the run before any range is
    looked at, whatever the other two answers are. *)
Lemma malformed_latitude_aborts (lm : math.libm)
    (lat_text lon_text radius_text : string) (e : exn) :
  pystr.float (pystr.strip lat_text) = Raise e ->
  exists msg, yantra_app.main lm lat_text lon_text radius_text = Aborted msg.
Proof.
  intros H. unfold yantra_app.main, yantra_app.read_inputs. rewrite H.
  cbn [bind]. destruct (float_raises_value_error _ _ H) as [msg ->]. eauto.
Qed.

(** A rejected input aborts the run: nothing is calculated. *)
Lemma rejected_input_aborts (lm : math.libm)
    (lat_text lon_text radius_text : string) (e : exn) :
  yantra_app.read_inputs lat_text lon_text radius_text = Raise e ->
  exists msg, yantra_app.main lm lat_text lon_text radius_text = Aborted msg.
Proof.
  intros H. unfold yantra_app.main. rewrite H.
  destruct (read_inputs_raises_value_error _ _ _ _ H) as [msg ->]. eauto.
Qed.

(** A radius that is a number passes the check exactly when it is above
    zero. *)
Lemma radius_check_number (R : float) :
  is_nan R = false -> ((R <=? 0) = false <-> (0 <? R) = true).
Proof.
  rewrite is_nan_spec, leb_spec, ltb_spec, Prim2SF_zero.
  unfold SFleb, SFltb.
  destruct (Prim2SF R) as [s|s| |s m e]; cbn [SFcompare]; try discriminate;
    intros _; try destruct s; split; congruence.
Qed.

(** The boundary cases of the specification. *)
Example validation_boundaries :
  succeeds (yantra_app.read_inputs "0" "0" "0.0001") = true /\
  succeeds (yantra_app.read_inputs "90" "180" "0.0001") = true /\
  succeeds (yantra_app.read_inputs "90.0001" "0" "1") = false /\
  succeeds (yantra_app.read_inputs "-0.0001" "0" "1") = false /\
  succeeds (yantra_app.read_inputs "45" "180.0001" "1") = false /\
  succeeds (yantra_app.read_inputs "45" "-0.0001" "1") = false /\
  succeeds (yantra_app.read_inputs "45" "45" "0") = false /\
  succeeds (yantra_app.read_inputs "45" "45" "-1") = false /\
  succeeds (yantra_app.read_inputs "abc" "45" "1") = false /\
  yantra_app.read_inputs "91" "45" "abc"
  = Raise (ValueError "could not convert string to float: 'abc'").
Proof. repeat split; reflexivity. Qed.

(** C3.  The radius text "nan" is converted to NaN, which is not above
    zero, and the check [base_radius <= 0] lets it through: the run goes on
    to the calculation and the report shows "nan" for the radius and for
    the height.  The latitude and longitude checks reject the same text. *)
Theorem C3_nan_radius_is_accepted :
  yantra_app.read_inputs "45" "45" "nan" = Ok (45, 45, nan) /\
  (0 <? nan) = false /\
  (exists data,
     yantra_app.main reflibm.lm "45" "45" "nan" = Report data /\
     R data = "nan" /\ samrat_height data = "nan") /\
  (exists data,
     yantra_report_app.main reflibm.lm "45" "45" "nan" = Report data /\
     R data = "nan" /\ samrat_height data = "nan") /\
  yantra_app.read_inputs "nan" "45" "1"
  = Raise (ValueError "Latitude must be between 0 and 90.") /\
  yantra_app.read_inputs "45" "nan" "1"
  = Raise (ValueError "Longitude must be between 0 and 180 (East).").
Proof.
  split; [reflexivity|]. split; [reflexivity|].
  split; [eexists; split; [vm_compute; reflexivity|split; reflexivity]|].
  split; [eexists; split; [vm_compute; reflexivity|split; reflexivity]|].
  split; reflexivity.
Qed.

(** ** C4 *)

(** C4, with the height the code prints.  For latitude 26.9167, longitude 75.8167 and radius
    10.0, with a C library whose tangent at [radians(26.9167)] is the
    correctly rounded 0.5076954991312169, the calculator returns
    [samrat_angle] "26.917 deg", [samrat_height] "5.077",
    [nadivalaya_tilt] "63.083 deg", [rasivalaya_zd_ws] "86.523 deg",
    [rasivalaya_zd_ss] "39.643 deg", the minutes -26.733200000000011
    (written "-26.733" with three decimals) and the text
    "00h 26m 43s BEHIND IST". *)
Theorem C4_jaipur (lm : math.libm) :
  math.c_tan lm (math.radians 26.9167) = 0.5076954991312169 ->
  exists data,
    yantra_core.calculate_yantra_dimensions lm 26.9167 75.8167 10.0
    = Ok data /\
    samrat_angle data = ("26.917" ++ degree_sign)%string /\
    samrat_height data = "5.077" /\
    nadivalaya_tilt data = ("63.083" ++ degree_sign)%string /\
    rasivalaya_zd_ws data = ("86.523" ++ degree_sign)%string /\
    rasivalaya_zd_ss data = ("39.643" ++ degree_sign)%string /\
    time_offset_min data = -26.733200000000011 /\
    pyfloat.format_f 3 (time_offset_min data) = "-26.733" /\
    time_offset_str data = "00h 26m 43s BEHIND IST".
Proof.
  intros Htan.
  unfold yantra_core.calculate_yantra_dimensions, math.tan, math.math_1.
  cbv zeta. rewrite Htan.
  eexists. split; [vm_compute; reflexivity|].
  repeat split; vm_compute; reflexivity.
Qed.

Lemma C4_witness :
  exists data,
    yantra_core.calculate_yantra_dimensions reflibm.lm 26.9167 75.8167 10.0
    = Ok data /\
    samrat_height data = "5.077".
Proof.
  assert (Htan : math.c_tan reflibm.lm (math.radians 26.9167)
                 = 0.5076954991312169) by (vm_compute; reflexivity).
  destruct (C4_jaipur reflibm.lm Htan) as (data & H & _ & Hh & _).
  exists data. split; assumption.
Defined.

(** The height the specification gives for this input, "5.081", is not
    what the calculator returns. *)
Lemma C4_counterexample :
  ~ (exists data,
       yantra_core.calculate_yantra_dimensions reflibm.lm 26.9167 75.8167 10.0
       = Ok data /\
       samrat_height data = "5.081").
Proof.
  intros (data & H & Hh).
  assert (Hcalc : exists d,
             yantra_core.calculate_yantra_dimensions
               reflibm.lm 26.9167 75.8167 10.0 = Ok d /\
             samrat_height d = "5.077").
  { eexists. split; [vm_compute; reflexivity|reflexivity]. }
  destruct Hcalc as (d & Hd & Hh').
  rewrite Hd in H. injection H as ->. rewrite Hh' in Hh. discriminate Hh.
Qed.

(** ** C10 *)

(** C10.  On every triple of inputs the calculator copied into
    yantra_report_app.py returns what the calculator of yantra_core.py
    returns: the same dictionary, field by field, or the same exception. *)
Theorem C10_report_app_calculator_is_core (lm : math.libm)
    (latitude_phi longitude_lambda base_radius_R : float) :
  yantra_report_app.calculate_yantra_dimensions
    lm latitude_phi longitude_lambda base_radius_R
  = yantra_core.calculate_yantra_dimensions
      lm latitude_phi longitude_lambda base_radius_R.
Proof.
  assert (Htime : forall l, yantra_report_app.calculate_time_offset l
                            = yantra_core.calculate_time_offset l)
    by reflexivity.
  unfold yantra_report_app.calculate_yantra_dimensions,
    yantra_core.calculate_yantra_dimensions.
  destruct (math.tan lm (math.radians latitude_phi)); cbn [bind];
    [|reflexivity].
  rewrite Htime. reflexivity.
Qed.

(** ** C7 *)

(** C7.  For every radius and every unit of the select box, unit
    resolution returns the radius times 0.02 and the symbol "m" when the
    unit is the Angula one, and otherwise the radius unchanged and the
    unit's own label; 500 Angula are 10.0 with the symbol "m". *)
Theorem C7_unit_resolution (R_input : float) (unit_name : string) :
  In unit_name yantra_web_app.units ->
  yantra_web_app.get_scale_factor R_input unit_name
  = Ok (if String.eqb unit_name "Angula (approx. 2cm)"
        then (R_input * 0.02, "m")
        else (R_input, unit_name)) /\
  yantra_web_app.get_scale_factor 500 "Angula (approx. 2cm)" = Ok (10, "m").
Proof.
  intros Hin. split; [|reflexivity].
  unfold yantra_web_app.units in Hin. cbn [In] in Hin.
  destruct Hin as [<-|[<-|[<-|[<-|[]]]]]; reflexivity.
Qed.

Lemma C7_witness :
  yantra_web_app.get_scale_factor 3 "feet" = Ok (3, "feet").
Proof.
  apply (C7_unit_resolution 3 "feet"). cbn. auto.
Defined.

(** The same for any label: one that contains "Angula" scales by 0.02. *)
Lemma get_scale_factor_traditional (R_input : float) (unit_name : string) :
  pystr.contains "Angula" unit_name = true ->
  yantra_web_app.get_scale_factor R_input unit_name = Ok (R_input * 0.02, "m").
Proof.
  intros H. unfold yantra_web_app.get_scale_factor. rewrite H. reflexivity.
Qed.

(** ** C8 *)

(** C8.  For every angle, [deg_to_dms] gives the text of its absolute
    value: the sign is lost.  For every angle below [2^1000] in magnitude
    it returns the degrees, which are the integer part of the magnitude and
    so not below zero, the minutes, which are the integer part of the rest
    times 60, and the seconds, which are what is left of that times 60,
    written with two decimals. *)
Theorem C8_deg_to_dms (deg : float) :
  yantra_web_app.deg_to_dms (Some deg)
  = yantra_web_app.deg_to_dms (Some (abs deg)) /\
  (fbnd 1000 deg ->
   exists d m,
     pyfloat.int (abs deg) = Ok d /\ (0 <= d)%Z /\
     pyfloat.int ((abs deg - pyfloat.of_dyadic d 0) * 60) = Ok m /\
     yantra_web_app.deg_to_dms (Some deg)
     = Ok (pyint.str d ++ degree_sign ++ " " ++ pyint.str m ++ "' "
           ++ pyfloat.format_f 2
                (((abs deg - pyfloat.of_dyadic d 0) * 60
                  - pyfloat.of_dyadic m 0) * 60)
           ++ dquote)%string).
Proof.
  split; [|apply deg_to_dms_ok].
  unfold yantra_web_app.deg_to_dms. rewrite abs_abs. reflexivity.
Qed.

Lemma C8_witness :
  yantra_web_app.deg_to_dms (Some (-26.9167))
  = yantra_web_app.deg_to_dms (Some 26.9167) /\
  exists text, yantra_web_app.deg_to_dms (Some (-26.9167)) = Ok text.
Proof.
  destruct (C8_deg_to_dms (-26.9167)) as [Hsign Hparts].
  split; [exact Hsign|].
  assert (Hb : fbnd 1000 (-26.9167)) by fbnd_closed.
  destruct (Hparts Hb) as (d & m & _ & _ & _ & Htext).
  eexists. exact Htext.
Defined.

(** ** C9 *)

Lemma cos_latitude_finite (lm : math.libm) (phi : float) :
  math.libm_ok lm -> is_finite phi = true ->
  math.cos lm (math.radians phi) = Ok (math.c_cos lm (math.radians phi)).
Proof.
  intros Hlm H. apply math_1_finite, (math.cos_finite lm Hlm).
  now apply radians_finite.
Qed.

Lemma sin_latitude_finite (lm : math.libm) (phi : float) :
  math.libm_ok lm -> is_finite phi = true ->
  math.sin lm (math.radians phi) = Ok (math.c_sin lm (math.radians phi)).
Proof.
  intros Hlm H. apply math_1_finite, (math.sin_finite lm Hlm).
  now apply radians_finite.
Qed.

Lemma get_scale_factor_returns (R_input : float) (unit_name : string) :
  In unit_name yantra_web_app.units ->
  exists scale symbol,
    yantra_web_app.get_scale_factor R_input unit_name = Ok (scale, symbol).
Proof.
  intros Hin. unfold yantra_web_app.units in Hin. cbn [In] in Hin.
  destruct Hin as [<-|[<-|[<-|[<-|[]]]]]; eexists; eexists; reflexivity.
Qed.

Lemma deg_to_dms_returns (deg : float) :
  fbnd 1000 deg -> exists text, yantra_web_app.deg_to_dms (Some deg) = Ok text.
Proof.
  intros H. destruct (deg_to_dms_ok deg H) as (d & m & _ & _ & _ & Ht). eauto.
Qed.

(** C9.  In the web variant, for every latitude between -90 and 90, every
    longitude between -180 and 180, every radius and every unit of the
    select box, [generate_yantra_data] returns a dictionary whose
    [samrat_base] is the effective radius times the cosine of the latitude
    in radians and whose [samrat_height] is the effective radius times its
    sine, each written with three decimals and the unit symbol.  This
    height is another length than the [samrat_height] of the text report,
    which is the radius times the tangent: at latitude 26.9167 and radius 10
    the first is 4.527 and the second 5.077. *)
Theorem C9_web_samrat (lm : math.libm) (lat_deg lon_deg R_input : float)
    (unit_name : string) :
  math.libm_ok lm ->
  (- 90 <=? lat_deg) && (lat_deg <=? 90) = true ->
  (- 180 <=? lon_deg) && (lon_deg <=? 180) = true ->
  In unit_name yantra_web_app.units ->
  (exists data scale symbol,
     yantra_web_app.get_scale_factor R_input unit_name = Ok (scale, symbol) /\
     yantra_web_app.generate_yantra_data lm lat_deg lon_deg R_input unit_name
     = Ok data /\
     yantra_web_app.samrat_base data
     = yantra_web_app.length_str
         (scale * math.c_cos lm (math.radians lat_deg)) symbol /\
     yantra_web_app.samrat_height data
     = yantra_web_app.length_str
         (scale * math.c_sin lm (math.radians lat_deg)) symbol) /\
  (exists web core,
     yantra_web_app.generate_yantra_data reflibm.lm 26.9167 75.8167 10 "meters"
     = Ok web /\
     yantra_core.calculate_yantra_dimensions reflibm.lm 26.9167 75.8167 10
     = Ok core /\
     yantra_web_app.samrat_height web = "4.527 meters" /\
     samrat_height core = "5.077").
Proof.
  intros Hlm Hlat Hlon Hunit. split.
  2:{ eexists. eexists. split; [vm_compute; reflexivity|].
      split; [vm_compute; reflexivity|]. split; reflexivity. }
  apply andb_true_iff in Hlat as [Hlat0 Hlat1].
  apply andb_true_iff in Hlon as [Hlon0 Hlon1].
  assert (Hblat : fbnd 7 lat_deg)
    by (apply (between_fbnd lat_deg 90 6333186975989760 (-46)); auto).
  assert (Hblon : fbnd 8 lon_deg)
    by (apply (between_fbnd lon_deg 180 6333186975989760 (-45)); auto).
  assert (Hflat : is_finite lat_deg = true) by (apply (fbnd_is_finite 7), Hblat).
  assert (Hcolat : fbnd 1000 (90 - lat_deg)).
  { apply (fbnd_mono (7 + 2)); [lia|].
    apply fbnd_sub; [fbnd_closed|exact Hblat|lia]. }
  destruct (get_scale_factor_returns R_input unit_name Hunit)
    as (scale & symbol & Hsf).
  destruct (deg_to_dms_returns lat_deg) as (tlat & Htlat);
    [apply (fbnd_mono 7); [lia|exact Hblat]|].
  destruct (deg_to_dms_returns lon_deg) as (tlon & Htlon);
    [apply (fbnd_mono 8); [lia|exact Hblon]|].
  destruct (deg_to_dms_returns (90 - lat_deg) Hcolat) as (tco & Htco).
  assert (H15 : math.tan lm (math.radians 15)
                = Ok (math.c_tan lm (math.radians 15)))
    by (apply math_1_finite, (math.tan_finite lm Hlm); reflexivity).
  assert (H45 : math.tan lm (math.radians 45)
                = Ok (math.c_tan lm (math.radians 45)))
    by (apply math_1_finite, (math.tan_finite lm Hlm); reflexivity).
  unfold yantra_web_app.generate_yantra_data. cbv zeta.
  rewrite Hsf. cbn [bind].
  rewrite (tan_latitude_finite lm lat_deg Hlm Hflat). cbn [bind].
  rewrite (cos_latitude_finite lm lat_deg Hlm Hflat). cbn [bind].
  rewrite (sin_latitude_finite lm lat_deg Hlm Hflat). cbn [bind].
  rewrite Htlat. cbn [bind]. rewrite Htlon. cbn [bind].
  rewrite Htco. cbn [bind]. rewrite H15. cbn [bind]. rewrite H45. cbn [bind].
  eexists. exists scale, symbol. split; [reflexivity|].
  split; [reflexivity|]. split; reflexivity.
Qed.

Lemma C9_witness :
  exists data,
    yantra_web_app.generate_yantra_data reflibm.lm 26.91 75.82 3 "meters"
    = Ok data.
Proof.
  destruct (C9_web_samrat reflibm.lm 26.91 75.82 3 "meters" reflibm_ok
              eq_refl eq_refl)
    as [(data & scale & symbol & _ & H & _) _].
  - cbn. auto.
  - exists data. exact H.
Defined.

(** ** C6 *)

Lemma tan_latitude_not_infinite (lm : math.libm) (phi : float) :
  math.libm_ok lm -> is_infinity phi = false ->
  math.tan lm (math.radians phi) = Ok (math.c_tan lm (math.radians phi)).
Proof.
  intros Hlm H. destruct (is_finite phi) eqn:Hf.
  - now apply tan_latitude_finite.
  - destruct (not_finite_cases phi Hf) as [->|[->| ->]].
    + now apply tan_latitude_nan.
    + discriminate H.
    + discriminate H.
Qed.

(** The calculator returns whenever the tangent and the time offset do. *)
Lemma calculate_yantra_dimensions_returns (lm : math.libm)
    (phi lambda R : float) :
  math.libm_ok lm -> is_infinity phi = false -> fbnd 900 lambda ->
  exists data, yantra_core.calculate_yantra_dimensions lm phi lambda R = Ok data.
Proof.
  intros Hlm Hphi Hbl.
  destruct (calculate_time_offset_ok lambda Hbl) as (text & Htm).
  unfold yantra_core.calculate_yantra_dimensions. cbv zeta.
  rewrite (tan_latitude_not_infinite lm phi Hlm Hphi). cbn [bind].
  rewrite Htm. cbn [bind]. eexists. reflexivity.
Qed.

Lemma in_range_not_infinite (x c : float) (mc : positive) (ec : Z) :
  Prim2SF c = S754_finite false mc ec ->
  (0 <=? x) && (x <=? c) = true -> is_infinity x = false /\ fbnd (53 + ec) x.
Proof.
  intros Hc H. apply andb_true_iff in H as [H0 H1].
  assert (Hb : fbnd (53 + ec) x) by (apply (leb_fbnd x c mc ec); auto).
  split; [|exact Hb].
  pose proof (fbnd_is_finite _ _ Hb) as Hf. unfold is_finite in Hf.
  destruct (is_infinity x); [|reflexivity].
  rewrite orb_true_r in Hf. discriminate Hf.
Qed.

Lemma validated_input_returns (lm : math.libm) (phi lambda R : float) :
  math.libm_ok lm ->
  (0 <=? phi) && (phi <=? 90) = true ->
  (0 <=? lambda) && (lambda <=? 180) = true ->
  exists data, yantra_core.calculate_yantra_dimensions lm phi lambda R = Ok data.
Proof.
  intros Hlm Hphi Hlambda.
  destruct (in_range_not_infinite phi 90 6333186975989760 (-46) eq_refl Hphi)
    as [Hinf _].
  destruct (in_range_not_infinite lambda 180 6333186975989760 (-45) eq_refl
              Hlambda) as [_ Hbl].
  apply calculate_yantra_dimensions_returns; auto.
  apply (fbnd_mono (53 + -45)); [lia|exact Hbl].
Qed.

(** The literal reading fails in both directions: a NaN latitude and an
    infinite radius are calculated with, and a finite longitude can make
    the calculator raise. *)
Lemma C6_counterexample :
  ~ (forall phi lambda R : float,
       succeeds (yantra_core.calculate_yantra_dimensions reflibm.lm phi lambda R)
       = false
       <-> is_finite phi && is_finite lambda && is_finite R = false).
Proof.
  intros H. destruct (H nan 75.8167 10) as [_ Hnan].
  assert (Hs : succeeds
                 (yantra_core.calculate_yantra_dimensions
                    reflibm.lm nan 75.8167 10) = true)
    by (vm_compute; reflexivity).
  rewrite Hs in Hnan. discriminate (Hnan eq_refl).
Qed.

(** The calculator raises what the time offset raises. *)
Lemma calculate_yantra_dimensions_raises (lm : math.libm)
    (phi lambda R : float) (e : exn) :
  math.libm_ok lm -> is_infinity phi = false ->
  yantra_core.calculate_time_offset lambda = Raise e ->
  yantra_core.calculate_yantra_dimensions lm phi lambda R = Raise e.
Proof.
  intros Hlm Hphi He.
  unfold yantra_core.calculate_yantra_dimensions. cbv zeta.
  rewrite (tan_latitude_not_infinite lm phi Hlm Hphi). cbn [bind].
  rewrite He. reflexivity.
Qed.

Lemma calculate_yantra_dimensions_domain_error (lm : math.libm)
    (phi lambda R : float) :
  math.libm_ok lm -> is_infinity phi = true ->
  yantra_core.calculate_yantra_dimensions lm phi lambda R
  = Raise (ValueError "math domain error").
Proof.
  intros Hlm Hphi.
  unfold yantra_core.calculate_yantra_dimensions. cbv zeta.
  rewrite (tan_latitude_infinite lm phi Hlm Hphi). reflexivity.
Qed.

(** The other cases of the same reading. *)
Example calculator_failures :
  succeeds (yantra_core.calculate_yantra_dimensions
              reflibm.lm 26.9167 75.8167 infinity) = true /\
  succeeds (yantra_core.calculate_yantra_dimensions
              reflibm.lm 26.9167 75.8167 nan) = true /\
  is_finite 1e308 = true /\
  yantra_core.calculate_yantra_dimensions reflibm.lm 26.9167 1e308 10
  = Raise (ValueError "cannot convert float NaN to integer") /\
  yantra_core.calculate_yantra_dimensions reflibm.lm infinity 75.8167 10
  = Raise (ValueError "math domain error").
Proof.
  split; [vm_compute; reflexivity|]. split; [vm_compute; reflexivity|].
  split; [reflexivity|]. split.
  - apply calculate_yantra_dimensions_raises;
      [exact reflibm_ok|reflexivity|vm_compute; reflexivity].
  - apply calculate_yantra_dimensions_domain_error;
      [exact reflibm_ok|reflexivity].
Qed.

(** The run of the command-line program never ends in an exception that
    nothing catches. *)
Lemma main_never_uncaught (lm : math.libm)
    (lat_text lon_text radius_text : string) :
  math.libm_ok lm ->
  (exists msg, yantra_app.main lm lat_text lon_text radius_text = Aborted msg)
  \/ (exists data,
        yantra_app.main lm lat_text lon_text radius_text = Report data).
Proof.
  intros Hlm.
  destruct (yantra_app.read_inputs lat_text lon_text radius_text)
    as [[[phi lambda] R]|e] eqn:E.
  - right. pose proof E as E'.
    apply read_inputs_accepts in E as (_ & _ & _ & Hphi & Hl & _).
    destruct (validated_input_returns lm phi lambda R Hlm Hphi Hl)
      as (data & Hd).
    exists data. unfold yantra_app.main. rewrite E', Hd. reflexivity.
  - left. now apply (rejected_input_aborts lm _ _ _ e).
Qed.

(** C6, as the code has it.  With a C library that follows the C
    standard, the calculator raises [ValueError "math domain error"] when
    the latitude is infinite; for any other latitude, NaN too, it raises
    [ValueError "cannot convert float NaN to integer"] when the longitude
    is infinite or NaN and returns when the longitude is below [2^900] in
    magnitude, whatever the radius is.  So it returns for every validated
    input.  The handler of the web page turns a failure into a message and
    leaves the session as it was, and the command-line program ends with a
    report or with the message of a rejected input. *)
Theorem C6_calculator_failures (lm : math.libm) (phi lambda R : float) :
  math.libm_ok lm ->
  (is_infinity phi = true ->
   yantra_core.calculate_yantra_dimensions lm phi lambda R
   = Raise (ValueError "math domain error")) /\
  (is_infinity phi = false -> is_finite lambda = false ->
   yantra_core.calculate_yantra_dimensions lm phi lambda R
   = Raise (ValueError "cannot convert float NaN to integer")) /\
  (is_infinity phi = false -> fbnd 900 lambda ->
   succeeds (yantra_core.calculate_yantra_dimensions lm phi lambda R) = true) /\
  ((0 <=? phi) && (phi <=? 90) = true ->
   (0 <=? lambda) && (lambda <=? 180) = true ->
   succeeds (yantra_core.calculate_yantra_dimensions lm phi lambda R) = true) /\
  (forall session unit_name e,
     yantra_web_app.generate_yantra_data lm phi lambda R unit_name = Raise e ->
     yantra_web_app.on_generate lm session phi lambda R unit_name
     = (session, ("Error during calculation: "
                  ++ yantra_web_app.exn_message e)%string)) /\
  (forall lat_text lon_text radius_text e,
     yantra_app.main lm lat_text lon_text radius_text <> Uncaught e).
Proof.
  intros Hlm. split; [|split; [|split; [|split; [|split]]]].
  - now apply calculate_yantra_dimensions_domain_error.
  - intros Hphi Hl. apply calculate_yantra_dimensions_raises; auto.
    now apply calculate_time_offset_not_finite.
  - intros Hphi Hl.
    destruct (calculate_yantra_dimensions_returns lm phi lambda R Hlm Hphi Hl)
      as (data & ->). reflexivity.
  - intros Hphi Hl.
    destruct (validated_input_returns lm phi lambda R Hlm Hphi Hl)
      as (data & ->). reflexivity.
  - intros session unit_name e He. unfold yantra_web_app.on_generate.
    rewrite He. reflexivity.
  - intros lat_text lon_text radius_text e.
    destruct (main_never_uncaught lm lat_text lon_text radius_text Hlm)
      as [(msg & ->)|(data & ->)]; discriminate.
Qed.

Lemma C6_witness :
  succeeds (yantra_core.calculate_yantra_dimensions
              reflibm.lm 26.9167 75.8167 10) = true /\
  yantra_core.calculate_yantra_dimensions reflibm.lm infinity 75.8167 10
  = Raise (ValueError "math domain error") /\
  yantra_core.calculate_yantra_dimensions reflibm.lm nan infinity 10
  = Raise (ValueError "cannot convert float NaN to integer").
Proof.
  split; [|split].
  - destruct (C6_calculator_failures reflibm.lm 26.9167 75.8167 10 reflibm_ok)
      as (_ & _ & _ & H & _).
    exact (H eq_refl eq_refl).
  - destruct (C6_calculator_failures reflibm.lm infinity 75.8167 10 reflibm_ok)
      as (H & _).
    exact (H eq_refl).
  - destruct (C6_calculator_failures reflibm.lm nan infinity 10 reflibm_ok)
      as (_ & H & _).
    exact (H eq_refl eq_refl).
Defined.

(** ** C5 *)

(** The two zenith distances of a latitude: their magnitudes, the distance
    of their printed numbers and the distance of each from the number
    that exact arithmetic gives. *)
Lemma zenith_distances (phi : float) :
  (- 90 <=? phi) = true -> (phi <=? 90) = true ->
  let ZD_ws := (90 - phi) + 23.44 in
  let ZD_ss := (90 - phi) - 23.44 in
  fbnd 11 ZD_ws /\ fbnd 11 ZD_ss /\
  (Z.abs (printed 3 ZD_ws - printed 3 ZD_ss - 46880) <= 1)%Z /\
  (Z.abs (2 * (printed 3 ZD_ws * one_exact)
          - 2 * (1000 * (90 * one_exact - exact phi) + 23440 * one_exact))
   <= one_exact + 2 ^ 1046)%Z /\
  (Z.abs (2 * (printed 3 ZD_ss * one_exact)
          - 2 * (1000 * (90 * one_exact - exact phi) - 23440 * one_exact))
   <= one_exact + 2 ^ 1046)%Z.
Proof.
  intros Hlo Hhi ZD_ws ZD_ss.
  assert (Hphi : fbnd 7 phi)
    by (apply (between_fbnd phi 90 6333186975989760 (-46)); auto).
  assert (H90 : fbnd 7 90) by fbnd_closed.
  assert (Hc : fbnd 9 23.44) by fbnd_closed.
  assert (Ha : fbnd 9 (90 - phi)) by (apply (fbnd_sub 7); auto; lia).
  assert (Hws : fbnd 11 ZD_ws) by (apply (fbnd_add 9); auto; lia).
  assert (Hss : fbnd 11 ZD_ss) by (apply (fbnd_sub 9); auto; lia).
  split; [exact Hws|]. split; [exact Hss|].
  pose proof (exact_sub 7 90 phi H90 Hphi ltac:(lia)) as Ea.
  pose proof (exact_add 9 (90 - phi) 23.44 Ha Hc ltac:(lia)) as Ew.
  pose proof (exact_sub 9 (90 - phi) 23.44 Ha Hc ltac:(lia)) as Es.
  pose proof (printed_err 3 ZD_ws) as Pw.
  pose proof (printed_err 3 ZD_ss) as Ps.
  fold ZD_ws in Ew. fold ZD_ss in Es.
  change (10 ^ Z.of_nat 3)%Z with 1000%Z in Pw, Ps.
  assert (E9 : (2 ^ (fexp prec emax (7 + 2) + 1074) = 16 * 2 ^ 1026)%Z)
    by (vm_compute; reflexivity).
  assert (E11 : (2 ^ (fexp prec emax (9 + 2) + 1074) = 64 * 2 ^ 1026)%Z)
    by (vm_compute; reflexivity).
  assert (E46 : (2 ^ 1046 = 1048576 * 2 ^ 1026)%Z) by (vm_compute; reflexivity).
  assert (E1 : (one_exact = 281474976710656 * 2 ^ 1026)%Z)
    by (vm_compute; reflexivity).
  assert (Ec : (exact 23.44 = 6597773454097777 * 2 ^ 1026)%Z)
    by (vm_compute; reflexivity).
  assert (E90 : (exact 90 = 25332747903959040 * 2 ^ 1026)%Z)
    by (vm_compute; reflexivity).
  assert (HT : (0 < 2 ^ 1026)%Z) by (apply pow2_pos; lia).
  rewrite E9 in Ea. rewrite E11 in Ew, Es. rewrite Ec in Ew, Es.
  rewrite E90 in Ea. rewrite E1 in Pw, Ps. rewrite E1, E46.
  clear E9 E11 E46 E1 Ec E90.
  set (T := (2 ^ 1026)%Z) in *. clearbody T.
  set (W := printed 3 ZD_ws) in *. set (S := printed 3 ZD_ss) in *.
  set (ew := exact ZD_ws) in *. set (es := exact ZD_ss) in *.
  set (ea := exact (90 - phi)) in *. set (ep := exact phi) in *.
  clearbody W S ew es ea ep.
  split; [|split; lia].
  assert (Hm : (Z.abs (T * (562949953421312 * (W - S - 46880)))
                <= T * (562949953421312 + 260000))%Z) by lia.
  rewrite Z.abs_mul, (Z.abs_eq T) in Hm by lia.
  apply Z.mul_le_mono_pos_l in Hm; lia.
Qed.

(** C5.  For every latitude (between -90 and 90) and every longitude
    (between -180 and 180) the calculator returns [rasivalaya_zd_ws], the
    float [(90 - phi) + 23.44] written with three decimals, and
    [rasivalaya_zd_ss], the float [(90 - phi) - 23.44] written with three
    decimals.  Each printed number is within half a thousandth (and
    [2^-28] of a thousandth) of what exact arithmetic gives, and the
    difference of the two printed numbers is 46.880 up to one thousandth,
    whatever the latitude. *)
Theorem C5_rasivalaya_difference (lm : math.libm) (phi lambda R : float) :
  math.libm_ok lm ->
  (- 90 <=? phi) && (phi <=? 90) = true ->
  (- 180 <=? lambda) && (lambda <=? 180) = true ->
  let ZD_ws := (90 - phi) + 23.44 in
  let ZD_ss := (90 - phi) - 23.44 in
  exists data,
    yantra_core.calculate_yantra_dimensions lm phi lambda R = Ok data /\
    rasivalaya_zd_ws data = (pyfloat.format_f 3 ZD_ws ++ degree_sign)%string /\
    rasivalaya_zd_ss data = (pyfloat.format_f 3 ZD_ss ++ degree_sign)%string /\
    pyfloat.format_f 3 ZD_ws
    = (pyfloat.sign_str (signbit ZD_ws)
       ++ pyfloat.fixed 3 (Z.abs (printed 3 ZD_ws)))%string /\
    pyfloat.format_f 3 ZD_ss
    = (pyfloat.sign_str (signbit ZD_ss)
       ++ pyfloat.fixed 3 (Z.abs (printed 3 ZD_ss)))%string /\
    (Z.abs (printed 3 ZD_ws - printed 3 ZD_ss - 46880) <= 1)%Z /\
    (Z.abs (2 * (printed 3 ZD_ws * one_exact)
            - 2 * (1000 * (90 * one_exact - exact phi) + 23440 * one_exact))
     <= one_exact + 2 ^ 1046)%Z /\
    (Z.abs (2 * (printed 3 ZD_ss * one_exact)
            - 2 * (1000 * (90 * one_exact - exact phi) - 23440 * one_exact))
     <= one_exact + 2 ^ 1046)%Z.
Proof.
  intros Hlm Hphi Hlambda ZD_ws ZD_ss.
  apply andb_true_iff in Hphi as [Hlo Hhi].
  apply andb_true_iff in Hlambda as [Hl0 Hl1].
  destruct (zenith_distances phi Hlo Hhi) as (Hws & Hss & Hdiff & Haw & Has).
  fold ZD_ws in Hws, Hdiff, Haw. fold ZD_ss in Hss, Hdiff, Has.
  assert (Hfphi : is_finite phi = true).
  { apply (fbnd_is_finite (53 + -46)).
    apply (between_fbnd phi 90 6333186975989760 (-46)); auto. }
  assert (Hbl : fbnd 900 lambda).
  { apply (fbnd_mono (53 + -45)); [lia|].
    apply (between_fbnd lambda 180 6333186975989760 (-45)); auto. }
  destruct (calculate_time_offset_ok lambda Hbl) as (text & Htm).
  unfold yantra_core.calculate_yantra_dimensions. cbv zeta.
  rewrite (tan_latitude_finite lm phi Hlm Hfphi). cbn [bind].
  rewrite Htm. cbn [bind].
  eexists. split; [reflexivity|].
  split; [reflexivity|]. split; [reflexivity|].
  split; [apply format_f_printed, (fbnd_is_finite 11), Hws|].
  split; [apply format_f_printed, (fbnd_is_finite 11), Hss|].
  auto.
Qed.

Lemma C5_witness :
  exists data,
    yantra_core.calculate_yantra_dimensions reflibm.lm 26.9167 75.8167 10
    = Ok data /\
    rasivalaya_zd_ws data = ("86.523" ++ degree_sign)%string /\
    rasivalaya_zd_ss data = ("39.643" ++ degree_sign)%string /\
    (Z.abs (printed 3 ((90 - 26.9167) + 23.44)
            - printed 3 ((90 - 26.9167) - 23.44) - 46880) <= 1)%Z.
Proof.
  destruct (C5_rasivalaya_difference reflibm.lm 26.9167 75.8167 10 reflibm_ok
              eq_refl eq_refl)
    as (data & Hd & Hws & Hss & _ & _ & Hdiff & _).
  exists data. split; [exact Hd|].
  split; [rewrite Hws; reflexivity|].
  split; [rewrite Hss; reflexivity|exact Hdiff].
Defined.

(** Outside the latitudes the floats are too coarse: at [phi = 1e17] the
    two printed numbers are 32 apart. *)
Example zenith_distances_far :
  (printed 3 ((90 - 1e17) + 23.44) - printed 3 ((90 - 1e17) - 23.44)
   = 32000)%Z.
Proof. vm_compute. reflexivity. Qed.

End Claims.

(** * Further properties of the calculators *)

Section Extras.

Local Open Scope float_scope.

Ltac fbnd_closed :=
  unfold fbnd; vm_compute; first [exact I | let H := fresh in intro H; discriminate H].

(** ** Texts *)

Lemma append_assoc (a b c : string) : ((a ++ b) ++ c = a ++ (b ++ c))%string.
Proof. induction a as [|x a IH]; cbn; [reflexivity|now rewrite IH]. Qed.


(** ** The printed angles of the text report *)

(** The printed latitude and the printed colatitude add up to 90. *)
Lemma complement_printed (phi : float) :
  (- 90 <=? phi) = true -> (phi <=? 90) = true ->
  fbnd 9 (90 - phi) /\
  (Z.abs (printed 3 phi + printed 3 (90 - phi) - 90000) <= 1)%Z /\
  (Z.abs (2 * (printed 3 (90 - phi) * one_exact)
          - 2 * (1000 * (90 * one_exact - exact phi)))
   <= one_exact + 2 ^ 1046)%Z.
Proof.
  intros Hlo Hhi.
  assert (Hphi : fbnd 7 phi)
    by (apply (between_fbnd phi 90 6333186975989760 (-46)); auto).
  assert (H90 : fbnd 7 90) by fbnd_closed.
  assert (Ha : fbnd 9 (90 - phi)) by (apply (fbnd_sub 7); auto; lia).
  split; [exact Ha|].
  pose proof (exact_sub 7 90 phi H90 Hphi ltac:(lia)) as Ea.
  pose proof (printed_err 3 phi) as Pp.
  pose proof (printed_err 3 (90 - phi)) as Pa.
  change (10 ^ Z.of_nat 3)%Z with 1000%Z in Pp, Pa.
  assert (E9 : (2 ^ (fexp prec emax (7 + 2) + 1074) = 16 * 2 ^ 1026)%Z)
    by (vm_compute; reflexivity).
  assert (E46 : (2 ^ 1046 = 1048576 * 2 ^ 1026)%Z) by (vm_compute; reflexivity).
  assert (E1 : (one_exact = 281474976710656 * 2 ^ 1026)%Z)
    by (vm_compute; reflexivity).
  assert (E90 : (exact 90 = 25332747903959040 * 2 ^ 1026)%Z)
    by (vm_compute; reflexivity).
  assert (HT : (0 < 2 ^ 1026)%Z) by (apply pow2_pos; lia).
  rewrite E9, E90 in Ea. rewrite E1 in Pp, Pa. rewrite E1, E46.
  clear E9 E46 E1 E90.
  set (T := (2 ^ 1026)%Z) in *. clearbody T.
  set (P := printed 3 phi) in *. set (Q := printed 3 (90 - phi)) in *.
  set (ea := exact (90 - phi)) in *. set (ep := exact phi) in *.
  clearbody P Q ea ep.
  split; [|lia].
  assert (Hm : (Z.abs (T * (562949953421312 * (P + Q - 90000)))
                <= T * (562949953421312 + 40000))%Z) by lia.
  rewrite Z.abs_mul, (Z.abs_eq T) in Hm by lia.
  apply Z.mul_le_mono_pos_l in Hm; lia.
Qed.

(** X1.  For every validated input the gnomon angle and the disc tilt that
    the text report prints are complementary: the two printed numbers add
    up to 90.000, one thousandth more or less. *)
Theorem X1_angle_and_tilt_add_up_to_90 (lm : math.libm)
    (phi lambda R : float) :
  math.libm_ok lm ->
  (0 <=? phi) && (phi <=? 90) = true ->
  (0 <=? lambda) && (lambda <=? 180) = true ->
  exists data,
    yantra_core.calculate_yantra_dimensions lm phi lambda R = Ok data /\
    samrat_angle data
    = (pyfloat.sign_str (signbit phi)
       ++ pyfloat.fixed 3 (Z.abs (printed 3 phi)) ++ degree_sign)%string /\
    nadivalaya_tilt data
    = (pyfloat.sign_str (signbit (90 - phi))
       ++ pyfloat.fixed 3 (Z.abs (printed 3 (90 - phi)))
       ++ degree_sign)%string /\
    (Z.abs (printed 3 phi + printed 3 (90 - phi) - 90000) <= 1)%Z.
Proof.
  intros Hlm Hphi Hlambda.
  destruct (in_range_not_infinite phi 90 6333186975989760 (-46) eq_refl Hphi)
    as [_ Hbphi].
  destruct (in_range_not_infinite lambda 180 6333186975989760 (-45) eq_refl
              Hlambda) as [_ Hbl].
  apply andb_true_iff in Hphi as [Hlo Hhi].
  assert (Hlo' : (- 90 <=? phi) = true).
  { revert Hlo. rewrite !leb_spec. rewrite Prim2SF_zero.
    assert (E : Prim2SF (- 90) = S754_finite true 6333186975989760 (-46))
      by reflexivity.
    rewrite E. unfold SFleb.
    destruct (Prim2SF phi) as [s|s| |s m e]; cbn [SFcompare];
      try destruct s; try discriminate; reflexivity. }
  destruct (complement_printed phi Hlo' Hhi) as (Ha & Hsum & _).
  assert (Hfphi : is_finite phi = true) by (apply (fbnd_is_finite _ _ Hbphi)).
  destruct (calculate_time_offset_ok lambda) as (text & Htm);
    [apply (fbnd_mono (53 + -45)); [lia|exact Hbl]|].
  unfold yantra_core.calculate_yantra_dimensions. cbv zeta.
  rewrite (tan_latitude_finite lm phi Hlm Hfphi). cbn [bind].
  rewrite Htm. cbn [bind].
  eexists. split; [reflexivity|]. cbn [samrat_angle nadivalaya_tilt].
  rewrite (format_f_printed 3 phi Hfphi).
  rewrite (format_f_printed 3 (90 - phi) (fbnd_is_finite _ _ Ha)).
  rewrite !append_assoc.
  split; [reflexivity|]. split; [reflexivity|exact Hsum].
Qed.

Lemma X1_witness :
  exists data,
    yantra_core.calculate_yantra_dimensions reflibm.lm 26.9167 75.8167 10
    = Ok data /\
    (Z.abs (printed 3 26.9167 + printed 3 (90 - 26.9167) - 90000) <= 1)%Z.
Proof.
  destruct (X1_angle_and_tilt_add_up_to_90 reflibm.lm 26.9167 75.8167 10
              reflibm_ok eq_refl eq_refl) as (data & Hd & _ & _ & Hsum).
  exists data. split; [exact Hd|exact Hsum].
Defined.

Lemma leb_neg_of_nonneg (x c : float) (mc : positive) (ec : Z) :
  Prim2SF (- c) = S754_finite true mc ec ->
  (0 <=? x) = true -> (- c <=? x) = true.
Proof.
  intros E. rewrite !leb_spec, Prim2SF_zero, E. unfold SFleb.
  destruct (Prim2SF x) as [s|s| |s m e]; cbn [SFcompare];
    try destruct s; try discriminate; reflexivity.
Qed.

(** X2.  For every validated input the disc tilt that the text report
    prints lies midway between the two zenith distances it prints: the
    winter one is 23.440 above it and the summer one 23.440 below it, one
    thousandth more or less. *)
Theorem X2_tilt_between_zenith_distances (lm : math.libm)
    (phi lambda R : float) :
  math.libm_ok lm ->
  (0 <=? phi) && (phi <=? 90) = true ->
  (0 <=? lambda) && (lambda <=? 180) = true ->
  let tilt := 90 - phi in
  let ZD_ws := (90 - phi) + 23.44 in
  let ZD_ss := (90 - phi) - 23.44 in
  exists data,
    yantra_core.calculate_yantra_dimensions lm phi lambda R = Ok data /\
    nadivalaya_tilt data
    = (pyfloat.sign_str (signbit tilt)
       ++ pyfloat.fixed 3 (Z.abs (printed 3 tilt)) ++ degree_sign)%string /\
    rasivalaya_zd_ws data
    = (pyfloat.sign_str (signbit ZD_ws)
       ++ pyfloat.fixed 3 (Z.abs (printed 3 ZD_ws)) ++ degree_sign)%string /\
    rasivalaya_zd_ss data
    = (pyfloat.sign_str (signbit ZD_ss)
       ++ pyfloat.fixed 3 (Z.abs (printed 3 ZD_ss)) ++ degree_sign)%string /\
    (Z.abs (printed 3 ZD_ws - printed 3 tilt - 23440) <= 1)%Z /\
    (Z.abs (printed 3 tilt - printed 3 ZD_ss - 23440) <= 1)%Z.
Proof.
  intros Hlm Hphi Hlambda tilt ZD_ws ZD_ss. subst tilt ZD_ws ZD_ss.
  destruct (in_range_not_infinite phi 90 6333186975989760 (-46) eq_refl Hphi)
    as [_ Hbphi].
  destruct (in_range_not_infinite lambda 180 6333186975989760 (-45) eq_refl
              Hlambda) as [_ Hbl].
  apply andb_true_iff in Hphi as [Hlo Hhi].
  pose proof (leb_neg_of_nonneg phi 90 _ _ eq_refl Hlo) as Hlo'.
  destruct (complement_printed phi Hlo' Hhi) as (Ha & _ & Hq).
  destruct (zenith_distances phi Hlo' Hhi) as (Hws & Hss & _ & Hw & Hs).
  cbv zeta in Hws, Hss, Hw, Hs.
  assert (Hfphi : is_finite phi = true) by (apply (fbnd_is_finite _ _ Hbphi)).
  destruct (calculate_time_offset_ok lambda) as (text & Htm);
    [apply (fbnd_mono (53 + -45)); [lia|exact Hbl]|].
  unfold yantra_core.calculate_yantra_dimensions. cbv zeta.
  rewrite (tan_latitude_finite lm phi Hlm Hfphi). cbn [bind].
  rewrite Htm. cbn [bind].
  eexists. split; [reflexivity|].
  cbn [nadivalaya_tilt rasivalaya_zd_ws rasivalaya_zd_ss].
  unfold yantra_core.OBLIQUITY_ECLIPTIC.
  rewrite (format_f_printed 3 (90 - phi) (fbnd_is_finite _ _ Ha)).
  rewrite (format_f_printed 3 (90 - phi + 23.44) (fbnd_is_finite _ _ Hws)).
  rewrite (format_f_printed 3 (90 - phi - 23.44) (fbnd_is_finite _ _ Hss)).
  rewrite !append_assoc.
  split; [reflexivity|]. split; [reflexivity|]. split; [reflexivity|].
  assert (E46 : (2 ^ 1046 = 1048576 * 2 ^ 1026)%Z) by (vm_compute; reflexivity).
  assert (E1 : (one_exact = 281474976710656 * 2 ^ 1026)%Z)
    by (vm_compute; reflexivity).
  assert (HT : (0 < 2 ^ 1026)%Z) by (apply pow2_pos; lia).
  rewrite E1, E46 in Hq, Hw, Hs. clear E1 E46.
  set (T := (2 ^ 1026)%Z) in *. clearbody T.
  set (Q := printed 3 (90 - phi)) in *.
  set (W := printed 3 (90 - phi + 23.44)) in *.
  set (S := printed 3 (90 - phi - 23.44)) in *. set (ep := exact phi) in *.
  clearbody Q W S ep.
  assert (Hm1 : (Z.abs (T * (562949953421312 * (W - Q - 23440)))
                 <= T * (562949953421312 + 3000000))%Z) by lia.
  assert (Hm2 : (Z.abs (T * (562949953421312 * (Q - S - 23440)))
                 <= T * (562949953421312 + 3000000))%Z) by lia.
  rewrite Z.abs_mul, (Z.abs_eq T) in Hm1, Hm2 by lia.
  apply Z.mul_le_mono_pos_l in Hm1; [|lia].
  apply Z.mul_le_mono_pos_l in Hm2; [|lia]. lia.
Qed.

Lemma X2_witness :
  (Z.abs (printed 3 ((90 - 26.9167) + 23.44) - printed 3 (90 - 26.9167)
          - 23440) <= 1)%Z /\
  (Z.abs (printed 3 (90 - 26.9167) - printed 3 ((90 - 26.9167) - 23.44)
          - 23440) <= 1)%Z.
Proof.
  destruct (X2_tilt_between_zenith_distances reflibm.lm 26.9167 75.8167 10
              reflibm_ok eq_refl eq_refl)
    as (data & _ & _ & _ & _ & Hw & Hs).
  split; [exact Hw|exact Hs].
Defined.

(** ** White space around the answers *)







(** ** The order of the checks of [main] *)



(** ** The unit symbol *)

Lemma lstrip_blank (l : list ascii) :
  forallb pystr.is_space l = true <-> pystr.lstrip l = [].
Proof.
  induction l as [|c l IH]; cbn [forallb pystr.lstrip]; [tauto|].
  destruct (pystr.is_space c); cbn [andb]; [exact IH|].
  split; discriminate.
Qed.

Lemma lstrip_head (l : list ascii) (c : ascii) (l' : list ascii) :
  pystr.lstrip l = c :: l' -> pystr.is_space c = false.
Proof.
  induction l as [|x l IH]; cbn [pystr.lstrip]; [discriminate|].
  destruct (pystr.is_space x) eqn:E; [exact IH|].
  intros H; injection H as <- _. exact E.
Qed.

Lemma blank_has_no_angula (l : list ascii) :
  forallb pystr.is_space l = true ->
  pystr.contains_chars (list_ascii_of_string "Angula") l = false.
Proof.
  induction l as [|c l IH]; [reflexivity|].
  cbn [forallb]. intros H. apply andb_true_iff in H as [Hc Hl].
  cbn [pystr.contains_chars]. rewrite (IH Hl), orb_false_r.
  unfold pystr.is_prefix.
  destruct (List.length (list_ascii_of_string "Angula")
            <=? List.length (c :: l))%nat; [|reflexivity].
  cbn [andb]. apply String.eqb_neq. cbn. intros H. injection H as H _.
  rewrite H in Hc. discriminate Hc.
Qed.

(** X5.  For a unit name without "Angula" the symbol is the first word of
    the name: the name without its leading white space, up to the next
    white space.  A name that is empty or all white space has no first word
    and [get_scale_factor] raises IndexError. *)
Theorem X5_symbol_is_first_word (R_input : float) (unit_name : string) :
  pystr.contains "Angula" unit_name = false ->
  if blank unit_name
  then yantra_web_app.get_scale_factor R_input unit_name
       = Raise (IndexError "list index out of range")
  else exists word rest,
      yantra_web_app.get_scale_factor R_input unit_name
      = Ok (R_input, string_of_list_ascii word) /\
      pystr.lstrip (list_ascii_of_string unit_name) = (word ++ rest)%list /\
      word <> [] /\
      forallb (fun c => negb (pystr.is_space c)) word = true /\
      match rest with
      | [] => True
      | c :: _ => pystr.is_space c = true
      end.
Proof.
  intros Hc. unfold yantra_web_app.get_scale_factor. rewrite Hc.
  unfold pystr.first_word, blank.
  destruct (pystr.lstrip (list_ascii_of_string unit_name)) as [|c l] eqn:E.
  - apply lstrip_blank in E. rewrite E. reflexivity.
  - destruct (forallb pystr.is_space (list_ascii_of_string unit_name)) eqn:B.
    { apply lstrip_blank in B. congruence. }
    pose proof (lstrip_head _ _ _ E) as Hhead.
    set (word := fix word (l : list ascii) : list ascii :=
                   match l with
                   | [] => []
                   | c :: l' => if pystr.is_space c then [] else c :: word l'
                   end).
    assert (Hword : forall l, exists rest,
               l = (word l ++ rest)%list /\
               forallb (fun c => negb (pystr.is_space c)) (word l) = true /\
               match rest with
               | [] => True
               | c :: _ => pystr.is_space c = true
               end).
    { induction l0 as [|x l0 IH]; [exists []; cbn; auto|].
      cbn [word]. destruct (pystr.is_space x) eqn:Ex.
      - exists (x :: l0). cbn. auto.
      - destruct IH as (rest & H1 & H2 & H3). exists rest.
        cbn [app forallb]. rewrite Ex, H2. cbn [negb andb].
        split; [congruence|auto]. }
    destruct (Hword (c :: l)) as (rest & H1 & H2 & H3).
    exists (word (c :: l)), rest. cbn [bind].
    split; [reflexivity|]. split; [exact H1|]. split; [|auto].
    cbn [word]. rewrite Hhead. discriminate.
Qed.

Lemma X5_witness :
  yantra_web_app.get_scale_factor 3 "  "
  = Raise (IndexError "list index out of range") /\
  exists word,
    yantra_web_app.get_scale_factor 3 " nautical miles"
    = Ok (3, string_of_list_ascii word).
Proof.
  split.
  - exact (X5_symbol_is_first_word 3 "  " eq_refl).
  - destruct (X5_symbol_is_first_word 3 " nautical miles" eq_refl)
      as (word & rest & H & _).
    exists word. exact H.
Defined.

(** X6.  When the unit name is empty or all white space
    [generate_yantra_data] raises IndexError whatever the numbers are, an
    infinite latitude too: the unit is resolved before anything is
    calculated.  The handler of the button then shows "Error during
    calculation: list index out of range" and leaves the results of the
    session as they were. *)
Theorem X6_blank_unit_is_reported (lm : math.libm)
    (session : option yantra_web_app.YantraData)
    (lat_deg lon_deg R_input : float) (unit_name : string) :
  blank unit_name = true ->
  yantra_web_app.generate_yantra_data lm lat_deg lon_deg R_input unit_name
  = Raise (IndexError "list index out of range") /\
  yantra_web_app.on_generate lm session lat_deg lon_deg R_input unit_name
  = (session, "Error during calculation: list index out of range").
Proof.
  intros Hb.
  assert (H : yantra_web_app.generate_yantra_data
                lm lat_deg lon_deg R_input unit_name
              = Raise (IndexError "list index out of range")).
  { unfold yantra_web_app.generate_yantra_data,
      yantra_web_app.get_scale_factor, pystr.contains.
    rewrite (blank_has_no_angula _ Hb).
    unfold pystr.first_word. unfold blank in Hb. apply lstrip_blank in Hb.
    rewrite Hb. reflexivity. }
  split; [exact H|]. unfold yantra_web_app.on_generate. rewrite H.
  reflexivity.
Qed.

Lemma X6_witness :
  yantra_web_app.on_generate reflibm.lm None infinity 75.82 3 " "
  = (None, "Error during calculation: list index out of range").
Proof.
  exact (proj2 (X6_blank_unit_is_reported reflibm.lm None infinity 75.82 3 " "
                  eq_refl)).
Defined.

(** ** The web variant and the text report *)

(** What [generate_yantra_data] returns for a latitude and a longitude of
    the number boxes, once the unit is resolved. *)
Lemma generate_yantra_data_returns (lm : math.libm)
    (lat_deg lon_deg R_input : float) (unit_name : string)
    (scale : float) (symbol : string) :
  math.libm_ok lm ->
  (- 90 <=? lat_deg) && (lat_deg <=? 90) = true ->
  (- 180 <=? lon_deg) && (lon_deg <=? 180) = true ->
  yantra_web_app.get_scale_factor R_input unit_name = Ok (scale, symbol) ->
  exists data,
    yantra_web_app.generate_yantra_data lm lat_deg lon_deg R_input unit_name
    = Ok data /\
    yantra_web_app.pala_bha data
    = yantra_web_app.length_str
        (scale * math.c_tan lm (math.radians lat_deg)) symbol /\
    yantra_web_app.samrat_r data = yantra_web_app.length_str scale symbol /\
    yantra_web_app.time_corr_min data
    = pyfloat.format_f 2 ((lon_deg - 82.5) * 4) /\
    yantra_web_app.time_corr_desc data
    = ("LST is " ++ pyfloat.format_f 2 (abs ((lon_deg - 82.5) * 4))
       ++ " min "
       ++ (if (0 <? (lon_deg - 82.5) * 4)%float then "ahead" else "behind")
       ++ " IST")%string /\
    yantra_web_app.unit_symbol data = symbol.
Proof.
  intros Hlm Hlat Hlon Hsf.
  apply andb_true_iff in Hlat as [Hlat0 Hlat1].
  apply andb_true_iff in Hlon as [Hlon0 Hlon1].
  assert (Hblat : fbnd 7 lat_deg)
    by (apply (between_fbnd lat_deg 90 6333186975989760 (-46)); auto).
  assert (Hblon : fbnd 8 lon_deg)
    by (apply (between_fbnd lon_deg 180 6333186975989760 (-45)); auto).
  assert (Hflat : is_finite lat_deg = true) by (apply (fbnd_is_finite 7), Hblat).
  assert (Hcolat : fbnd 1000 (90 - lat_deg)).
  { apply (fbnd_mono (7 + 2)); [lia|].
    apply fbnd_sub; [fbnd_closed|exact Hblat|lia]. }
  destruct (deg_to_dms_returns lat_deg) as (tlat & Htlat);
    [apply (fbnd_mono 7); [lia|exact Hblat]|].
  destruct (deg_to_dms_returns lon_deg) as (tlon & Htlon);
    [apply (fbnd_mono 8); [lia|exact Hblon]|].
  destruct (deg_to_dms_returns (90 - lat_deg) Hcolat) as (tco & Htco).
  assert (H15 : math.tan lm (math.radians 15)
                = Ok (math.c_tan lm (math.radians 15)))
    by (apply math_1_finite, (math.tan_finite lm Hlm); reflexivity).
  assert (H45 : math.tan lm (math.radians 45)
                = Ok (math.c_tan lm (math.radians 45)))
    by (apply math_1_finite, (math.tan_finite lm Hlm); reflexivity).
  unfold yantra_web_app.generate_yantra_data. cbv zeta.
  rewrite Hsf. cbn [bind].
  rewrite (tan_latitude_finite lm lat_deg Hlm Hflat). cbn [bind].
  rewrite (cos_latitude_finite lm lat_deg Hlm Hflat). cbn [bind].
  rewrite (sin_latitude_finite lm lat_deg Hlm Hflat). cbn [bind].
  rewrite Htlat. cbn [bind]. rewrite Htlon. cbn [bind].
  rewrite Htco. cbn [bind]. rewrite H15. cbn [bind]. rewrite H45. cbn [bind].
  eexists. split; [reflexivity|]. cbn. auto 10.
Qed.

(** X7.  For a latitude and a longitude of the number boxes, the web
    variant and the calculator of the text report, run on the effective
    radius, agree where they compute the same thing: [pala_bha] of the one
    is [samrat_height] of the other followed by the unit symbol,
    [samrat_r] is [R] followed by the unit symbol, [time_corr_min] is the
    minutes [time_offset_min] with two decimals, and the description says
    "ahead" exactly when the minutes are above zero. *)
Theorem X7_web_agrees_with_text_report (lm : math.libm)
    (lat_deg lon_deg R_input : float) (unit_name : string)
    (scale : float) (symbol : string) :
  math.libm_ok lm ->
  (- 90 <=? lat_deg) && (lat_deg <=? 90) = true ->
  (- 180 <=? lon_deg) && (lon_deg <=? 180) = true ->
  yantra_web_app.get_scale_factor R_input unit_name = Ok (scale, symbol) ->
  exists web core,
    yantra_web_app.generate_yantra_data lm lat_deg lon_deg R_input unit_name
    = Ok web /\
    yantra_core.calculate_yantra_dimensions lm lat_deg lon_deg scale
    = Ok core /\
    yantra_web_app.pala_bha web
    = (samrat_height core ++ " " ++ symbol)%string /\
    yantra_web_app.samrat_r web = (R core ++ " " ++ symbol)%string /\
    yantra_web_app.time_corr_min web
    = pyfloat.format_f 2 (time_offset_min core) /\
    yantra_web_app.time_corr_desc web
    = ("LST is " ++ pyfloat.format_f 2 (abs (time_offset_min core))
       ++ " min "
       ++ (if (0 <? time_offset_min core)%float then "ahead" else "behind")
       ++ " IST")%string.
Proof.
  intros Hlm Hlat Hlon Hsf.
  destruct (generate_yantra_data_returns lm lat_deg lon_deg R_input unit_name
              scale symbol Hlm Hlat Hlon Hsf)
    as (web & Hweb & Hp & Hr & Ht & Hd & _).
  exists web.
  apply andb_true_iff in Hlat as [Hlat0 Hlat1].
  apply andb_true_iff in Hlon as [Hlon0 Hlon1].
  assert (Hflat : is_finite lat_deg = true).
  { apply (fbnd_is_finite 7).
    apply (between_fbnd lat_deg 90 6333186975989760 (-46)); auto. }
  assert (Hbl : fbnd 900 lon_deg).
  { apply (fbnd_mono (53 + -45)); [lia|].
    apply (between_fbnd lon_deg 180 6333186975989760 (-45)); auto. }
  destruct (calculate_time_offset_ok lon_deg Hbl) as (text & Htm).
  unfold yantra_core.calculate_yantra_dimensions. cbv zeta.
  rewrite (tan_latitude_finite lm lat_deg Hlm Hflat). cbn [bind].
  rewrite Htm. cbn [bind].
  eexists. split; [exact Hweb|]. split; [reflexivity|].
  cbn [samrat_height R time_offset_min snd].
  rewrite Hp, Hr, Ht, Hd. unfold yantra_web_app.length_str. auto.
Qed.

Lemma X7_witness :
  exists web core,
    yantra_web_app.generate_yantra_data reflibm.lm 26.91 75.82 3 "feet"
    = Ok web /\
    yantra_core.calculate_yantra_dimensions reflibm.lm 26.91 75.82 3
    = Ok core /\
    yantra_web_app.pala_bha web = (samrat_height core ++ " " ++ "feet")%string.
Proof.
  destruct (X7_web_agrees_with_text_report reflibm.lm 26.91 75.82 3 "feet"
              3 "feet" reflibm_ok eq_refl eq_refl eq_refl)
    as (web & core & Hw & Hc & Hp & _).
  exists web, core. auto.
Defined.

(** X8.  With the numbers that the number boxes allow (latitude between
    -90 and 90, longitude between -180 and 180) and a unit of the select
    box, the handler of the button never takes its error branch: it stores
    the new results in the session and shows the success message,
    whatever the radius and whatever the session held. *)
Theorem X8_button_always_succeeds (lm : math.libm)
    (session : option yantra_web_app.YantraData)
    (lat_deg lon_deg R_input : float) (unit_name : string) :
  math.libm_ok lm ->
  (- 90 <=? lat_deg) && (lat_deg <=? 90) = true ->
  (- 180 <=? lon_deg) && (lon_deg <=? 180) = true ->
  In unit_name yantra_web_app.units ->
  exists results,
    yantra_web_app.generate_yantra_data lm lat_deg lon_deg R_input unit_name
    = Ok results /\
    yantra_web_app.on_generate lm session lat_deg lon_deg R_input unit_name
    = (Some results, "Dimensions Calculated Successfully!") /\
    yantra_web_app.unit results = unit_name /\
    yantra_web_app.R_input results = R_input.
Proof.
  intros Hlm Hlat Hlon Hunit.
  destruct (get_scale_factor_returns R_input unit_name Hunit)
    as (scale & symbol & Hsf).
  destruct (generate_yantra_data_returns lm lat_deg lon_deg R_input unit_name
              scale symbol Hlm Hlat Hlon Hsf) as (data & Hd & _).
  exists data. split; [exact Hd|].
  unfold yantra_web_app.on_generate. rewrite Hd. split; [reflexivity|].
  revert Hd. unfold yantra_web_app.generate_yantra_data. cbv zeta.
  repeat match goal with
         | |- context [bind ?r _] => destruct r; cbn [bind]; try discriminate
         end.
  intros H; injection H as <-. split; reflexivity.
Qed.

Lemma X8_witness :
  exists results,
    yantra_web_app.on_generate reflibm.lm None (-33.87) 151.21 0.1 "feet"
    = (Some results, "Dimensions Calculated Successfully!").
Proof.
  destruct (X8_button_always_succeeds reflibm.lm None (-33.87) 151.21 0.1
              "feet" reflibm_ok eq_refl eq_refl)
    as (results & _ & H & _).
  - cbn. auto.
  - exists results. exact H.
Defined.

(** ** East and west of the reference meridian *)

(** The minutes compare with zero as the longitude compares with 82.5. *)
Lemma offset_compare (lambda : float) :
  fbnd 900 lambda ->
  (0 ?= exact ((lambda - 82.5) * 4))%Z = (exact 82.5 ?= exact lambda)%Z.
Proof.
  intros H.
  assert (Hc : fbnd 900 82.5) by fbnd_closed.
  assert (Hd : fbnd 1000 (lambda - 82.5)).
  { apply (fbnd_mono (900 + 2)); [lia|]. apply fbnd_sub; auto; lia. }
  assert (Ht : fbnd 1023 ((lambda - 82.5) * 4)).
  { apply (fbnd_mono (1000 + 3 + 1)); [lia|].
    apply fbnd_mul; [exact Hd|fbnd_closed|lia]. }
  pose proof (mul_4_compare _ Hd) as H4.
  pose proof (sub_compare 900 lambda 82.5 H Hc ltac:(lia)) as Hs.
  rewrite <- Prim2SF_zero in H4, Hs.
  rewrite (compare_exact 0 ((lambda - 82.5) * 4)) in H4
    by (try reflexivity; apply (fbnd_is_finite _ _ Ht)).
  rewrite (compare_exact 0 (lambda - 82.5)) in H4, Hs
    by (try reflexivity; apply (fbnd_is_finite _ _ Hd)).
  rewrite (compare_exact 82.5 lambda) in Hs
    by (try reflexivity; apply (fbnd_is_finite _ _ H)).
  change (exact 0) with 0%Z in H4, Hs. congruence.
Qed.

(** X9.  For every longitude between -180 and 180 the text of the time
    offset says "AHEAD OF" exactly when the longitude is above 82.5 and
    "BEHIND" otherwise, and the minutes are above zero, zero or below zero
    exactly when the longitude is above 82.5, equal to it or below it:
    neither the subtraction nor the multiplication by 4 loses the sign. *)
Theorem X9_ahead_exactly_east_of_the_meridian (lambda : float) :
  (- 180 <=? lambda) && (lambda <=? 180) = true ->
  let minutes := (lambda - 82.5) * 4 in
  (exists clock,
     yantra_core.calculate_time_offset lambda
     = Ok ((clock ++ (if (82.5 <? lambda)%float then "AHEAD OF" else "BEHIND")
            ++ " IST")%string, minutes)) /\
  (0 <? minutes) = (82.5 <? lambda) /\
  (minutes =? 0) = (lambda =? 82.5) /\
  (minutes <? 0) = (lambda <? 82.5).
Proof.
  intros Hrange minutes.
  apply andb_true_iff in Hrange as [Hlo Hhi].
  assert (H : fbnd 900 lambda).
  { apply (fbnd_mono (53 + -45)); [lia|].
    apply (between_fbnd lambda 180 6333186975989760 (-45)); auto. }
  pose proof (offset_compare lambda H) as Hcmp. fold minutes in Hcmp.
  assert (Hfl : is_finite lambda = true) by (apply (fbnd_is_finite _ _ H)).
  assert (Hfm : is_finite minutes = true).
  { apply (fbnd_is_finite 1023). apply (fbnd_mono (900 + 2 + 3 + 1)); [lia|].
    apply (fbnd_mul (900 + 2) 3); [|fbnd_closed|lia].
    apply (fbnd_sub 900); [exact H|fbnd_closed|lia]. }
  assert (Hlt : (0 <? minutes) = (82.5 <? lambda)).
  { rewrite !ltb_exact by (try reflexivity; assumption).
    unfold Z.ltb. change (exact 0) with 0%Z. now rewrite Hcmp. }
  split; [|split; [exact Hlt|split]].
  - destruct (hms_ok _ (abs_offset_seconds_fbnd lambda H))
      as (h & r & q & r' & hours & mins & seconds &
          Hh & Hhours & Hr & Hq & Hmins & Hr' & Hseconds).
    unfold yantra_core.abs_offset_seconds,
      yantra_core.IST_REFERENCE_LONGITUDE in *.
    fold minutes in Hh, Hr, Hr'.
    unfold yantra_core.calculate_time_offset,
      yantra_core.IST_REFERENCE_LONGITUDE. cbv zeta.
    fold minutes.
    rewrite Hh. cbn [bind]. rewrite Hhours. cbn [bind].
    rewrite Hr. cbn [bind]. rewrite Hq. cbn [bind]. rewrite Hmins.
    cbn [bind]. rewrite Hr'. cbn [bind]. rewrite Hseconds. cbn [bind].
    rewrite Hlt.
    exists (pyint.format_0d 2 hours ++ "h " ++ pyint.format_0d 2 mins
            ++ "m " ++ pyint.format_0d 2 seconds ++ "s ")%string.
    rewrite !append_assoc. reflexivity.
  - rewrite !eqb_exact by (try reflexivity; assumption).
    rewrite !Z.eqb_compare. change (exact 0) with 0%Z.
    rewrite (Z.compare_antisym 0), (Z.compare_antisym (exact 82.5)), Hcmp.
    reflexivity.
  - rewrite !ltb_exact by (try reflexivity; assumption).
    unfold Z.ltb. change (exact 0) with 0%Z.
    rewrite (Z.compare_antisym 0), (Z.compare_antisym (exact 82.5)), Hcmp.
    reflexivity.
Qed.

Lemma X9_witness :
  exists clock,
    yantra_core.calculate_time_offset 90
    = Ok ((clock ++ "AHEAD OF" ++ " IST")%string, (90 - 82.5) * 4).
Proof.
  destruct (X9_ahead_exactly_east_of_the_meridian 90 eq_refl)
    as [(clock & H) _].
  exists clock. exact H.
Defined.

(** X10.  In the web variant, for a latitude and a longitude of the
    number boxes and a unit of the select box, the description of the time
    correction says "ahead" exactly when the longitude is above 82.5 and
    "behind" otherwise. *)
Theorem X10_web_ahead_exactly_east_of_the_meridian (lm : math.libm)
    (lat_deg lon_deg R_input : float) (unit_name : string) :
  math.libm_ok lm ->
  (- 90 <=? lat_deg) && (lat_deg <=? 90) = true ->
  (- 180 <=? lon_deg) && (lon_deg <=? 180) = true ->
  In unit_name yantra_web_app.units ->
  exists data,
    yantra_web_app.generate_yantra_data lm lat_deg lon_deg R_input unit_name
    = Ok data /\
    yantra_web_app.time_corr_desc data
    = ("LST is " ++ pyfloat.format_f 2 (abs ((lon_deg - 82.5) * 4))
       ++ " min "
       ++ (if (82.5 <? lon_deg)%float then "ahead" else "behind")
       ++ " IST")%string.
Proof.
  intros Hlm Hlat Hlon Hunit.
  destruct (get_scale_factor_returns R_input unit_name Hunit)
    as (scale & symbol & Hsf).
  destruct (generate_yantra_data_returns lm lat_deg lon_deg R_input unit_name
              scale symbol Hlm Hlat Hlon Hsf)
    as (data & Hd & _ & _ & _ & Hdesc & _).
  exists data. split; [exact Hd|]. rewrite Hdesc.
  apply andb_true_iff in Hlon as [Hlo Hhi].
  assert (H : fbnd 900 lon_deg).
  { apply (fbnd_mono (53 + -45)); [lia|].
    apply (between_fbnd lon_deg 180 6333186975989760 (-45)); auto. }
  assert (Hfm : is_finite ((lon_deg - 82.5) * 4) = true).
  { apply (fbnd_is_finite 1023). apply (fbnd_mono (900 + 2 + 3 + 1)); [lia|].
    apply (fbnd_mul (900 + 2) 3); [|fbnd_closed|lia].
    apply (fbnd_sub 900); [exact H|fbnd_closed|lia]. }
  assert (Hlt : (0 <? (lon_deg - 82.5) * 4) = (82.5 <? lon_deg)).
  { rewrite !ltb_exact
      by (try reflexivity; try assumption; apply (fbnd_is_finite _ _ H)).
    unfold Z.ltb. change (exact 0) with 0%Z.
    now rewrite (offset_compare lon_deg H). }
  rewrite Hlt. reflexivity.
Qed.

Lemma X10_witness :
  exists data,
    yantra_web_app.generate_yantra_data reflibm.lm 26.91 75.82 3 "meters"
    = Ok data /\
    yantra_web_app.time_corr_desc data
    = ("LST is " ++ pyfloat.format_f 2 (abs ((75.82 - 82.5) * 4))
       ++ " min " ++ "behind" ++ " IST")%string.
Proof.
  destruct (X10_web_ahead_exactly_east_of_the_meridian reflibm.lm 26.91 75.82
              3 "meters" reflibm_ok eq_refl eq_refl) as (data & Hd & Hdesc).
  - cbn. auto.
  - exists data. split; [exact Hd|exact Hdesc].
Defined.

(** ** The clock of the time offset *)

(** The seconds of the offset, for a longitude between -180 and 180. *)
Lemma offset_seconds_range (lambda : float) :
  (- 180 <=? lambda) && (lambda <=? 180) = true ->
  let secs := abs ((lambda - 82.5) * 4) * 60 in
  is_finite secs = true /\ (0 <= exact secs < 2 ^ 53 * 2 ^ 1074)%Z.
Proof.
  intros Hrange secs.
  apply andb_true_iff in Hrange as [Hlo Hhi].
  assert (H : fbnd 8 lambda)
    by (apply (between_fbnd lambda 180 6333186975989760 (-45)); auto).
  assert (Hs : fbnd 21 secs).
  { unfold secs. apply (fbnd_mul 14 6); [|fbnd_closed|lia].
    apply fbnd_abs. apply (fbnd_mul 10 3); [|fbnd_closed|lia].
    apply (fbnd_sub 8); [exact H|fbnd_closed|lia]. }
  split; [exact (fbnd_is_finite _ _ Hs)|].
  pose proof (exact_lt_of_fbnd 21 secs Hs ltac:(lia)) as Hlt.
  pose proof (exact_abs_mul_nonneg ((lambda - 82.5) * 4) 60 _ _ Prim2SF_60)
    as Hge.
  fold secs in Hge.
  assert (Hp : (2 ^ (21 + 1074) <= 2 ^ 53 * 2 ^ 1074)%Z).
  { rewrite <- Z.pow_add_r by lia. apply Z.pow_le_mono_r; lia. }
  lia.
Qed.

Lemma leb_exact (x y : float) :
  is_finite x = true -> is_finite y = true ->
  (x <=? y) = (exact x <=? exact y)%Z.
Proof.
  intros Hx Hy. rewrite leb_spec. unfold SFleb.
  rewrite (compare_exact x y Hx Hy). unfold Z.leb.
  destruct (exact x ?= exact y)%Z; reflexivity.
Qed.

Lemma exact_abs (x : float) : exact (abs x) = Z.abs (exact x).
Proof.
  unfold exact. rewrite abs_spec.
  destruct (Prim2SF x) as [s|s| |s m e]; cbn [SFabs ival cond_Zopp];
    try reflexivity.
  destruct s; cbn [cond_Zopp]; lia.
Qed.

(** The offset is 63000 seconds (17 h 30 min) at most. *)
Lemma offset_seconds_bound (lambda : float) :
  (- 180 <=? lambda) && (lambda <=? 180) = true ->
  (exact (abs ((lambda - 82.5) * 4) * 60) < 63001 * 2 ^ 1074)%Z.
Proof.
  intros Hrange. apply andb_true_iff in Hrange as [Hlo Hhi].
  assert (H : fbnd 8 lambda)
    by (apply (between_fbnd lambda 180 6333186975989760 (-45)); auto).
  pose proof (fbnd_is_finite _ _ H) as Hf.
  rewrite leb_exact in Hlo, Hhi by (exact Hf || reflexivity).
  apply Z.leb_le in Hlo, Hhi.
  assert (ET : (2 ^ 1074 = 8796093022208 * 2 ^ 1031)%Z)
    by (change 8796093022208%Z with (2 ^ 43)%Z;
        rewrite <- (Z.pow_add_r 2 43 1031) by lia; reflexivity).
  assert (HU : (0 < 2 ^ 1031)%Z) by (apply pow2_pos; lia).
  assert (V180 : (exact 180 = 180 * 2 ^ 1074)%Z) by (vm_compute; reflexivity).
  assert (V180' : (exact (- 180) = - (180 * 2 ^ 1074))%Z)
    by (vm_compute; reflexivity).
  assert (V825 : (2 * exact 82.5 = 165 * 2 ^ 1074)%Z)
    by (vm_compute; reflexivity).
  assert (V4 : (exact 4 = 4 * 2 ^ 1074)%Z) by (vm_compute; reflexivity).
  assert (V60 : (exact 60 = 60 * 2 ^ 1074)%Z) by (vm_compute; reflexivity).
  rewrite V180 in Hhi. rewrite V180' in Hlo.
  assert (Hd : fbnd 10 (lambda - 82.5))
    by (apply (fbnd_sub 8); [exact H|fbnd_closed|lia]).
  assert (Hm : fbnd 14 ((lambda - 82.5) * 4))
    by (apply (fbnd_mul 10 3); [exact Hd|fbnd_closed|lia]).
  pose proof (exact_sub 8 lambda 82.5 H ltac:(fbnd_closed) ltac:(lia)) as Es.
  change (fexp prec emax (8 + 2) + 1074)%Z with 1031%Z in Es.
  pose proof (exact_mul_near 10 3 (lambda - 82.5) 4 Hd ltac:(fbnd_closed)
                ltac:(lia)) as E4.
  change (fexp prec emax (10 + 3) + 2148)%Z with (1034 + 1074)%Z in E4.
  pose proof (exact_mul_near 14 6 (abs ((lambda - 82.5) * 4)) 60
                (fbnd_abs _ _ Hm) ltac:(fbnd_closed) ltac:(lia)) as E60.
  change (fexp prec emax (14 + 6) + 2148)%Z with (1041 + 1074)%Z in E60.
  rewrite (Z.pow_add_r 2 1034 1074) in E4 by lia.
  rewrite (Z.pow_add_r 2 1041 1074) in E60 by lia.
  rewrite exact_abs in E60. rewrite V4 in E4. rewrite V60 in E60.
  assert (E34 : (2 ^ 1034 = 8 * 2 ^ 1031)%Z)
    by (change 8%Z with (2 ^ 3)%Z;
        rewrite <- (Z.pow_add_r 2 3 1031) by lia; reflexivity).
  assert (E41 : (2 ^ 1041 = 1024 * 2 ^ 1031)%Z)
    by (change 1024%Z with (2 ^ 10)%Z;
        rewrite <- (Z.pow_add_r 2 10 1031) by lia; reflexivity).
  rewrite E34 in E4. rewrite E41 in E60.
  assert (HT : (0 < 2 ^ 1074)%Z) by (apply pow2_pos; lia).
  set (L := exact lambda) in *. set (C := exact 82.5) in *.
  set (D := exact (lambda - 82.5)) in *.
  set (M := exact ((lambda - 82.5) * 4)) in *.
  set (S := exact (abs ((lambda - 82.5) * 4) * 60)) in *.
  set (T := (2 ^ 1074)%Z) in *. set (U := (2 ^ 1031)%Z) in *.
  clearbody L C D M S.
  assert (E4' : (Z.abs (M - 4 * D) <= 4 * U)%Z).
  { replace (2 * (M * T - D * (4 * T)))%Z with (2 * T * (M - 4 * D))%Z
      in E4 by ring.
    rewrite Z.abs_mul, (Z.abs_eq (2 * T)) in E4 by lia.
    apply (Z.mul_le_mono_pos_l _ _ (2 * T)); [lia|].
    replace (2 * T * (4 * U))%Z with (8 * U * T)%Z by ring. exact E4. }
  assert (E60' : (Z.abs (S - 60 * Z.abs M) <= 512 * U)%Z).
  { replace (2 * (S * T - Z.abs M * (60 * T)))%Z
      with (2 * T * (S - 60 * Z.abs M))%Z in E60 by ring.
    rewrite Z.abs_mul, (Z.abs_eq (2 * T)) in E60 by lia.
    apply (Z.mul_le_mono_pos_l _ _ (2 * T)); [lia|].
    replace (2 * T * (512 * U))%Z with (1024 * U * T)%Z by ring. exact E60. }
  clear E4 E60. clearbody T U. lia.
Qed.

(** X11.  For every longitude between -180 and 180 the hours, minutes and
    seconds in the text of the time offset are those of the whole seconds
    of the offset: the minutes and the seconds are between 0 and 59, the
    hours are between 0 and 17, and hours times 3600 plus minutes times 60
    plus seconds is [int] of the seconds (the absolute minutes times 60),
    which is 63000 at most.  Nothing is lost or counted twice by the three
    float divisions, and each of the three numbers has two digits. *)
Theorem X11_clock_is_the_whole_seconds (lambda : float) :
  (- 180 <=? lambda) && (lambda <=? 180) = true ->
  let minutes_signed := (lambda - 82.5) * 4 in
  let secs := abs minutes_signed * 60 in
  exists hours minutes seconds total : Z,
    yantra_core.calculate_time_offset lambda
    = Ok ((pyint.format_0d 2 hours ++ "h " ++ pyint.format_0d 2 minutes
           ++ "m " ++ pyint.format_0d 2 seconds ++ "s "
           ++ (if (0 <? minutes_signed)%float then "AHEAD OF" else "BEHIND")
           ++ " IST")%string, minutes_signed) /\
    pyfloat.int secs = Ok total /\
    (0 <= hours <= 17)%Z /\ (0 <= minutes <= 59)%Z /\
    (0 <= seconds <= 59)%Z /\
    (hours * 3600 + minutes * 60 + seconds = total)%Z /\ (total <= 63000)%Z.
Proof.
  intros Hrange minutes_signed secs.
  destruct (offset_seconds_range lambda Hrange) as [Hf Hr].
  pose proof (offset_seconds_bound lambda Hrange) as Hmax.
  fold minutes_signed in Hmax. fold secs in Hmax.
  fold minutes_signed in Hf, Hr. fold secs in Hf, Hr.
  assert (HT : (0 < 2 ^ 1074)%Z) by (apply pow2_pos; lia).
  assert (V3600 : (exact 3600 = 3600 * 2 ^ 1074)%Z) by (vm_compute; reflexivity).
  assert (V60 : (exact 60 = 60 * 2 ^ 1074)%Z) by (vm_compute; reflexivity).
  set (X := exact secs) in *. set (T := (2 ^ 1074)%Z) in *.
  (* hours *)
  destruct (exact_floordiv secs 3600 3600 Hf Hr eq_refl ltac:(lia) V3600)
    as (h & Hh & Hhf & Vh).
  fold X in Vh. rewrite V3600 in Vh. fold T in Vh.
  assert (Hq1 : (0 <= X / (3600 * T))%Z) by (apply Z.div_pos; lia).
  pose proof (exact_int h Hhf ltac:(rewrite Vh; fold T; nia)) as Hhours.
  rewrite Vh in Hhours. fold T in Hhours.
  rewrite Z.div_mul in Hhours by lia.
  (* minutes *)
  destruct (exact_rem secs 3600 3600 Hf Hr eq_refl ltac:(lia) V3600)
    as (r & Hrm & Hrf & Vr).
  fold X in Vr. rewrite V3600 in Vr. fold T in Vr.
  pose proof (Z.mod_pos_bound X (3600 * T) ltac:(lia)) as Hrb.
  assert (Hrr : (0 <= exact r < 2 ^ 53 * 2 ^ 1074)%Z).
  { rewrite Vr. fold T. split; [lia|].
    assert (3600 < 2 ^ 53)%Z by (vm_compute; reflexivity). nia. }
  destruct (exact_floordiv r 60 60 Hrf Hrr eq_refl ltac:(lia) V60)
    as (q & Hq & Hqf & Vq).
  rewrite V60, Vr in Vq. fold T in Vq.
  assert (Hq2 : (0 <= X mod (3600 * T) / (60 * T))%Z)
    by (apply Z.div_pos; lia).
  pose proof (exact_int q Hqf ltac:(rewrite Vq; fold T; nia)) as Hminutes.
  rewrite Vq in Hminutes. fold T in Hminutes.
  rewrite Z.div_mul in Hminutes by lia.
  (* seconds *)
  destruct (exact_rem secs 60 60 Hf Hr eq_refl ltac:(lia) V60)
    as (r' & Hrm' & Hrf' & Vr').
  fold X in Vr'. rewrite V60 in Vr'. fold T in Vr'.
  pose proof (Z.mod_pos_bound X (60 * T) ltac:(lia)) as Hrb'.
  pose proof (exact_int r' Hrf' ltac:(rewrite Vr'; lia)) as Hseconds.
  rewrite Vr' in Hseconds. fold T in Hseconds.
  (* the whole seconds *)
  pose proof (exact_int secs Hf ltac:(lia)) as Htotal.
  fold X in Htotal. fold T in Htotal.
  destruct (hms_arith X T HT ltac:(lia)) as (A1 & A2 & A3).
  exists (X / (3600 * T))%Z, (X mod (3600 * T) / (60 * T))%Z,
    (X mod (60 * T) / T)%Z, (X / T)%Z.
  split.
  { unfold yantra_core.calculate_time_offset,
      yantra_core.IST_REFERENCE_LONGITUDE. cbv zeta.
    fold minutes_signed. fold secs.
    rewrite Hh. cbn [bind]. rewrite Hhours. cbn [bind].
    rewrite Hrm. cbn [bind]. rewrite Hq. cbn [bind]. rewrite Hminutes.
    cbn [bind]. rewrite Hrm'. cbn [bind]. rewrite Hseconds. cbn [bind].
    reflexivity. }
  split; [exact Htotal|].
  rewrite A1, A2, A3.
  assert (Hx : (0 <= X / T <= 63000)%Z).
  { split; [apply Z.div_pos; lia|].
    assert (X / T < 63001)%Z; [|lia]. apply Z.div_lt_upper_bound; lia. }
  set (x := (X / T)%Z) in *. clearbody x. clear - Hx.
  pose proof (Z.div_mod x 3600 ltac:(lia)) as D1.
  pose proof (Z.mod_pos_bound x 3600 ltac:(lia)) as B1.
  pose proof (Z.div_mod (x mod 3600) 60 ltac:(lia)) as D2.
  pose proof (Z.mod_pos_bound (x mod 3600) 60 ltac:(lia)) as B2.
  pose proof (Z.mod_pos_bound x 60 ltac:(lia)) as B3.
  assert (E : ((x mod 3600) mod 60 = x mod 60)%Z).
  { change 3600%Z with (60 * 60)%Z.
    rewrite (Z.rem_mul_r x 60 60) by lia.
    rewrite (Z.mul_comm 60 (x / 60 mod 60)), Z.mod_add by lia.
    apply Z.mod_mod. lia. }
  assert (0 <= x / 3600)%Z by (apply Z.div_pos; lia).
  assert (0 <= x mod 3600 / 60)%Z by (apply Z.div_pos; lia).
  lia.
Qed.

Lemma X11_witness :
  exists hours minutes seconds total : Z,
    pyfloat.int (abs ((75.8167 - 82.5) * 4) * 60) = Ok total /\
    (hours * 3600 + minutes * 60 + seconds = total)%Z.
Proof.
  destruct (X11_clock_is_the_whole_seconds 75.8167 eq_refl)
    as (hours & minutes & seconds & total & _ & Ht & _ & _ & _ & Hsum & _).
  exists hours, minutes, seconds, total. split; [exact Ht|exact Hsum].
Defined.

(** ** The parts of an angle *)

Lemma exact_abs_nonneg (x : float) : (0 <= exact (abs x))%Z.
Proof.
  unfold exact. rewrite abs_spec.
  destruct (Prim2SF x) as [s|s| |s m e]; cbn [SFabs ival cond_Zopp]; lia.
Qed.

(** The whole part of a float below [2^53] that is not negative, and
    sixty times the rest. *)
Lemma whole_and_rest (a : float) :
  is_finite a = true -> (0 <= exact a < 2 ^ 53 * 2 ^ 1074)%Z ->
  let whole := (exact a / 2 ^ 1074)%Z in
  let rest := (a - pyfloat.of_dyadic whole 0) * 60 in
  pyfloat.int a = Ok whole /\
  pyfloat.of_int whole = Ok (pyfloat.of_dyadic whole 0) /\
  is_finite rest = true /\
  (0 <= exact rest < 60 * 2 ^ 1074)%Z /\
  (Z.abs (exact rest - 60 * (exact a - whole * 2 ^ 1074)) <= 2 ^ 1026)%Z.
Proof.
  intros Ha HX whole rest.
  assert (HT : (0 < 2 ^ 1074)%Z) by (apply pow2_pos; lia).
  destruct (exact_frac a Ha HX) as (Hy & Hf & Ef). fold whole in Hy, Hf, Ef.
  pose proof (Z.mod_pos_bound (exact a) (2 ^ 1074) HT) as Hmod.
  pose proof (below_one_gap _ Hf ltac:(rewrite Ef; exact Hmod)) as Hgap.
  destruct (exact_times_60 _ Hf ltac:(rewrite Ef in *; lia))
    as (Hrf & Hrb & Hre).
  fold rest in Hrf, Hrb, Hre.
  split; [apply exact_int; [exact Ha|lia]|].
  split; [unfold pyfloat.of_int; cbv zeta; rewrite Hy; reflexivity|].
  split; [exact Hrf|]. split; [exact Hrb|].
  rewrite Ef in Hre.
  replace (exact a - whole * 2 ^ 1074)%Z with (exact a mod 2 ^ 1074)%Z;
    [exact Hre|].
  unfold whole. rewrite Z.mod_eq by lia. ring.
Qed.

(** X12.  For every angle below [2^53] in magnitude, [deg_to_dms] prints
    minutes between 0 and 59 and formats seconds that are a float from 0
    up to, but not including, 60; so the text of the seconds lies between
    0.00 and 60.00.  Degrees, minutes and seconds add up to the magnitude
    of the angle: they are off by [61 * 2^-48] seconds of arc at most. *)
Theorem X12_minutes_and_seconds_stay_below_60 (deg : float) :
  fbnd 53 deg ->
  exists (d m : Z) (s : float),
    yantra_web_app.deg_to_dms (Some deg)
    = Ok (pyint.str d ++ degree_sign ++ " " ++ pyint.str m ++ "' "
          ++ pyfloat.format_f 2 s ++ dquote)%string /\
    (0 <= d)%Z /\ (0 <= m <= 59)%Z /\
    is_finite s = true /\ (0 <= exact s < 60 * one_exact)%Z /\
    (0 <= printed 2 s <= 6000)%Z /\
    (2 ^ 48 * Z.abs (3600 * (d * one_exact) + 60 * (m * one_exact) + exact s
                     - 3600 * exact (abs deg)) <= 61 * one_exact)%Z.
Proof.
  intros Hb. apply fbnd_abs in Hb.
  pose proof (fbnd_is_finite _ _ Hb) as Ha.
  pose proof (exact_abs_nonneg deg) as Hpos.
  pose proof (exact_lt_of_fbnd 53 _ Hb ltac:(lia)) as Hlt.
  rewrite Z.abs_eq, (Z.pow_add_r 2 53 1074) in Hlt by lia.
  assert (HT : (0 < 2 ^ 1074)%Z) by (apply pow2_pos; lia).
  destruct (whole_and_rest (abs deg) Ha ltac:(lia))
    as (Hd & Hdf & Hmf & Hmb & Hme).
  set (d := (exact (abs deg) / 2 ^ 1074)%Z) in *.
  set (m_float := (abs deg - pyfloat.of_dyadic d 0) * 60) in *.
  assert (H53 : (60 * 2 ^ 1074 < 2 ^ 53 * 2 ^ 1074)%Z).
  { apply Z.mul_lt_mono_pos_r; [exact HT|reflexivity]. }
  destruct (whole_and_rest m_float Hmf ltac:(lia))
    as (Hm & Hmf' & Hsf & Hsb & Hse).
  set (m := (exact m_float / 2 ^ 1074)%Z) in *.
  set (s := (m_float - pyfloat.of_dyadic m 0) * 60) in *.
  exists d, m, s.
  split.
  { unfold yantra_web_app.deg_to_dms. cbv zeta.
    rewrite Hd. cbn [bind]. rewrite Hdf. cbn [bind]. fold m_float.
    rewrite Hm. cbn [bind]. rewrite Hmf'. cbn [bind]. fold s.
    replace (1 * d)%Z with d by lia. reflexivity. }
  assert (Hd0 : (0 <= d)%Z) by (apply Z.div_pos; lia).
  assert (Hm0 : (0 <= m <= 59)%Z).
  { split; [apply Z.div_pos; lia|].
    assert (m < 60)%Z; [|lia]. apply Z.div_lt_upper_bound; lia. }
  pose proof (printed_err 2 s) as Hp.
  change (10 ^ Z.of_nat 2)%Z with 100%Z in Hp.
  pose proof (Z.div_mod (exact (abs deg)) (2 ^ 1074) ltac:(lia)) as D1.
  pose proof (Z.div_mod (exact m_float) (2 ^ 1074) ltac:(lia)) as D2.
  fold d in D1. fold m in D2.
  assert (ET : (2 ^ 1074 = 2 ^ 48 * 2 ^ 1026)%Z)
    by (rewrite <- (Z.pow_add_r 2 48 1026) by lia; reflexivity).
  assert (HP : (0 < 2 ^ 1026)%Z) by (apply pow2_pos; lia).
  assert (E48 : (2 ^ 48 = 281474976710656)%Z) by reflexivity.
  unfold one_exact in *.
  set (X := exact (abs deg)) in *. set (M := exact m_float) in *.
  set (S := exact s) in *. set (N := printed 2 s) in *.
  set (F := (X mod 2 ^ 1074)%Z) in *. set (R := (M mod 2 ^ 1074)%Z) in *.
  rewrite ET in *. rewrite E48 in *.
  set (P := (2 ^ 1026)%Z) in *.
  clearbody X M S N F R P d m.
  split; [exact Hd0|]. split; [exact Hm0|]. split; [exact Hsf|].
  split; [lia|]. split; [lia|]. lia.
Qed.

Lemma X12_witness :
  exists (d m : Z) (s : float),
    yantra_web_app.deg_to_dms (Some 26.9167)
    = Ok (pyint.str d ++ degree_sign ++ " " ++ pyint.str m ++ "' "
          ++ pyfloat.format_f 2 s ++ dquote)%string /\
    (0 <= m <= 59)%Z /\ (0 <= printed 2 s <= 6000)%Z.
Proof.
  assert (Hb : fbnd 53 26.9167) by fbnd_closed.
  destruct (X12_minutes_and_seconds_stay_below_60 26.9167 Hb)
    as (d & m & s & Ht & _ & Hm & _ & _ & Hp & _).
  exists d, m, s. split; [exact Ht|]. split; [exact Hm|exact Hp].
Defined.

End Extras.
